(* ===== verification/_CoqProject ===== *)
-Q . S2P
Prelude.v
PortIO.v
RingBuffer.v
LineReader.v
Fb.v
Terminal.v
Keyboard.v
Pic.v
Idt.v
Cpu.v
Kernel.v
System.v
Cursor.v
