(* ===== verification/Prelude.v ===== *)
(** * A verification development of the keyboard input pipeline of a small i386 kernel

    The program (src/) is a bare-metal i386 kernel.  Its input path runs
    from a keyboard interrupt to a line of text in the foreground loop:

    - [include/io.h]          : [outb]/[inb], byte-wide port I/O;
    - [kernel/pic.c]          : [pic_remap] (ICW1..ICW4 handshake on both
                                8259 controllers) and [pic_acknowledge];
    - [kernel/interrupts.c]   : [set_idt], [interrupts_install_idt] (one
                                gate, [lidt], then [pic_remap(32, 40)]) and
                                [interrupt_handler], the dispatcher;
    - [kernel/keyboard.c]     : the scan-code table [sc_ascii] and
                                [keyboard_isr];
    - [kernel/input_buffer.c] : the ring buffer [input_put]/[getc_nonblock]
                                and the busy-waiting [readline];
    - [kernel/fb.c]           : the VGA text framebuffer and its cursor;
    - [kernel/terminal.c]     : [terminal_init], [terminal_write],
                                [terminal_put] and the shell loop
                                [terminal_run];
    - [kernel/kernel.c]       : [kernel_main], the boot sequence.

    The kernel boots ([kernel_main]: clear the screen, install the vector
    table, print the banners), then loops in [terminal_run], which calls
    [readline] on a 256-byte stack buffer.  [readline] polls the ring
    buffer.  Asynchronously, vector 33 enters [interrupt_handler], which
    calls [keyboard_isr] and acknowledges the controller.

    ** Layout of the library (one file per component, dependency order)

    - [Prelude] (this file): the [kern_scope] notations [a.[i]] and
      [a.[i := v]] for checked array access ([load]/[store]: an access out
      of bounds is undefined behaviour and gives [None]); C integer
      conversions [u8], [u16], [u32], [s8] (signed [char]); the
      [CharQueue]/[CharQueueLaws] classes, the interface the line reader
      is proved against and the ring buffer implements; the Ltac tactics
      ([bind_inv] inverts runs in the option monad) and the [kern] hint
      databases.
    - [PortIO]: hardware events [Outb], [Inb], [Lidt]; every operation
      returns the events it emits, in program order.  [inb] takes the byte
      the device drives as a parameter.
    - [RingBuffer]: Module [FifoSpec], a bounded FIFO of capacity 255 (the
      contract); Module [Ring], the static [buffer]/[head]/[tail] as a
      record and [input_put]/[getc_nonblock] line by line, with its
      well-formedness invariant, the abstraction function [contents] and
      the simulation of [FifoSpec]; [getc_preempted], [getc_nonblock]
      statement by statement with the interrupt's [input_put] calls
      between its statements; the [CharQueue] instance.
    - [LineReader]: Module [Readline]: [readline_iter] is one iteration of
      the [while (1)] body, [readline_loop] the loop with fuel, [readline]
      the function; proved for every [CharQueueLaws] source.  Section
      [Interleaving] models a producer (the interrupt, calling
      [src_put]) and the consumer (one iteration per step) interleaved in
      any order.
    - [Fb]: Module [Fb]: the cursor globals and the 4000 bytes at 0xB8000
      as a record; [fb_move_cursor], [fb_clear] (its [for] loop is
      [clear_cells]), [fb_write_char]; a model of the CRTC cursor
      registers.
    - [Terminal]: Module [Terminal]: C strings as lists of bytes ending in
      0; [terminal_write], [terminal_put], [terminal_init].
    - [Keyboard]: Module [Keyboard]: [sc_ascii] entry by entry,
      [kbd_decode] (the tests of [keyboard_isr]) and [keyboard_isr].
    - [Pic]: Module [Pic]: [pic_remap], [pic_acknowledge], and a model of
      the two 8259s (initialisation word state machine, mask, in-service
      register) that gives the port writes their meaning.
    - [Idt]: Module [Idt]: the packed [IDTDescriptor] and [IDT], their byte
      layout, [set_idt], [interrupts_install_idt], and the decoding the CPU
      applies to a gate.
    - [Cpu]: Module [Cpu] (hardware): the routing of an IRQ line by the
      two cascaded 8259s ([pic_vector]: masks, vector bases), the IDTR
      as the last [lidt] ([idtr_of]), and the CPU's delivery through the
      table ([cpu_deliver]: a present 32-bit interrupt gate is entered,
      else #NP or #GP, then the double fault, then shutdown).
    - [Kernel]: Module [Kernel]: the whole machine (screen, ring buffer,
      vector table, foreground state, trace); [interrupt_handler];
      [kernel_boot] ([kernel_main] up to the first [readline] of
      [terminal_run]); [fg_poll] (one [readline] iteration and, when it
      returns, the echo of [terminal_run]); the step relation [step]
      interleaving interrupts (any vector, any byte on port 0x60) with
      foreground polls.
    - [System]: Module [System]: [interrupt_handler_33], the entry stub
      (modelled from the spec), and [irq_deliver], the path of a hardware
      IRQ from the controllers through the table to the stub, with the
      controller and CPU state read off the machine's trace.
    - [Cursor]: Module [Cursor]: the VGA controller's cursor registers,
      run over the machine's whole trace, against the cursor globals of
      [fb.c] ([tracks]), and the events that leave the controller alone
      ([off_crtc]).

    ** What is proved

    - System level ([Kernel]): every state reachable after the boot has
      faulted or still has an empty ring buffer and [readline] at count 0
      ([readline_never_returns]); faults are exactly the make codes
      58..127 on vector 33 ([fault_only_on_unmapped_key]); the boot
      screen shows the prompt twice;
      and were the ring fed a line, the foreground's polls would echo it
      and prompt again ([shell_echoes_line]), so the fault is in
      [keyboard_isr] alone.
    - Interrupt hardware ([System]): the configuration the boot leaves
      (table, IDTR, controller bases and masks) holds in every reachable
      state; IRQ 1 then reaches the dispatcher with vector 33, and every
      other device line, the timer's included, is unmasked and
      triple-faults the CPU through an empty gate
      ([irq_delivery_after_boot]); a keystroke on IRQ 1 has exactly
      [keyboard_isr]'s effect followed by the EOI and leads to a
      reachable state again ([keystroke_after_boot]); an arrow key (0xE0,
      then a make code past the table) is ignored on its first byte and
      faults on the second ([extended_key_faults]).
    - Screen and controller ([Cursor]): in every reachable state the
      controller's cursor registers, programmed by the whole trace from
      any power-on contents, show [cursor_row * 80 + cursor_col]
      ([hw_cursor_tracks]).
    - Ring buffer: invariant preservation, simulation of the bounded
      FIFO, round trip, overflow policy (the newest is dropped), the
      collision of the stored byte 0xFF with the empty sentinel [-1], and
      linearizability: however the interrupt's [input_put] calls fall
      between the statements of [getc_nonblock], value and final state
      are those of a sequential order ([getc_linearizable]), which is why
      the ring needs no lock.
    - Line reader: with enough fuel it returns the line, truncated to
      [max - 1] characters and NUL-terminated; it terminates after exactly
      one iteration per character up to the newline; it returns only
      after a newline; the producer/consumer interleaving preserves order;
      for every [max] and every array length, it stays inside the array
      exactly when the count it reaches is below the array's length, and
      otherwise faults ([readline_bounds]: [max = 0] still writes
      [out[0]]).
    - Keyboard: the table decodes as the US layout of scan code set 1
      (a reference written from the keyboard) and release codes give
      nothing ([kbd_decode_layout]); the make codes 58..127 read past the
      58-entry table; the handler's effect.
    - Screen: [fb_write_char] on every branch, [fb_clear] and the
      equivalence of its loop with a slice replacement, the CRTC
      programming, [terminal_write] never faults, and lays a line of text
      out cell after cell from the cursor, wrapping from the last cell to
      the first ([terminal_write_text]); on any text, newlines included,
      it computes what a reference with one position modulo the 2000
      cells computes ([terminal_write_screen]).
    - Controller and vector table: [pic_remap] initialises both
      controllers of the 8259 model to the vector bases, the cascade, the
      mode and an empty mask from any state; [pic_acknowledge] clears the
      in-service bits in the required order; [set_idt] writes a present
      ring-0 interrupt gate whose offset is the handler, into its entry
      only; [interrupts_install_idt] leaves entry 33 the gate and the
      others zero and loads the table before the remap.

    ** Fuel and bounds

    [readline] is [while (1)]: [readline_loop] counts loop iterations.
    The line theorem states that fuel larger than the number of
    characters up to the newline is enough (one iteration per character),
    so it proves termination, not only partial correctness.  The system
    theorems need no fuel: [step] is a relation and reachability is its
    reflexive-transitive closure.  Integers are kept at their C width
    where it matters: the ring indices wrap with [Z.rem] modulo 256,
    characters are signed bytes ([s8]), port values bytes, IDT fields
    16/8-bit, addresses 32-bit.

    ** Not modelled

    The assembly stubs [load_idt] and [interrupt_handler_33] are not in
    the repository; they are modelled from the spec's description of the
    table loading and the entry trampoline: [load_idt] is its [lidt]
    event, [interrupt_handler_33] calls [interrupt_handler(33)], and an
    interrupt is one atomic step (the stub's saving and restoring of the
    foreground's registers and its [iret] are not modelled).  The boot
    loader and the linker script are not in the repository either: the
    stub's and the table's addresses are parameters, and so are the
    states the firmware leaves in the 8259s.  Of the hardware, the
    controllers' in-service priority and the CPU's interrupt flag are not
    modelled: nothing in src/ executes [sti], and the model lets
    interrupts arrive at any step, the most permissive assumption; the
    delivery theorems speak of an IRQ when it is delivered.  [step]
    interleaves interrupts with whole iterations of [readline]'s loop;
    [getc_linearizable] shows that an interrupt arriving between the
    statements of [getc_nonblock] adds no behaviour, which justifies that
    granularity for the ring.  [terminal_write_text] is stated for at
    most a screenful of text: a longer line overwrites its own beginning.
*)

From stdpp Require Export base list numbers.
From Stdlib Require Export ZArith Lia.

Declare Scope kern_scope.
Delimit Scope kern_scope with kern.
Open Scope Z_scope.

(** ** C integer conversions *)

(** Conversion to [u8int]/[unsigned char] (and the 8-bit port value of
    [outb]). *)
Definition u8 (z : Z) : Z := Z.land z 255.
(** Conversion to [u16int]. *)
Definition u16 (z : Z) : Z := Z.land z 65535.
(** Conversion to [u32int]. *)
Definition u32 (z : Z) : Z := Z.land z (Z.ones 32).
(** Conversion to [char], signed on i386 (two's complement wrap). *)
Definition s8 (z : Z) : Z := (z + 128) mod 256 - 128.

(** Value ranges of the C types. *)
Definition char_range (z : Z) : Prop := -128 <= z < 128.
Definition u8_range (z : Z) : Prop := 0 <= z < 256.

#[export] Instance char_range_dec z : Decision (char_range z) := _.
#[export] Instance u8_range_dec z : Decision (u8_range z) := _.

(** ** Checked array access

    A C array read or write at an index outside the array is undefined
    behaviour; [load] and [store] return [None] there. *)
Definition load {A} (l : list A) (i : Z) : option A :=
  if decide (0 <= i) then l !! Z.to_nat i else None.

Definition store {A} (l : list A) (i : Z) (v : A) : option (list A) :=
  if decide (0 <= i < Z.of_nat (length l)) then Some (<[Z.to_nat i := v]> l)
  else None.

Notation "a .[ i ]" := (load a i) (at level 1, format "a .[ i ]") : kern_scope.
Notation "a .[ i := v ]" := (store a i v)
  (at level 1, format "a .[ i  :=  v ]") : kern_scope.

(** ** The interface between the ring buffer and the line reader

    [readline] only calls [getc_nonblock] and the keyboard side only calls
    [input_put]; both are proved against this interface.  [src_pending s]
    is the list of values the successive [src_getc] calls return before
    the source becomes empty, [src_ok] the invariant of the implementation
    and [src_capacity] the number of characters it can hold. *)
Class CharQueue (Src : Type) := {
  src_getc : Src -> Z * Src;
  src_put : Z -> Src -> Src;
  src_pending : Src -> list Z;
  src_ok : Src -> Prop;
  src_capacity : nat
}.

(** The contract of a bounded FIFO whose empty result is [-1] and whose
    overflow policy is drop-newest. *)
Class CharQueueLaws (Src : Type) `{!CharQueue Src} := {
  src_getc_ok s : src_ok s -> src_ok (src_getc s).2;
  src_put_ok c s : char_range c -> src_ok s -> src_ok (src_put c s);
  src_getc_empty s :
    src_ok s -> src_pending s = [] -> (src_getc s).1 = -1 /\ src_pending (src_getc s).2 = [];
  src_getc_head s c cs :
    src_ok s -> src_pending s = c :: cs -> (src_getc s).1 = c /\ src_pending (src_getc s).2 = cs;
  src_put_pending c s :
    src_ok s -> src_pending (src_put c s) =
      if decide (length (src_pending s) < src_capacity)%nat then src_pending s ++ [c]
      else src_pending s
}.

(** ** Automation *)

Create HintDb kern discriminated.
Create Rewrite HintDb kern_rw.

(** Closed goals about concrete lists of characters. *)
Ltac forall_chars := repeat constructor; unfold char_range; lia.
Ltac not_in_list := repeat (apply not_elem_of_cons; split; [lia|]); apply not_elem_of_nil.
(** Closed arithmetic facts, by evaluation. *)
Ltac close_concrete := repeat split; vm_compute; first [reflexivity | intros; discriminate].
Ltac in_list := apply list_elem_of_In; cbn; repeat (first [left; reflexivity | right]).

(** Arithmetic with [mod]/[div] by constants. *)
Ltac zify_mod := Z.div_mod_to_equations; lia.

Ltac decide_cases :=
  repeat match goal with
  | |- context [decide ?P] => destruct (decide P)
  | H : context [decide ?P] |- _ => destruct (decide P)
  end.

(** Invert a successful run in the option monad: each [m ≫= k = Some y]
    in [H] becomes an equation [m = Some x] and the continuation on [x];
    pairs bound by a pattern are split. *)
Ltac bind_inv H :=
  lazymatch type of H with
  | mbind _ _ = Some _ =>
      let x := fresh "x" in let Ex := fresh "E" in
      apply bind_Some in H as (x & Ex & H);
      lazymatch type of x with prod _ _ => destruct x | _ => idtac end;
      cbn beta iota zeta in H, Ex; bind_inv Ex; bind_inv H
  | _ => idtac
  end.

(** Unfold a checked access and close the side conditions. *)
Ltac access_simpl :=
  unfold load, store in *; decide_cases; simplify_eq; try done; try lia.

(** ** Generic lemmas *)

Lemma u8_bound z : 0 <= u8 z < 256.
Proof. unfold u8. change 255 with (Z.ones 8). rewrite Z.land_ones by lia.
  apply Z.mod_pos_bound; lia. Qed.

Lemma u8_id z : 0 <= z < 256 -> u8 z = z.
Proof. intros. unfold u8. change 255 with (Z.ones 8). rewrite Z.land_ones by lia.
  apply Z.mod_small; lia. Qed.

Lemma u16_bound z : 0 <= u16 z < 65536.
Proof. unfold u16. change 65535 with (Z.ones 16). rewrite Z.land_ones by lia.
  apply Z.mod_pos_bound; lia. Qed.

Lemma u16_id z : 0 <= z < 65536 -> u16 z = z.
Proof. intros. unfold u16. change 65535 with (Z.ones 16). rewrite Z.land_ones by lia.
  apply Z.mod_small; lia. Qed.

Lemma u32_bound z : 0 <= u32 z < 2 ^ 32.
Proof. unfold u32. rewrite Z.land_ones by lia. apply Z.mod_pos_bound. lia. Qed.

Lemma u32_id z : 0 <= z < 2 ^ 32 -> u32 z = z.
Proof. intros. unfold u32. rewrite Z.land_ones by lia. apply Z.mod_small; lia. Qed.

Lemma s8_range z : char_range (s8 z).
Proof. unfold char_range, s8. pose proof (Z.mod_pos_bound (z + 128) 256). lia. Qed.

Lemma s8_id z : char_range z -> s8 z = z.
Proof. unfold char_range, s8. intros. rewrite Z.mod_small; lia. Qed.

Lemma load_Some_bound {A} (l : list A) i v : l.[i]%kern = Some v -> 0 <= i < Z.of_nat (length l).
Proof. intros Hl. access_simpl. apply lookup_lt_Some in Hl. lia. Qed.

Lemma load_in_range {A} (l : list A) i :
  0 <= i < Z.of_nat (length l) -> exists v, l.[i]%kern = Some v /\ l !! Z.to_nat i = Some v.
Proof. intros. access_simpl. destruct (l !! Z.to_nat i) eqn:E; eauto.
  apply lookup_ge_None in E. lia. Qed.

Lemma store_in_range {A} (l : list A) i v :
  0 <= i < Z.of_nat (length l) -> (l.[i := v])%kern = Some (<[Z.to_nat i := v]> l).
Proof. access_simpl. Qed.

Lemma store_out_of_range {A} (l : list A) i v :
  ~ (0 <= i < Z.of_nat (length l)) -> (l.[i := v])%kern = None.
Proof. access_simpl. Qed.

Lemma store_Some {A} (l l' : list A) i v :
  (l.[i := v])%kern = Some l' -> 0 <= i < Z.of_nat (length l) /\ l' = <[Z.to_nat i := v]> l.
Proof. unfold store. case_decide; [|done]. intros [= <-]. done. Qed.

Lemma store_length {A} (l l' : list A) i v : (l.[i := v])%kern = Some l' -> length l' = length l.
Proof. unfold store. decide_cases; intros; simplify_eq. by rewrite length_insert. Qed.

(** Writing at the end of a prefix laid over an array. *)
Lemma insert_prefix_drop {A} (p o : list A) (j : nat) (x : A) :
  j = length p -> (j < length o)%nat -> <[j := x]> (p ++ drop j o) = p ++ x :: drop (S j) o.
Proof.
  intros -> Hj. rewrite insert_app_r_alt, Nat.sub_diag by lia. f_equal.
  destruct (lookup_lt_is_Some_2 o (length p)) as [y Hy]; [lia|].
  by rewrite (drop_S o y (length p)).
Qed.

#[export] Hint Resolve u8_bound u16_bound s8_range store_length : kern.
#[export] Hint Rewrite @store_in_range using lia : kern_rw.
