(* ===== verification/PortIO.v ===== *)
(** * Hardware events ([src/include/io.h] and the external [load_idt])

    [outb] and [inb] are single [asm volatile] instructions; the model
    records each as an event of the trace the components return, with
    the port narrowed to [u16int] and the value to [u8int] as the
    prototypes do.  [inb] takes the byte the device drives on the bus as
    an input of the model.  [Lidt] records the [lidt] instruction of the
    external assembly routine [load_idt]. *)

From S2P Require Import Prelude.

Inductive hw_event :=
| Outb (port value : Z)
| Inb (port value : Z)
| Lidt (base limit : Z).

#[export] Instance hw_event_eq_dec : EqDecision hw_event.
Proof. solve_decision. Defined.

Definition trace := list hw_event.

(** [static inline void outb(u16int port, u8int value)] *)
Definition outb (port value : Z) : hw_event := Outb (u16 port) (u8 value).

(** [static inline u8int inb(u16int port)]: the returned byte and the
    event; [dev] is what the device drives. *)
Definition inb (port dev : Z) : Z * hw_event := (u8 dev, Inb (u16 port) (u8 dev)).

(** The bytes written to [port], in order. *)
Definition writes_to (port : Z) (t : trace) : list Z :=
  omap (fun e => match e with Outb p v => if decide (p = port) then Some v else None
                         | _ => None end) t.

Lemma writes_to_app port t1 t2 : writes_to port (t1 ++ t2) = writes_to port t1 ++ writes_to port t2.
Proof. unfold writes_to. by rewrite omap_app. Qed.

Lemma outb_value_byte port value p v : outb port value = Outb p v -> 0 <= v < 256 /\ 0 <= p < 65536.
Proof. unfold outb. intros [= <- <-]. split; auto with kern. Qed.
