(* ===== verification/RingBuffer.v ===== *)
(** * The input ring buffer ([src/kernel/input_buffer.c], lines 1-23)

    The static array [buffer[INPUT_BUFFER_SIZE]] and the cursors [head]
    and [tail] form the record [ring].  [input_put] and [getc_nonblock]
    are translated line by line; C's [%] on the non-negative cursors is
    [Z.rem].  The file proves the well-formedness invariant [ring_wf],
    a refinement of the bounded FIFO [FifoSpec] through the abstraction
    function [contents], the drop-newest overflow policy, that the
    sentinel [-1] collides with the signed character 0xFF, and that
    [getc_nonblock] preempted between its statements by the interrupt's
    [input_put] calls is linearizable ([getc_preempted]). *)

From S2P Require Import Prelude.

(** ** The abstract specification: a bounded FIFO of capacity 255 *)
Module FifoSpec.
Definition capacity : nat := 255.

Definition put (c : Z) (q : list Z) : list Z :=
  if decide (length q < capacity)%nat then q ++ [c] else q.

Definition get (q : list Z) : Z * list Z :=
  match q with [] => (-1, []) | c :: q' => (c, q') end.
End FifoSpec.

Module Ring.

(** [#define INPUT_BUFFER_SIZE 256] ([src/include/input_buffer.h]). *)
Definition INPUT_BUFFER_SIZE : Z := 256.

(** [static char buffer[INPUT_BUFFER_SIZE]; static int head, tail;] *)
Record ring := mk_ring { buffer : list Z; head : Z; tail : Z }.

(** The static storage is zero-initialised. *)
Definition ring_init : ring := mk_ring (replicate 256 0) 0 0.

(** [void input_put(char c)]: drop the character when the buffer is full. *)
Definition input_put (c : Z) (r : ring) : ring :=
  let next := Z.rem (head r + 1) INPUT_BUFFER_SIZE in
  if decide (next <> tail r) then
    mk_ring (<[Z.to_nat (head r) := c]> (buffer r)) next (tail r)
  else r.

(** [int getc_nonblock()]: [-1] when empty, else the [char] at [tail]
    promoted to [int]. *)
Definition getc_nonblock (r : ring) : Z * ring :=
  if decide (head r = tail r) then (-1, r)
  else
    let c := default 0 (buffer r !! Z.to_nat (tail r)) in
    (c, mk_ring (buffer r) (head r) (Z.rem (tail r + 1) INPUT_BUFFER_SIZE)).

(** ** Invariant and abstraction function *)

Record ring_wf (r : ring) : Prop := {
  wf_length : length (buffer r) = 256%nat;
  wf_head : 0 <= head r < 256;
  wf_tail : 0 <= tail r < 256;
  wf_chars : Forall char_range (buffer r)
}.

(** Number of stored characters. *)
Definition count (r : ring) : Z := (head r - tail r) mod 256.

(** The stored characters, oldest first. *)
Definition contents (r : ring) : list Z :=
  map (fun i => default 0 (buffer r !! Z.to_nat ((tail r + Z.of_nat i) mod 256)))
      (seq 0 (Z.to_nat (count r))).

(** [n] successive calls of [getc_nonblock], their results in order. *)
Fixpoint getc_n (n : nat) (r : ring) : list Z * ring :=
  match n with
  | O => ([], r)
  | S n' => let (c, r1) := getc_nonblock r in
            let (cs, r2) := getc_n n' r1 in (c :: cs, r2)
  end.

(** Successive calls of [input_put]. *)
Definition put_all (cs : list Z) (r : ring) : ring :=
  fold_left (fun r c => input_put c r) cs r.

(** A sequence of producer and consumer calls, in the order they run. *)
Inductive ring_op := Put (c : Z) | Get.

Definition op_char (o : ring_op) : Prop :=
  match o with Put c => char_range c | Get => True end.

(** Running the calls on the ring: the values [getc_nonblock] returned. *)
Fixpoint run_ring (ops : list ring_op) (r : ring) : list Z * ring :=
  match ops with
  | [] => ([], r)
  | Put c :: ops' => run_ring ops' (input_put c r)
  | Get :: ops' => let (c, r1) := getc_nonblock r in
                   let (cs, r2) := run_ring ops' r1 in (c :: cs, r2)
  end.

(** The same calls on the abstract FIFO. *)
Fixpoint run_fifo (ops : list ring_op) (q : list Z) : list Z * list Z :=
  match ops with
  | [] => ([], q)
  | Put c :: ops' => run_fifo ops' (FifoSpec.put c q)
  | Get :: ops' => let (c, q1) := FifoSpec.get q in
                   let (cs, q2) := run_fifo ops' q1 in (c :: cs, q2)
  end.

(** [getc_nonblock] statement by statement, preempted by the producer.
    The foreground runs the loads and stores of lines 17, 20 and 21 one
    at a time; the interrupt handler, which produces, may run between any
    two of them and runs to completion (the foreground cannot preempt
    it).  [ps0] .. [ps4] are the characters the producer stores in the
    five gaps: before the call, after the load of [head] in the test of
    line 17 ([tail] is written by the consumer alone, so the order of the
    two loads does not matter), after the test, after the load of
    [buffer[tail]] of line 20 and after the store of [tail] of line 21.
    On the empty path the calls of the last three gaps follow the
    return. *)
Definition getc_preempted (ps0 ps1 ps2 ps3 ps4 : list Z) (r : ring) : Z * ring :=
  let r0 := put_all ps0 r in
  let h := head r0 in
  let r1 := put_all ps1 r0 in
  if decide (h = tail r1) then (-1, put_all (ps2 ++ ps3 ++ ps4) r1)
  else
    let r2 := put_all ps2 r1 in
    let c := default 0 (buffer r2 !! Z.to_nat (tail r2)) in
    let r3 := put_all ps3 r2 in
    let r4 := mk_ring (buffer r3) (head r3) (Z.rem (tail r3 + 1) INPUT_BUFFER_SIZE) in
    (c, put_all ps4 r4).

(** The ring buffer implements the [CharQueue] interface. *)
#[global] Instance ring_char_queue : CharQueue ring := {|
  src_getc := getc_nonblock;
  src_put := input_put;
  src_pending := contents;
  src_ok := ring_wf;
  src_capacity := FifoSpec.capacity
|}.

(** ** Lemmas *)

Lemma rem_256 a : 0 <= a -> Z.rem a 256 = a mod 256.
Proof. intros. apply Z.rem_mod_nonneg; lia. Qed.

Lemma head_tail_count r : ring_wf r -> head r = (tail r + count r) mod 256.
Proof. intros [_ Hh Ht _]. unfold count. zify_mod. Qed.

Lemma count_bound r : 0 <= count r < 256.
Proof. unfold count. apply Z.mod_pos_bound. lia. Qed.

Lemma length_contents r : length (contents r) = Z.to_nat (count r).
Proof. unfold contents. by rewrite length_map, length_seq. Qed.

Lemma ring_init_wf : ring_wf ring_init.
Proof. split; [reflexivity | cbn; lia | cbn; lia | apply Forall_replicate; unfold char_range; lia]. Qed.

Lemma contents_init : contents ring_init = [].
Proof. reflexivity. Qed.

Lemma input_put_wf c r : char_range c -> ring_wf r -> ring_wf (input_put c r).
Proof.
  intros Hc [Hl Hh Ht Hch]. unfold input_put, INPUT_BUFFER_SIZE.
  rewrite rem_256 by lia. try (case_decide; [|done]).
  split; cbn; rewrite ?length_insert; try done; try (apply Z.mod_pos_bound; lia).
  by apply Forall_insert.
Qed.

Lemma getc_nonblock_wf r : ring_wf r -> ring_wf (getc_nonblock r).2.
Proof.
  intros [Hl Hh Ht Hch]. unfold getc_nonblock, INPUT_BUFFER_SIZE.
  case_decide; [by split|]. rewrite rem_256 by lia.
  split; cbn; try done. apply Z.mod_pos_bound; lia.
Qed.

Lemma getc_n_wf n r : ring_wf r -> ring_wf (getc_n n r).2.
Proof.
  revert r. induction n as [|n IH]; intros r Hr; [done|]. cbn.
  destruct (getc_nonblock r) as [c r1] eqn:E1.
  pose proof (getc_nonblock_wf r Hr) as Hr1. rewrite E1 in Hr1.
  specialize (IH r1 Hr1). destruct (getc_n n r1). done.
Qed.

Lemma put_all_wf cs r : ring_wf r -> Forall char_range cs -> ring_wf (put_all cs r).
Proof.
  revert r. induction cs as [|c cs IH]; intros r Hr Hcs; [done|].
  inversion Hcs; subst. apply IH; auto using input_put_wf.
Qed.

#[export] Hint Resolve ring_init_wf input_put_wf getc_nonblock_wf getc_n_wf put_all_wf : kern.

(** The element at position [i] of [contents]. *)
Lemma contents_lookup r i :
  (i < Z.to_nat (count r))%nat ->
  contents r !! i = Some (default 0 (buffer r !! Z.to_nat ((tail r + Z.of_nat i) mod 256))).
Proof.
  intros Hi. unfold contents. rewrite list_lookup_fmap, lookup_seq_lt by done. done.
Qed.

Lemma contents_chars r : ring_wf r -> Forall char_range (contents r).
Proof.
  intros Hr. apply Forall_lookup. intros i x Hx.
  assert (Hi : (i < Z.to_nat (count r))%nat) by (rewrite <- length_contents; by eapply lookup_lt_Some).
  rewrite contents_lookup in Hx by done. injection Hx as <-.
  destruct (lookup_lt_is_Some_2 (buffer r) (Z.to_nat ((tail r + Z.of_nat i) mod 256))) as [y Hy].
  { rewrite (wf_length _ Hr). pose proof (Z.mod_pos_bound (tail r + Z.of_nat i) 256). lia. }
  rewrite Hy. cbn. eapply Forall_lookup_1; [apply (wf_chars _ Hr)|done].
Qed.

Lemma full_iff r : ring_wf r ->
  (Z.rem (head r + 1) INPUT_BUFFER_SIZE = tail r <-> count r = 255).
Proof.
  intros Hr. pose proof (head_tail_count r Hr). destruct Hr as [_ Hh Ht _].
  unfold INPUT_BUFFER_SIZE, count in *. rewrite rem_256 by lia. zify_mod.
Qed.

Lemma empty_iff r : ring_wf r -> (head r = tail r <-> count r = 0).
Proof.
  intros Hr. pose proof (head_tail_count r Hr). destruct Hr as [_ Hh Ht _].
  unfold count in *. zify_mod.
Qed.

Lemma length_contents_bound r : (length (contents r) <= FifoSpec.capacity)%nat.
Proof. rewrite length_contents. pose proof (count_bound r). unfold FifoSpec.capacity. lia. Qed.

(** [contents] is empty exactly when [count] is zero. *)
Lemma contents_nil_iff r : contents r = [] <-> count r = 0.
Proof.
  pose proof (count_bound r). rewrite <- length_zero_iff_nil, length_contents. lia.
Qed.

(** Overflow leaves the whole state unchanged: the newest character is
    dropped, nothing is overwritten. *)
Lemma input_put_full c r : ring_wf r -> count r = 255 -> input_put c r = r.
Proof.
  intros Hr Hc. unfold input_put. apply full_iff in Hc; [|done].
  rewrite decide_False; [done|]. by intros [].
Qed.

Lemma input_put_refines c r :
  ring_wf r -> contents (input_put c r) = FifoSpec.put c (contents r).
Proof.
  intros Hr. unfold FifoSpec.put. rewrite length_contents.
  pose proof (count_bound r) as Hb. pose proof (full_iff r Hr) as Hf.
  destruct (decide (count r = 255)) as [Hfull|Hfull].
  { rewrite input_put_full by done. rewrite decide_False by (unfold FifoSpec.capacity; lia). done. }
  pose proof (head_tail_count r Hr) as Hht. destruct Hr as [Hl Hh Ht _].
  rewrite decide_True by (unfold FifoSpec.capacity; lia).
  unfold input_put. rewrite decide_True by (intros E; apply Hfull, Hf, E).
  unfold contents at 1. cbn [buffer head tail].
  replace (count (mk_ring _ (Z.rem (head r + 1) INPUT_BUFFER_SIZE) (tail r)))
    with (count r + 1) by (unfold count, INPUT_BUFFER_SIZE in *; cbn;
                           rewrite rem_256 by lia; zify_mod).
  replace (Z.to_nat (count r + 1)) with (S (Z.to_nat (count r))) by lia.
  rewrite seq_S, map_app. f_equal.
  - apply map_ext_in. intros i Hi%in_seq.
    rewrite list_lookup_insert_ne; [done|]. rewrite Hht. zify_mod.
  - cbn. replace ((tail r + Z.of_nat (Z.to_nat (count r))) mod 256) with (head r)
      by (rewrite Hht; f_equal; lia).
    rewrite list_lookup_insert_eq by lia. done.
Qed.

Lemma getc_nonblock_refines r : ring_wf r ->
  (getc_nonblock r).1 = (FifoSpec.get (contents r)).1 /\
  contents (getc_nonblock r).2 = (FifoSpec.get (contents r)).2.
Proof.
  intros Hr. pose proof (empty_iff r Hr) as He. pose proof (count_bound r).
  pose proof (head_tail_count r Hr) as Hht. destruct Hr as [Hl Hh Ht _].
  unfold getc_nonblock. case_decide as E.
  { assert (contents r = []) as H0 by (apply contents_nil_iff, He, E). cbn. by rewrite H0. }
  assert (Hc : count r <> 0) by (intros Hc; apply E, He, Hc).
  destruct (Z.to_nat (count r)) as [|m] eqn:Em; [lia|].
  assert (Hcons : contents r = default 0 (buffer r !! Z.to_nat (tail r)) ::
    map (fun i => default 0 (buffer r !! Z.to_nat ((tail r + Z.of_nat i) mod 256))) (seq 1 m)).
  { unfold contents. rewrite Em. cbn [seq map]. rewrite Z.add_0_r, Z.mod_small by lia. done. }
  rewrite Hcons. cbn [FifoSpec.get fst snd]. split; [done|].
  unfold contents. cbn [buffer head tail].
  replace (Z.to_nat (count (mk_ring _ (head r) (Z.rem (tail r + 1) INPUT_BUFFER_SIZE))))
    with m by (unfold count, INPUT_BUFFER_SIZE in *; cbn; rewrite rem_256 by lia; zify_mod).
  rewrite <- seq_shift, map_map. apply map_ext. intros i.
  unfold INPUT_BUFFER_SIZE. rewrite rem_256 by lia. do 3 f_equal. zify_mod.
Qed.

Lemma getc_nonblock_empty r : ring_wf r -> contents r = [] -> getc_nonblock r = (-1, r).
Proof.
  intros Hr Hc. unfold getc_nonblock. rewrite decide_True; [done|].
  apply empty_iff, contents_nil_iff; done.
Qed.

(** Pushing a sequence appends as much of it as fits (drop-newest). *)
Lemma put_all_contents cs r : ring_wf r -> Forall char_range cs ->
  contents (put_all cs r) = contents r ++ take (FifoSpec.capacity - length (contents r)) cs.
Proof.
  revert r. induction cs as [|c cs IH]; intros r Hr Hcs.
  { cbn. by rewrite take_nil, app_nil_r. }
  inversion Hcs as [|? ? Hc Hcs']; subst; clear Hcs; rename Hcs' into Hcs.
  change (put_all (c :: cs) r) with (put_all cs (input_put c r)).
  pose proof (input_put_refines c r Hr) as Hput. pose proof (length_contents_bound r).
  rewrite IH by auto with kern. rewrite Hput.
  unfold FifoSpec.put. case_decide as Hlt.
  - rewrite length_app, <- app_assoc. cbn [length].
    replace (FifoSpec.capacity - length (contents r))%nat
      with (S (FifoSpec.capacity - (length (contents r) + 1))) by lia. done.
  - replace (FifoSpec.capacity - length (contents r))%nat with 0%nat by lia.
    by rewrite !take_0.
Qed.

(** Popping [n] times returns the first [n] characters, then [-1]s. *)
Lemma getc_n_spec n r : ring_wf r ->
  (getc_n n r).1 = take n (contents r) ++ replicate (n - length (contents r)) (-1) /\
  contents (getc_n n r).2 = drop n (contents r).
Proof.
  revert r. induction n as [|n IH]; intros r Hr; [done|]. cbn [getc_n].
  destruct (getc_nonblock_refines r Hr) as [H1 H2].
  pose proof (getc_nonblock_wf r Hr) as Hr1.
  destruct (getc_nonblock r) as [c r1]. cbn in H1, H2, Hr1.
  destruct (IH r1 Hr1) as [IH1 IH2]. destruct (getc_n n r1) as [cs r2]. cbn in *.
  rewrite H2 in IH1, IH2. rewrite IH1, IH2.
  destruct (contents r) as [|x q]; cbn in H1 |- *; subst c; split; try done.
  all: by rewrite ?take_nil, ?drop_nil, ?Nat.sub_0_r.
Qed.

Lemma put_all_app cs1 cs2 r : put_all (cs1 ++ cs2) r = put_all cs2 (put_all cs1 r).
Proof. unfold put_all. by rewrite fold_left_app. Qed.

(** The producer never writes [tail]. *)
Lemma put_all_tail cs r : tail (put_all cs r) = tail r.
Proof.
  revert r. induction cs as [|c cs IH]; intros r; [done|].
  cbn. rewrite IH. unfold input_put. by case_decide.
Qed.

(** From a non-empty ring the producer keeps the ring non-empty and never
    writes the slot at [tail], the one the consumer reads next. *)
Lemma put_all_nonempty cs r : ring_wf r -> Forall char_range cs -> head r <> tail r ->
  head (put_all cs r) <> tail r /\
  buffer (put_all cs r) !! Z.to_nat (tail r) = buffer r !! Z.to_nat (tail r).
Proof.
  revert r. induction cs as [|c cs IH]; intros r Hr Hcs Hne; [done|].
  inversion Hcs as [|? ? Hc Hcs']; subst.
  change (put_all (c :: cs) r) with (put_all cs (input_put c r)).
  assert (Hput : head (input_put c r) <> tail r /\
    buffer (input_put c r) !! Z.to_nat (tail r) = buffer r !! Z.to_nat (tail r)).
  { destruct Hr as [_ Hh Ht _]. unfold input_put. case_decide as E; [|done].
    cbn. split; [done|]. apply list_lookup_insert_ne. lia. }
  destruct Hput as [Hne' Hb].
  assert (Ht : tail (input_put c r) = tail r) by exact (put_all_tail [c] r).
  destruct (IH (input_put c r)) as [IH1 IH2]; [auto with kern|done|congruence|].
  rewrite Ht in IH1, IH2. split; [done|]. by rewrite IH2.
Qed.

(** ** Properties *)

(** C3: the ring buffer refines the bounded FIFO: along any sequence of
    [input_put]/[getc_nonblock] calls from a well-formed state, the values
    returned are those of [FifoSpec], the state stays well formed and its
    contents are the FIFO's. *)
Theorem ring_simulation ops r :
  ring_wf r -> Forall op_char ops ->
  ring_wf (run_ring ops r).2 /\
  (run_ring ops r).1 = (run_fifo ops (contents r)).1 /\
  contents (run_ring ops r).2 = (run_fifo ops (contents r)).2.
Proof.
  revert r. induction ops as [|[c|] ops IH]; intros r Hr Hops; [done| |];
    inversion Hops as [|? ? Ho Hops']; subst; cbn [run_ring run_fifo].
  - rewrite <- input_put_refines by done. apply IH; auto with kern.
  - destruct (getc_nonblock_refines r Hr) as [H1 H2].
    pose proof (getc_nonblock_wf r Hr) as Hr1.
    destruct (getc_nonblock r) as [c r1], (FifoSpec.get (contents r)) as [c' q'].
    cbn in *. subst. destruct (IH r1 Hr1 Hops') as (Hwf & Ho1 & Ho2).
    destruct (run_ring ops r1), (run_fifo ops (contents r1)). cbn in *. subst. done.
Qed.

(** C3 witness: a put/get interleaving from the initial buffer. *)
Lemma ring_simulation_witness :
  (run_ring [Put 104; Get; Put 105; Put 10; Get; Get; Get] ring_init).1 = [104; 105; 10; -1].
Proof.
  destruct (ring_simulation [Put 104; Get; Put 105; Put 10; Get; Get; Get] ring_init)
    as (_ & Ho & _); [apply ring_init_wf | repeat constructor; cbv; done |].
  rewrite Ho. reflexivity.
Defined.

(** C19: FIFO order (spec, testable property 1): pushing at most 255
    characters into an empty buffer and popping as many returns them in
    order and leaves the buffer empty. *)
Theorem fifo_roundtrip cs r :
  ring_wf r -> contents r = [] -> (length cs <= 255)%nat -> Forall char_range cs ->
  (getc_n (length cs) (put_all cs r)).1 = cs /\ contents (getc_n (length cs) (put_all cs r)).2 = [].
Proof.
  intros Hr He Hlen Hcs.
  assert (Hc : contents (put_all cs r) = cs).
  { rewrite put_all_contents, He by done. cbn. apply take_ge. unfold FifoSpec.capacity. lia. }
  destruct (getc_n_spec (length cs) (put_all cs r)) as [H1 H2].
  { by apply put_all_wf. }
  rewrite H1, H2, Hc, take_ge, drop_ge, Nat.sub_diag by lia. cbn. by rewrite app_nil_r.
Qed.

(** C19 witness: "h", "i", newline. *)
Lemma fifo_roundtrip_witness :
  (getc_n 3 (put_all [104; 105; 10] ring_init)).1 = [104; 105; 10].
Proof.
  apply (fifo_roundtrip [104; 105; 10] ring_init);
    [apply ring_init_wf | reflexivity | cbn; lia | repeat constructor; cbv; done].
Defined.

(** C20: overflow (spec, testable property 2): pushing at least 255
    characters into an empty buffer keeps exactly the first 255 (one slot
    of the 256 is sacrificed); popping 256 times returns them and then the
    empty sentinel: the newest characters are lost, not the oldest. *)
Theorem overflow_drops_newest cs r :
  ring_wf r -> contents r = [] -> (255 <= length cs)%nat -> Forall char_range cs ->
  (getc_n 256 (put_all cs r)).1 = take 255 cs ++ [-1].
Proof.
  intros Hr He Hlen Hcs.
  assert (Hc : contents (put_all cs r) = take 255 cs) by (rewrite put_all_contents, He by done; done).
  destruct (getc_n_spec 256 (put_all cs r)) as [H1 _]; [by apply put_all_wf|].
  rewrite H1, Hc, length_take, take_take. f_equal.
  replace (256 - 255 `min` length cs)%nat with 1%nat by lia. done.
Qed.

(** C20 witness: 256 characters pushed, the last one is dropped. *)
Lemma overflow_drops_newest_witness :
  (getc_n 256 (put_all (replicate 256 97) ring_init)).1 = replicate 255 97 ++ [-1].
Proof.
  apply (overflow_drops_newest (replicate 256 97) ring_init);
    [apply ring_init_wf | reflexivity | rewrite length_replicate; lia |
     apply Forall_replicate; cbv; done].
Defined.

(** C13: the empty sentinel is not out of band: a stored character 0xFF
    (the signed [char] -1) is returned by [getc_nonblock] as [-1], the
    same value as an empty buffer, although the buffer held it. *)
Theorem sentinel_collides_with_0xFF r :
  ring_wf r -> contents r = [] ->
  contents (input_put (s8 255) r) = [-1] /\
  (getc_nonblock (input_put (s8 255) r)).1 = (getc_nonblock r).1.
Proof.
  intros Hr He. rewrite input_put_refines, He by done. split; [done|].
  rewrite (proj1 (getc_nonblock_refines _ (input_put_wf _ _ (s8_range 255) Hr))).
  rewrite input_put_refines, He by done. rewrite getc_nonblock_empty by done. done.
Qed.

(** C13 witness. *)
Lemma sentinel_collides_with_0xFF_witness :
  contents (input_put (s8 255) ring_init) = [-1] /\
  (getc_nonblock (input_put (s8 255) ring_init)).1 = (getc_nonblock ring_init).1.
Proof. apply sentinel_collides_with_0xFF; [apply ring_init_wf | reflexivity]. Defined.

(** C4: the ring needs no lock: however the interrupt handler's
    [input_put] calls fall between the statements of [getc_nonblock],
    the run is that of the calls in sequence, the producer's in their
    order and the consumer's at one point among them: the value returned
    and the whole final state are those of the sequential run. *)
Theorem getc_linearizable ps0 ps1 ps2 ps3 ps4 r :
  ring_wf r -> Forall char_range (ps0 ++ ps1 ++ ps2 ++ ps3 ++ ps4) ->
  exists pre post, pre ++ post = ps0 ++ ps1 ++ ps2 ++ ps3 ++ ps4 /\
    getc_preempted ps0 ps1 ps2 ps3 ps4 r =
      (let (c, r') := getc_nonblock (put_all pre r) in (c, put_all post r')).
Proof.
  intros Hr Hcs. rewrite !Forall_app in Hcs. destruct Hcs as (H0 & H1 & H2 & H3 & H4).
  unfold getc_preempted. set (r0 := put_all ps0 r).
  assert (Hr0 : ring_wf r0) by (by apply put_all_wf).
  rewrite put_all_tail. case_decide as E.
  - exists ps0, (ps1 ++ ps2 ++ ps3 ++ ps4). split; [done|].
    unfold getc_nonblock. fold r0. rewrite decide_True by done. by rewrite (put_all_app ps1).
  - exists (ps0 ++ ps1 ++ ps2 ++ ps3), ps4. split; [by rewrite <- !app_assoc|].
    rewrite !put_all_app. fold r0.
    destruct (put_all_nonempty (ps1 ++ ps2 ++ ps3) r0) as [Hne Hb]; [done|by rewrite !Forall_app|done|].
    destruct (put_all_nonempty (ps1 ++ ps2) r0) as [_ Hb2]; [done|by rewrite !Forall_app|done|].
    rewrite !put_all_app in Hne; rewrite !put_all_app in Hb; rewrite put_all_app in Hb2.
    unfold getc_nonblock. rewrite !put_all_tail. rewrite decide_False by done.
    by rewrite Hb, Hb2.
Qed.

(** C4 witness: one character stored before the call and one in each
    gap of the non-empty path. *)
Lemma getc_linearizable_witness :
  exists pre post, pre ++ post = [65] ++ [66] ++ [67] ++ [68] ++ [69] /\
    getc_preempted [65] [66] [67] [68] [69] ring_init =
      (let (c, r') := getc_nonblock (put_all pre ring_init) in (c, put_all post r')).
Proof. apply getc_linearizable; [apply ring_init_wf | cbn [app]; forall_chars]. Defined.
End Ring.

(** ... and its laws. *)
#[export] Instance ring_char_queue_laws : CharQueueLaws Ring.ring.
Proof.
  split; cbn.
  - apply Ring.getc_nonblock_wf.
  - apply Ring.input_put_wf.
  - intros s Hs Hp. destruct (Ring.getc_nonblock_refines s Hs) as [H1 H2].
    rewrite Hp in H1, H2. done.
  - intros s c cs Hs Hp. destruct (Ring.getc_nonblock_refines s Hs) as [H1 H2].
    rewrite Hp in H1, H2. done.
  - intros c s Hs. apply Ring.input_put_refines, Hs.
Qed.

