(* ===== verification/LineReader.v ===== *)
(** * The line reader ([readline], [src/kernel/input_buffer.c], lines 25-42)

    [readline] is proved against the [CharQueue] interface of the Prelude
    (the section variable [Src] with its laws), so that its theorems hold
    for the ring buffer and for any other source with the same contract.
    One iteration of [while (1)] is [readline_iter]; the loop is
    [readline_loop] with fuel; [readline] starts it with [count = 0].
    The results are: the returned line (truncated to [max - 1]
    characters and NUL-terminated); termination, with the exact number of
    iterations ([length cs + 1] for [cs] before the newline: fewer still
    poll, more give the same result); the converse (a return needs a
    newline); the producer/consumer interleaving of [input_put] with
    the polling loop; and the bounds of the caller's array for every
    [max] and every array length, the out-of-bounds store included. *)

From S2P Require Import Prelude RingBuffer.

Module Readline.

(** The local variables of [readline] besides [c]: [count] and the
    caller's array [out]. *)
Record rl_state := mk_rl { count : Z; out : list Z }.

(** Where the loop is after one iteration: still polling, returned
    [count] with the final array, or faulted on an out-of-bounds store. *)
Inductive rl_outcome :=
| Poll (st : rl_state)
| Return (n : Z) (o : list Z)
| Fault.

Section ReadLine.
Context {Src : Type} `{!CharQueue Src}.

(** One iteration of the [while (1)] body. *)
Definition readline_iter (max : Z) (st : rl_state) (s : Src) : rl_outcome * Src :=
  let (c, s') := src_getc s in
  if decide (c = -1) then (Poll st, s')
  else if decide (c = 10) then
    match (out st).[count st := 0]%kern with
    | Some o => (Return (count st) o, s')
    | None => (Fault, s')
    end
  else if decide (count st < max - 1) then
    match (out st).[count st := s8 c]%kern with
    | Some o => (Poll (mk_rl (count st + 1) o), s')
    | None => (Fault, s')
    end
  else (Poll st, s').

(** At most [fuel] iterations; [Poll] at the end means still looping. *)
Fixpoint readline_loop (fuel : nat) (max : Z) (st : rl_state) (s : Src) : rl_outcome * Src :=
  match fuel with
  | O => (Poll st, s)
  | S f =>
      match readline_iter max st s with
      | (Poll st', s') => readline_loop f max st' s'
      | r => r
      end
  end.

(** [int readline(char *out, int max)]. *)
Definition readline (fuel : nat) (out : list Z) (max : Z) (s : Src) : rl_outcome * Src :=
  readline_loop fuel max (mk_rl 0 out) s.

End ReadLine.

(** ** The closed form of the result *)

(** The characters of [cs] that [readline] keeps: [getc_nonblock]'s
    value [-1] is taken for "empty" and skipped. *)
Definition line_of (cs : list Z) : list Z := filter (fun c => c <> -1) cs.

(** The effect of one character other than the newline. *)
Definition rl_char (max c : Z) (st : rl_state) : rl_state :=
  if decide (c = -1) then st
  else if decide (count st < max - 1)
       then mk_rl (count st + 1) (<[Z.to_nat (count st) := c]> (out st))
       else st.

(** The state after the characters [cs] (no newline among them). *)
Definition accum (max : Z) (cs : list Z) (st : rl_state) : rl_state :=
  fold_left (fun st c => rl_char max c st) cs st.

(** [count] and the array of a state that has kept the line [L]. *)
Definition kept (max : Z) (L out0 : list Z) : rl_state :=
  let j := Nat.min (length L) (Z.to_nat (max - 1)) in
  mk_rl (Z.of_nat j) (take j L ++ drop j out0).

(** What [readline] returns for the characters [cs] read before the
    newline: the kept ones truncated to [max - 1], then the NUL. *)
Definition returned (max : Z) (cs out0 : list Z) : rl_outcome :=
  let k := Nat.min (length (line_of cs)) (Z.to_nat (max - 1)) in
  Return (Z.of_nat k) (take k (line_of cs) ++ 0 :: drop (S k) out0).

(** ** The producer and the consumer interleaved

    The keyboard side calls [input_put] from interrupt context at any
    point of the foreground's polling loop.  An event is one producer
    call or one iteration of [readline]'s loop.  The ghost lists record
    the characters the queue accepted and those [getc_nonblock] handed to
    the loop. *)
Inductive pc_event := Produce (c : Z) | Consume.

Definition producer_char (e : pc_event) : Prop :=
  match e with Produce c => char_range c | Consume => True end.

Record pc_state (Src : Type) := mk_pc {
  pc_src : Src;
  pc_rl : rl_outcome;
  pc_accepted : list Z;
  pc_consumed : list Z
}.
Arguments mk_pc {_} _ _ _ _.
Arguments pc_src {_} _.
Arguments pc_rl {_} _.
Arguments pc_accepted {_} _.
Arguments pc_consumed {_} _.

Section Interleaving.
Context {Src : Type} `{!CharQueue Src}.

Definition pc_step (max : Z) (ps : pc_state Src) (e : pc_event) : pc_state Src :=
  match e with
  | Produce c =>
      mk_pc (src_put c (pc_src ps)) (pc_rl ps)
        (pc_accepted ps ++
           if decide (length (src_pending (pc_src ps)) < src_capacity)%nat then [c] else [])
        (pc_consumed ps)
  | Consume =>
      match pc_rl ps with
      | Poll st =>
          let (r, s') := readline_iter max st (pc_src ps) in
          mk_pc s' r (pc_accepted ps) (pc_consumed ps ++ take 1 (src_pending (pc_src ps)))
      | _ => ps
      end
  end.

Definition pc_run (max : Z) (evs : list pc_event) (ps : pc_state Src) : pc_state Src :=
  fold_left (pc_step max) evs ps.

(** The foreground has entered [readline] on an empty source. *)
Definition pc_init (s : Src) (out0 : list Z) : pc_state Src :=
  mk_pc s (Poll (mk_rl 0 out0)) [] [].

(** The invariant of the interleaving. *)
Definition pc_inv (max : Z) (out0 : list Z) (ps : pc_state Src) : Prop :=
  src_ok (pc_src ps) /\
  pc_consumed ps ++ src_pending (pc_src ps) = pc_accepted ps /\
  Forall char_range (pc_accepted ps) /\
  match pc_rl ps with
  | Poll st => st = kept max (line_of (pc_consumed ps)) out0 /\ (10 ∉ pc_consumed ps)
  | Return _ _ => exists cs, pc_consumed ps = cs ++ [10] /\ (10 ∉ cs) /\
                    pc_rl ps = returned max cs out0
  | Fault => False
  end.

End Interleaving.

(** ** Lemmas *)

Section Laws.
Context {Src : Type} `{CharQueueLaws Src}.

Lemma iter_char max st s c cs :
  src_ok s -> src_pending s = c :: cs -> c <> 10 -> char_range c ->
  0 <= count st -> max <= Z.of_nat (length (out st)) ->
  readline_iter max st s = (Poll (rl_char max c st), (src_getc s).2).
Proof.
  intros Hs Hp Hnl Hc Hk Hmax. destruct (src_getc_head s c cs Hs Hp) as [H1 _].
  unfold readline_iter, rl_char. destruct (src_getc s) as [c' s']. cbn in *. subst c'.
  case_decide; [done|]. rewrite decide_False by done.
  case_decide; [|done]. rewrite store_in_range, s8_id by (done || lia). done.
Qed.

Lemma iter_newline max st s cs :
  src_ok s -> src_pending s = 10 :: cs ->
  0 <= count st < Z.of_nat (length (out st)) ->
  readline_iter max st s =
    (Return (count st) (<[Z.to_nat (count st) := 0]> (out st)), (src_getc s).2).
Proof.
  intros Hs Hp Hk. destruct (src_getc_head s 10 cs Hs Hp) as [H1 _].
  unfold readline_iter. destruct (src_getc s) as [c' s']. cbn in *. subst c'.
  rewrite decide_False, decide_True by lia. rewrite store_in_range by lia. done.
Qed.

Lemma rl_char_count max c st :
  0 <= count st -> 0 <= count (rl_char max c st) /\
  length (out (rl_char max c st)) = length (out st).
Proof.
  unfold rl_char. intros. repeat case_decide; cbn; rewrite ?length_insert; split; lia.
Qed.

Lemma loop_accum max cs st s rest :
  src_ok s -> src_pending s = cs ++ rest -> 10 ∉ cs -> Forall char_range cs ->
  0 <= count st -> max <= Z.of_nat (length (out st)) ->
  exists s', src_ok s' /\ src_pending s' = rest /\
    forall fuel, readline_loop (length cs + fuel) max st s = readline_loop fuel max (accum max cs st) s'.
Proof.
  revert st s. induction cs as [|c cs IH]; intros st s Hs Hp Hnl Hcs Hk Hmax.
  { exists s. done. }
  inversion Hcs as [|? ? Hc Hcs']; subst. apply not_elem_of_cons in Hnl as [Hc10 Hnl].
  destruct (src_getc_head s c (cs ++ rest) Hs Hp) as [_ Hp'].
  destruct (rl_char_count max c st Hk) as [Hk' Hl'].
  destruct (IH (rl_char max c st) (src_getc s).2) as (s' & Hs' & Hp'' & Hrun);
    auto using src_getc_ok; [lia|].
  exists s'. split; [done|]. split; [done|]. intros fuel.
  cbn [length Nat.add readline_loop]. rewrite (iter_char max st s c (cs ++ rest)) by done.
  apply Hrun.
Qed.

(** One kept character, in closed form. *)
Lemma rl_char_kept max c L out0 :
  c <> -1 -> 1 <= max <= Z.of_nat (length out0) ->
  rl_char max c (kept max L out0) = kept max (L ++ [c]) out0.
Proof.
  intros Hc Hmax. unfold rl_char, kept. cbn [count out].
  rewrite decide_False by done. rewrite length_app. cbn [length].
  case_decide as Hlt.
  - assert (Hj : Nat.min (length L) (Z.to_nat (max - 1)) = length L) by lia.
    rewrite Hj, take_ge, (take_ge (L ++ [c])) by (rewrite ?length_app; cbn; lia).
    replace (Nat.min (length L + 1) (Z.to_nat (max - 1))) with (S (length L)) by lia.
    rewrite Nat2Z.id, insert_prefix_drop, <- app_assoc by lia. f_equal. lia.
  - replace (Nat.min (length L + 1) (Z.to_nat (max - 1)))
      with (Nat.min (length L) (Z.to_nat (max - 1))) by lia.
    rewrite take_app_le by lia. done.
Qed.

Lemma accum_kept max cs L out0 :
  1 <= max <= Z.of_nat (length out0) ->
  accum max cs (kept max L out0) = kept max (L ++ line_of cs) out0.
Proof.
  intros Hmax. revert L. induction cs as [|c cs IH]; intros L.
  { by rewrite app_nil_r. }
  change (accum max (c :: cs) ?st) with (accum max cs (rl_char max c st)).
  unfold line_of. rewrite filter_cons. fold (line_of cs).
  case_decide as Hc.
  - rewrite rl_char_kept, IH, <- app_assoc by done. done.
  - assert (c = -1) as -> by lia.
    unfold rl_char at 1. rewrite decide_True by done. apply IH.
Qed.

Lemma iter_next max st s : (readline_iter max st s).2 = (src_getc s).2.
Proof.
  unfold readline_iter. destruct (src_getc s) as [c s'].
  repeat (case_decide || case_match); done.
Qed.

Lemma iter_return_newline max st s n o :
  (readline_iter max st s).1 = Return n o -> (src_getc s).1 = 10.
Proof.
  unfold readline_iter. destruct (src_getc s) as [c s'].
  repeat (case_decide || case_match); cbn; intros; simplify_eq; done.
Qed.

Lemma iter_poll_not_newline max st s st' :
  (readline_iter max st s).1 = Poll st' -> (src_getc s).1 <> 10.
Proof.
  unfold readline_iter. destruct (src_getc s) as [c s'].
  repeat (case_decide || case_match); cbn; intros; simplify_eq; done || lia.
Qed.

Lemma loop_return max fuel st s n o s' :
  src_ok s -> readline_loop fuel max st s = (Return n o, s') ->
  exists cs rest, src_pending s = cs ++ 10 :: rest /\ (10 ∉ cs) /\ src_pending s' = rest.
Proof.
  revert st s. induction fuel as [|f IH]; intros st s Hs Hrun; [done|].
  cbn [readline_loop] in Hrun. pose proof (iter_next max st s) as Hnext.
  pose proof (iter_return_newline max st s) as Hret.
  pose proof (iter_poll_not_newline max st s) as Hpoll.
  destruct (readline_iter max st s) as [[st'| n' o'|] s2]; cbn in *; subst s2; [| |done].
  - destruct (IH st' _ (src_getc_ok s Hs) Hrun) as (cs & rest & Hp & Hnl & Hp').
    destruct (src_pending s) as [|c cs0] eqn:E.
    + destruct (src_getc_empty s Hs E) as [_ E2]. rewrite E2 in Hp. by destruct cs.
    + destruct (src_getc_head s c cs0 Hs E) as [E1 E2]. rewrite E2 in Hp.
      exists (c :: cs), rest. rewrite Hp. split; [done|]. split; [|done].
      apply not_elem_of_cons. split; [|done]. specialize (Hpoll st' eq_refl). congruence.
  - simplify_eq. specialize (Hret n o eq_refl).
    destruct (src_pending s) as [|c cs0] eqn:E.
    + destruct (src_getc_empty s Hs E) as [E1 _]. lia.
    + destruct (src_getc_head s c cs0 Hs E) as [E1 E2]. exists [], cs0.
      split; [cbn; congruence|]. split; [apply not_elem_of_nil | done].
Qed.

Lemma kept_init max out0 : kept max [] out0 = mk_rl 0 out0.
Proof. reflexivity. Qed.

Lemma length_kept_out max L out0 :
  (Z.to_nat (max - 1) < length out0)%nat -> length (out (kept max L out0)) = length out0.
Proof. intros. unfold kept. cbn. rewrite length_app, length_take, length_drop. lia. Qed.

Lemma iter_empty max st s :
  src_ok s -> src_pending s = [] -> readline_iter max st s = (Poll st, (src_getc s).2).
Proof.
  intros Hs Hp. destruct (src_getc_empty s Hs Hp) as [H1 _].
  unfold readline_iter. destruct (src_getc s) as [c s']. cbn in *. subst c. done.
Qed.

(** The newline stores the NUL at [count]: the result in closed form,
    whenever that store is inside the array. *)
Lemma kept_newline_gen max cs out0 :
  (Nat.min (length (line_of cs)) (Z.to_nat (max - 1)) < length out0)%nat ->
  Return (count (kept max (line_of cs) out0))
    (<[Z.to_nat (count (kept max (line_of cs) out0)) := 0]> (out (kept max (line_of cs) out0)))
  = returned max cs out0.
Proof.
  intros Hk. unfold kept, returned. cbn [count out].
  rewrite Nat2Z.id, insert_prefix_drop; [done| |].
  all: rewrite ?length_app, ?length_take, ?length_drop; lia.
Qed.

Lemma kept_newline max cs out0 :
  1 <= max <= Z.of_nat (length out0) ->
  Return (count (kept max (line_of cs) out0))
    (<[Z.to_nat (count (kept max (line_of cs) out0)) := 0]> (out (kept max (line_of cs) out0)))
  = returned max cs out0.
Proof. intros. apply kept_newline_gen. lia. Qed.

Lemma kept_count_bound max L out0 :
  1 <= max <= Z.of_nat (length out0) ->
  0 <= count (kept max L out0) < Z.of_nat (length (out (kept max L out0))).
Proof. intros. rewrite length_kept_out by lia. unfold kept. cbn. lia. Qed.

(** ** Bounds of the caller's array, for every [max] and every length

    The kept characters are stored at [count], the NUL at the final
    [count]; whether a store falls inside [out] depends on [max] and on
    the length of [out] only through [Nat.min (length L) (Z.to_nat (max - 1))],
    the count after the kept line [L]. *)

Lemma length_kept_le max L out0 :
  (Nat.min (length L) (Z.to_nat (max - 1)) <= length out0)%nat ->
  length (out (kept max L out0)) = length out0.
Proof. intros. unfold kept. cbn. rewrite length_app, length_take, length_drop. lia. Qed.

Lemma line_of_cons c cs : line_of (c :: cs) = line_of [c] ++ line_of cs.
Proof. unfold line_of. rewrite !filter_cons, filter_nil. by case_decide. Qed.

(** One character other than the newline from the state that kept [L]:
    the state that kept one more, or the fault of a store at
    [length out0]. *)
Lemma iter_kept max L out0 s c cs :
  src_ok s -> src_pending s = c :: cs -> c <> 10 -> char_range c ->
  (Nat.min (length L) (Z.to_nat (max - 1)) <= length out0)%nat ->
  readline_iter max (kept max L out0) s =
    (if decide (Nat.min (length (L ++ line_of [c])) (Z.to_nat (max - 1)) <= length out0)%nat
     then Poll (kept max (L ++ line_of [c]) out0) else Fault, (src_getc s).2).
Proof.
  intros Hs Hp Hnl Hc HL. destruct (src_getc_head s c cs Hs Hp) as [H1 _].
  pose proof (length_kept_le max L out0 HL) as Hlen. unfold kept in Hlen. cbn [out] in Hlen.
  unfold readline_iter. destruct (src_getc s) as [c' s']. cbn in H1 |- *. subst c'.
  unfold line_of. cbn [filter list_filter]. case_decide as Hm1.
  { rewrite (decide_False (P := c <> -1)) by (intros Hn; apply Hn, Hm1). rewrite app_nil_r, decide_True by done. done. }
  rewrite (decide_True (P := c <> -1)), (decide_False (P := c = 10)) by done.
  rewrite length_app. cbn [length]. unfold kept at 1. cbn [count out].
  case_decide as Hlt.
  - assert (Hj : Nat.min (length L) (Z.to_nat (max - 1)) = length L) by lia.
    rewrite Hj in Hlen |- *. destruct (decide (length L < length out0)%nat) as [Hin|Hout].
    + rewrite store_in_range by lia.
      rewrite decide_True by lia. unfold kept. rewrite length_app. cbn [length count out].
      replace (Nat.min (length L + 1) (Z.to_nat (max - 1))) with (S (length L)) by lia.
      rewrite take_ge, (take_ge (L ++ [c])) by (rewrite ?length_app; cbn; lia).
      rewrite Nat2Z.id, s8_id, insert_prefix_drop, <- app_assoc by (done || lia).
      do 3 f_equal. lia.
    + rewrite store_out_of_range by lia.
      rewrite decide_False by lia. done.
  - rewrite decide_True by lia. unfold kept. rewrite length_app. cbn [length].
    replace (Nat.min (length L + 1) (Z.to_nat (max - 1)))
      with (Nat.min (length L) (Z.to_nat (max - 1))) by lia.
    rewrite take_app_le by lia. done.
Qed.

(** The characters before the newline, for every [max] and array: the
    loop reaches the state that kept the whole line, or faults on the
    store of the first kept character past the array. *)
Lemma loop_kept max cs L out0 s rest :
  src_ok s -> src_pending s = cs ++ rest -> 10 ∉ cs -> Forall char_range cs ->
  (Nat.min (length L) (Z.to_nat (max - 1)) <= length out0)%nat ->
  exists s',
    if decide (Nat.min (length (L ++ line_of cs)) (Z.to_nat (max - 1)) <= length out0)%nat
    then src_ok s' /\ src_pending s' = rest /\ forall fuel,
      readline_loop (length cs + fuel) max (kept max L out0) s =
        readline_loop fuel max (kept max (L ++ line_of cs) out0) s'
    else forall fuel, readline_loop (length cs + fuel) max (kept max L out0) s = (Fault, s').
Proof.
  revert L s. induction cs as [|c cs IH]; intros L s Hs Hp Hnl Hcs HL.
  { exists s. cbn. rewrite app_nil_r, decide_True by done. done. }
  inversion Hcs as [|? ? Hc Hcs']; subst. apply not_elem_of_cons in Hnl as [Hc10 Hnl].
  pose proof (iter_kept max L out0 s c (cs ++ rest) Hs Hp (not_eq_sym Hc10) Hc HL) as Hit.
  destruct (src_getc_head s c (cs ++ rest) Hs Hp) as [_ Hp1].
  rewrite line_of_cons, app_assoc. cbn [length Nat.add readline_loop].
  case_decide as Hok.
  - rewrite Hit. destruct (IH (L ++ line_of [c]) (src_getc s).2) as [s' Hs'];
      [by apply src_getc_ok|done..|]. exists s'. exact Hs'.
  - exists (src_getc s).2. rewrite decide_False by (rewrite !length_app in *; lia).
    intros fuel. rewrite Hit. done.
Qed.

(** The iteration on the newline: the NUL at [count], or the fault. *)
Lemma iter_newline_store max st s cs :
  src_ok s -> src_pending s = 10 :: cs ->
  readline_iter max st s =
    (match (out st).[count st := 0]%kern with Some o => Return (count st) o | None => Fault end,
     (src_getc s).2).
Proof.
  intros Hs Hp. destruct (src_getc_head s 10 cs Hs Hp) as [H1 _].
  unfold readline_iter. destruct (src_getc s) as [c' s']. cbn in *. subst c'.
  rewrite decide_False, decide_True by lia. by destruct ((out st).[count st := 0])%kern.
Qed.

Lemma pc_produce_inv max out0 ps c :
  char_range c -> pc_inv max out0 ps -> pc_inv max out0 (pc_step max ps (Produce c)).
Proof.
  intros Hc (Hs & Hacc & Hch & Hrl). unfold pc_inv. cbn.
  rewrite src_put_pending by done. split; [by apply src_put_ok|].
  case_decide; rewrite ?app_nil_r; (split; [rewrite ?app_assoc; by f_equal|]);
    rewrite ?Forall_app; auto.
Qed.

Lemma pc_consume_inv max out0 ps :
  1 <= max <= Z.of_nat (length out0) ->
  pc_inv max out0 ps -> pc_inv max out0 (pc_step max ps Consume).
Proof.
  intros Hmax Hinv. destruct ps as [s rl acc con].
  destruct Hinv as (Hs & Hacc & Hch & Hrl). cbn in *.
  destruct rl as [st| |]; [|done..]. destruct Hrl as [-> Hnl].
  change (filter (fun c => c <> -1) con) with (line_of con) in *.
  pose proof (kept_count_bound max (line_of con) out0 Hmax) as Hk.
  unfold pc_inv. destruct (src_pending s) as [|c cs] eqn:E.
  { rewrite iter_empty by done. cbn. rewrite app_nil_r.
    destruct (src_getc_empty s Hs E) as [_ E2]. rewrite E2, app_nil_r in *.
    auto using src_getc_ok. }
  destruct (src_getc_head s c cs Hs E) as [_ E2].
  assert (Hc : char_range c).
  { rewrite <- Hacc in Hch. apply Forall_app in Hch as [_ Hch].
    by apply Forall_cons_1 in Hch as [? _]. }
  destruct (decide (c = 10)) as [->|Hc10].
  - rewrite (iter_newline max _ s cs) by done. cbn.
    split; [by apply src_getc_ok|]. rewrite E2, <- app_assoc.
    do 2 (split; [done|]). exists con. split; [done|]. split; [done|]. by apply kept_newline.
  - assert (Hl : length (out (kept max (line_of con) out0)) = length out0)
      by (apply length_kept_out; lia).
    rewrite (iter_char max (kept max (line_of con) out0) s c cs) by (try done; lia). cbn.

    split; [by apply src_getc_ok|]. rewrite E2, <- app_assoc.
    do 2 (split; [done|]). split.
    + unfold line_of. rewrite list.filter_app. fold (line_of con) (line_of [c]).
      apply (accum_kept max [c]). done.
    + rewrite not_elem_of_app, not_elem_of_cons. auto using not_elem_of_nil.
Qed.

Lemma pc_init_inv max out0 s :
  src_ok s -> src_pending s = [] -> pc_inv max out0 (pc_init s out0).
Proof.
  intros Hs Hp. unfold pc_inv, pc_init. cbn. rewrite Hp.
  do 3 (split; [done|]). split; [done|]. apply not_elem_of_nil.
Qed.

Lemma pc_run_inv max out0 evs ps :
  1 <= max <= Z.of_nat (length out0) -> Forall producer_char evs ->
  pc_inv max out0 ps -> pc_inv max out0 (pc_run max evs ps).
Proof.
  intros Hmax. revert ps. induction evs as [|[c|] evs IH]; intros ps Hevs Hinv; [done| |];
    inversion Hevs; subst; cbn [pc_run fold_left]; apply IH; try done.
  - by apply pc_produce_inv.
  - by apply pc_consume_inv.
Qed.

(** The line [readline] returns, the same for every fuel that
    suffices. *)
Lemma readline_line out0 max s cs rest :
  src_ok s -> src_pending s = cs ++ 10 :: rest -> (10 ∉ cs) -> Forall char_range cs ->
  1 <= max <= Z.of_nat (length out0) ->
  exists s', src_ok s' /\ src_pending s' = rest /\
    forall fuel, (length cs < fuel)%nat -> readline fuel out0 max s = (returned max cs out0, s').
Proof.
  intros Hs Hp Hnl Hcs Hmax.
  assert (Hlen : length (out (kept max [] out0)) = length out0) by (apply length_kept_out; lia).
  destruct (loop_accum max cs (kept max [] out0) s (10 :: rest))
    as (s1 & Hs1 & Hp1 & Hrun); [done..| cbn; lia | lia |].
  destruct (src_getc_head s1 10 rest Hs1 Hp1) as [_ Hp2].
  exists (src_getc s1).2. split; [by apply src_getc_ok|]. split; [done|].
  intros fuel Hfuel. unfold readline.
  replace fuel with (length cs + S (fuel - length cs - 1))%nat by lia.
  rewrite <- (kept_init max out0), Hrun, accum_kept by done. cbn [app readline_loop].
  rewrite (iter_newline max _ s1 rest) by (try done; apply kept_count_bound; lia).
  by rewrite kept_newline.
Qed.

(** With no more iterations than characters before the newline,
    [readline] is still polling. *)
Lemma readline_poll fuel out0 max s cs rest :
  src_ok s -> src_pending s = cs ++ rest -> (10 ∉ cs) -> Forall char_range cs ->
  1 <= max <= Z.of_nat (length out0) -> (fuel <= length cs)%nat ->
  exists st s', readline fuel out0 max s = (Poll st, s').
Proof.
  intros Hs Hp Hnl Hcs Hmax Hfuel. unfold readline.
  assert (Hlen : length (out (kept max [] out0)) = length out0) by (apply length_kept_out; lia).
  destruct (loop_accum max (take fuel cs) (kept max [] out0) s (drop fuel cs ++ rest))
    as (s1 & _ & _ & Hrun).
  - done.
  - by rewrite app_assoc, take_drop.
  - intros Ht. apply Hnl. apply elem_of_take in Ht as (i & Hi & _). by eapply list_elem_of_lookup_2.
  - by apply Forall_take.
  - cbn. lia.
  - lia.
  - rewrite <- (kept_init max out0). specialize (Hrun 0%nat).
    rewrite length_take, Nat.add_0_r, Nat.min_l in Hrun by done. rewrite Hrun. by eexists _, _.
Qed.

End Laws.

(** ** Properties *)

(** C5: termination and the returned line.  If the source holds the
    characters [cs] and then a newline, [readline] with more than
    [length cs] iterations returns; the count is the number of kept
    characters (the non-[-1] ones) truncated to [max - 1], the array
    holds them followed by the NUL sentinel and is untouched after it,
    and the characters after the newline stay in the source. *)
Theorem readline_returns_line `{CharQueueLaws Src} fuel out0 max s cs rest :
  src_ok s -> src_pending s = cs ++ 10 :: rest -> (10 ∉ cs) -> Forall char_range cs ->
  1 <= max <= Z.of_nat (length out0) -> (length cs < fuel)%nat ->
  exists s', src_ok s' /\ src_pending s' = rest /\
    readline fuel out0 max s = (returned max cs out0, s').
Proof.
  intros Hs Hp Hnl Hcs Hmax Hfuel.
  destruct (readline_line out0 max s cs rest Hs Hp Hnl Hcs Hmax) as (s' & Hs' & Hp' & Hrun).
  exists s'. split; [done|]. split; [done|]. by apply Hrun.
Qed.

(** C21: [readline] returns only after consuming a newline: whatever the
    fuel, a [Return] means the source held some characters without a
    newline, then a newline, and what follows it is left in the source.
    Without a newline in the source the loop never returns. *)
Theorem readline_returns_only_after_newline `{CharQueueLaws Src} fuel out0 max s n o s' :
  src_ok s -> readline fuel out0 max s = (Return n o, s') ->
  exists cs rest, src_pending s = cs ++ 10 :: rest /\ (10 ∉ cs) /\ src_pending s' = rest.
Proof. apply loop_return. Qed.

(** C5 witness (spec, testable property 6): with [max = 3], feeding
    "abcd" and a newline through [input_put] gives count 2 and "ab\0". *)
Lemma readline_returns_line_witness :
  exists s', src_ok s' /\ src_pending s' = [] /\
    readline 5 [7; 7; 7] 3 (Ring.put_all [97; 98; 99; 100; 10] Ring.ring_init) =
      (Return 2 [97; 98; 0], s').
Proof.
  exact (readline_returns_line 5 [7; 7; 7] 3
           (Ring.put_all [97; 98; 99; 100; 10] Ring.ring_init) [97; 98; 99; 100] []
           (Ring.put_all_wf [97; 98; 99; 100; 10] Ring.ring_init Ring.ring_init_wf ltac:(forall_chars))
           ltac:(vm_compute; reflexivity) ltac:(not_in_list) ltac:(forall_chars)
           ltac:(cbn; lia) ltac:(cbn; lia)).
Defined.

(** C21 witness (spec, testable property 5): "hi" and a newline are
    returned as count 2 and "hi\0"; the newline was in the buffer. *)
Lemma readline_returns_only_after_newline_witness :
  readline 3 (replicate 256 0) 256 (Ring.put_all [104; 105; 10] Ring.ring_init) =
    (Return 2 ([104; 105; 0] ++ replicate 253 0),
     (readline 3 (replicate 256 0) 256 (Ring.put_all [104; 105; 10] Ring.ring_init)).2) /\
  exists cs rest, src_pending (Ring.put_all [104; 105; 10] Ring.ring_init) = cs ++ 10 :: rest /\
    (10 ∉ cs) /\
    src_pending (readline 3 (replicate 256 0) 256 (Ring.put_all [104; 105; 10] Ring.ring_init)).2 = rest.
Proof.
  assert (Hrun : readline 3 (replicate 256 0) 256 (Ring.put_all [104; 105; 10] Ring.ring_init) =
    (Return 2 ([104; 105; 0] ++ replicate 253 0),
     (readline 3 (replicate 256 0) 256 (Ring.put_all [104; 105; 10] Ring.ring_init)).2))
    by (vm_compute; reflexivity).
  split; [exact Hrun|].
  exact (readline_returns_only_after_newline 3 (replicate 256 0) 256 _ _ _ _
           (Ring.put_all_wf [104; 105; 10] Ring.ring_init Ring.ring_init_wf ltac:(forall_chars)) Hrun).
Defined.

(** C22: single producer, single consumer.  Interleave calls of
    [input_put] (from interrupt context) with iterations of [readline]'s
    loop in any order, starting from an empty source: the characters the
    loop has consumed followed by those still queued are exactly the
    characters the queue accepted, in the order they were put (none is
    reordered; only those refused by a full queue are lost).  While the
    loop runs, its [count] and array are the kept prefix of what it
    consumed, and once it has returned, it returned the line before the
    first newline, truncated and NUL-terminated. *)
Theorem interleaving_preserves_order `{CharQueueLaws Src} max out0 s evs :
  src_ok s -> src_pending s = [] -> 1 <= max <= Z.of_nat (length out0) ->
  Forall producer_char evs ->
  let ps := pc_run max evs (pc_init s out0) in
  pc_consumed ps ++ src_pending (pc_src ps) = pc_accepted ps /\
  match pc_rl ps with
  | Poll st => st = kept max (line_of (pc_consumed ps)) out0 /\ (10 ∉ pc_consumed ps)
  | Return _ _ => exists cs, pc_consumed ps = cs ++ [10] /\ (10 ∉ cs) /\
                    pc_rl ps = returned max cs out0
  | Fault => False
  end.
Proof.
  intros Hs Hp Hmax Hevs ps.
  destruct (pc_run_inv max out0 evs (pc_init s out0) Hmax Hevs (pc_init_inv max out0 s Hs Hp))
    as (_ & Hacc & _ & Hrl).
  split; [exact Hacc | exact Hrl].
Qed.

(** C22 witness: a character typed before, one during and a newline
    after the loop's polls, on the ring buffer. *)
Lemma interleaving_preserves_order_witness :
  pc_rl (pc_run 4 [Produce 104; Consume; Consume; Produce 105; Produce 10; Consume; Consume]
           (pc_init Ring.ring_init (replicate 4 0))) = Return 2 [104; 105; 0; 0] /\
  exists cs,
    pc_consumed (pc_run 4 [Produce 104; Consume; Consume; Produce 105; Produce 10; Consume; Consume]
                   (pc_init Ring.ring_init (replicate 4 0))) = cs ++ [10] /\ (10 ∉ cs) /\
    Return 2 [104; 105; 0; 0] = returned 4 cs (replicate 4 0).
Proof.
  pose proof (interleaving_preserves_order 4 (replicate 4 0) Ring.ring_init
    [Produce 104; Consume; Consume; Produce 105; Produce 10; Consume; Consume]
    Ring.ring_init_wf eq_refl ltac:(cbn; lia) ltac:(forall_chars)) as [_ Hrl].
  assert (Hret : pc_rl (pc_run 4 [Produce 104; Consume; Consume; Produce 105; Produce 10;
                                  Consume; Consume] (pc_init Ring.ring_init (replicate 4 0)))
                 = Return 2 [104; 105; 0; 0]) by (vm_compute; reflexivity).
  rewrite Hret in Hrl. split; [exact Hret | exact Hrl].
Defined.

(** C6: termination of [readline].  When the source holds [cs], a
    newline and [rest], the loop runs exactly [length cs + 1] iterations:
    with at most [length cs] it is still polling, and with any number
    above it returns, always the same line and the same source.  The
    measure is the number of characters left before the newline. *)
Theorem readline_terminates `{CharQueueLaws Src} out0 max s cs rest :
  src_ok s -> src_pending s = cs ++ 10 :: rest -> (10 ∉ cs) -> Forall char_range cs ->
  1 <= max <= Z.of_nat (length out0) ->
  exists s', src_pending s' = rest /\
    (forall fuel, (fuel <= length cs)%nat -> exists st s'', readline fuel out0 max s = (Poll st, s'')) /\
    (forall fuel, (length cs < fuel)%nat -> readline fuel out0 max s = (returned max cs out0, s')).
Proof.
  intros Hs Hp Hnl Hcs Hmax.
  destruct (readline_line out0 max s cs rest Hs Hp Hnl Hcs Hmax) as (s' & _ & Hp' & Hrun).
  exists s'. split; [done|]. split; [|done].
  intros fuel Hfuel. by apply (readline_poll fuel out0 max s cs (10 :: rest)).
Qed.

(** C6 witness: "hi" and Enter through the ring: two iterations poll,
    three return. *)
Lemma readline_terminates_witness :
  exists s', src_pending s' = [] /\
    (forall fuel, (fuel <= length [104; 105])%nat -> exists st s'',
       readline fuel (replicate 256 0) 256 (Ring.put_all [104; 105; 10] Ring.ring_init) = (Poll st, s'')) /\
    (forall fuel, (length [104; 105] < fuel)%nat ->
       readline fuel (replicate 256 0) 256 (Ring.put_all [104; 105; 10] Ring.ring_init) =
         (returned 256 [104; 105] (replicate 256 0), s')).
Proof.
  apply (readline_terminates (replicate 256 0) 256 (Ring.put_all [104; 105; 10] Ring.ring_init)
           [104; 105] []).
  - apply Ring.put_all_wf; [apply Ring.ring_init_wf | forall_chars].
  - vm_compute. reflexivity.
  - not_in_list.
  - forall_chars.
  - cbn. lia.
Defined.

(** C7: the bounds of [out], for every [max] and every array.  When the
    source holds [cs] and a newline, [readline] stores the kept
    characters at [0 .. k-1] and the NUL at [k], where [k] is the number
    of kept characters capped at [max - 1] (at 0 when [max <= 1]): it
    returns the line exactly when [k] is below the length of [out], and
    otherwise writes past the end of the array (a fault), on a character
    or on the NUL.  So an array of [max] bytes, [max >= 1], is always
    enough, and a call with [max = 0] still writes [out[0]]. *)
Theorem readline_bounds `{CharQueueLaws Src} out0 max s cs rest :
  src_ok s -> src_pending s = cs ++ 10 :: rest -> (10 ∉ cs) -> Forall char_range cs ->
  exists s', forall fuel, (length cs < fuel)%nat ->
    readline fuel out0 max s =
      (if decide (Nat.min (length (line_of cs)) (Z.to_nat (max - 1)) < length out0)%nat
       then returned max cs out0 else Fault, s').
Proof.
  intros Hs Hp Hnl Hcs.
  destruct (loop_kept max cs [] out0 s (10 :: rest) Hs Hp Hnl Hcs ltac:(cbn; lia)) as [s1 Hs1].
  cbn [app] in Hs1. unfold readline. rewrite <- (kept_init max out0).
  destruct (decide (Nat.min (length (line_of cs)) (Z.to_nat (max - 1)) <= length out0)%nat)
    as [Hle|Hgt].
  - destruct Hs1 as (Hs1 & Hp1 & Hrun). exists (src_getc s1).2. intros fuel Hfuel.
    replace fuel with (length cs + S (fuel - length cs - 1))%nat by lia.
    rewrite Hrun. cbn [readline_loop]. rewrite (iter_newline_store max _ s1 rest) by done.
    pose proof (length_kept_le max (line_of cs) out0 Hle) as Hlen.
    case_decide as Hk.
    + rewrite store_in_range by (rewrite Hlen; unfold kept; cbn; lia).
      by rewrite kept_newline_gen.
    + rewrite store_out_of_range by (rewrite Hlen; unfold kept; cbn; lia). done.
  - exists s1. intros fuel Hfuel. rewrite decide_False by lia.
    replace fuel with (length cs + (fuel - length cs))%nat by lia. apply Hs1.
Qed.

(** C7 witness: [max = 0] and an empty array: the line "a" is
    discarded but the NUL is still stored at [out[0]], past the end. *)
Lemma readline_bounds_witness :
  exists s', forall fuel, (length [97%Z] < fuel)%nat ->
    readline fuel [] 0 (Ring.put_all [97; 10] Ring.ring_init) =
      (if decide (Nat.min (length (line_of [97%Z])) (Z.to_nat (0 - 1)) < length (@nil Z))%nat
       then returned 0 [97] [] else Fault, s').
Proof.
  apply (readline_bounds [] 0 (Ring.put_all [97; 10] Ring.ring_init) [97] []).
  - apply Ring.put_all_wf; [apply Ring.ring_init_wf | forall_chars].
  - vm_compute. reflexivity.
  - not_in_list.
  - forall_chars.
Defined.

End Readline.
