(* ===== verification/Fb.v ===== *)
(** * The VGA text framebuffer ([src/kernel/fb.c])

    The statics [cursor_row], [cursor_col] and the text-mode memory at
    [0xB8000] (80 x 25 cells of a character byte and an attribute byte,
    4000 bytes) form [fb_state].  A write outside these 4000 bytes would
    hit memory that is not the text buffer; [store] makes it a fault.
    [fb_move_cursor] returns its four port writes.  The CRTC model
    [crtc_run] (the VGA controller's index/data register pair, hardware
    and not code) interprets them: the file proves that the cursor the
    controller shows is the logical position, that [fb_write_char] keeps
    the cursor on the screen and never writes outside the buffer, that
    the loop of [fb_clear] ([clear_cells]) equals a slice replacement
    ([clear_ref]) and what [fb_clear] leaves on the screen. *)

From S2P Require Import Prelude PortIO.

Module Fb.

Definition FB_COMMAND_PORT : Z := 0x3D4.
Definition FB_DATA_PORT : Z := 0x3D5.
Definition FB_MAX_ROWS : Z := 25.
Definition FB_MAX_COLS : Z := 80.

(** [static int cursor_row, cursor_col; static volatile char *fb]. *)
Record fb_state := mk_fb { cursor_row : Z; cursor_col : Z; fb : list Z }.

(** [static void fb_move_cursor()] *)
Definition fb_move_cursor (st : fb_state) : trace :=
  let pos := cursor_row st * FB_MAX_COLS + cursor_col st in
  [outb FB_COMMAND_PORT 14; outb FB_DATA_PORT (Z.land (Z.shiftr pos 8) 0xFF);
   outb FB_COMMAND_PORT 15; outb FB_DATA_PORT (Z.land pos 0xFF)].

(** The [for] loop of [fb_clear], from cell [i], [n] iterations. *)
Fixpoint clear_cells (n : nat) (i : Z) (mem : list Z) : option (list Z) :=
  match n with
  | O => Some mem
  | S n' =>
      m1 ← (mem.[i * 2 := 32])%kern;
      m2 ← (m1.[i * 2 + 1 := 7])%kern;
      clear_cells n' (i + 1) m2
  end.

(** [void fb_clear()] *)
Definition fb_clear (st : fb_state) : option (fb_state * trace) :=
  mem ← clear_cells (Z.to_nat (FB_MAX_ROWS * FB_MAX_COLS)) 0 (fb st);
  let st' := mk_fb 0 0 mem in
  Some (st', fb_move_cursor st').

(** [void fb_write_char(char c)] *)
Definition fb_write_char (c : Z) (st : fb_state) : option (fb_state * trace) :=
  st1 ← (if decide (c = 10) then Some (mk_fb (cursor_row st + 1) 0 (fb st))
         else
           let pos := cursor_row st * FB_MAX_COLS + cursor_col st in
           m1 ← ((fb st).[pos * 2 := c])%kern;
           m2 ← (m1.[pos * 2 + 1 := 7])%kern;
           Some (mk_fb (cursor_row st) (cursor_col st + 1) m2));
  let st2 := if decide (FB_MAX_COLS <= cursor_col st1)
             then mk_fb (cursor_row st1 + 1) 0 (fb st1) else st1 in
  let st3 := if decide (FB_MAX_ROWS <= cursor_row st2)
             then mk_fb 0 (cursor_col st2) (fb st2) else st2 in
  Some (st3, fb_move_cursor st3).

(** The screen [fb_clear] leaves: a blank (0x20) with attribute 0x07 in
    each of the 2000 cells. *)
Definition blank_cells (n : nat) : list Z := concat (replicate n [32; 7]).
Definition blank_screen : list Z := blank_cells 2000.

(** What the loop of [fb_clear] does to the memory, as a slice
    replacement: cells [i] to [i + n - 1] blank, the rest unchanged. *)
Definition clear_ref (n : nat) (i : Z) (mem : list Z) : list Z :=
  take (Z.to_nat (i * 2)) mem ++ blank_cells n ++ drop (Z.to_nat ((i + Z.of_nat n) * 2)) mem.

(** ** Invariant, position, and the VGA controller *)

Record fb_wf (st : fb_state) : Prop := {
  wf_row : 0 <= cursor_row st < FB_MAX_ROWS;
  wf_col : 0 <= cursor_col st < FB_MAX_COLS;
  wf_mem : length (fb st) = 4000%nat
}.

Definition fb_pos (st : fb_state) : Z := cursor_row st * FB_MAX_COLS + cursor_col st.

(** The CRTC: an index register written at 0x3D4 selects which register
    a write at 0x3D5 sets; registers 14 and 15 hold the cursor location. *)
Record crtc := mk_crtc { crtc_index : Z; cursor_hi : Z; cursor_lo : Z }.

Definition crtc_event (d : crtc) (e : hw_event) : crtc :=
  match e with
  | Outb p v =>
      if decide (p = FB_COMMAND_PORT) then mk_crtc v (cursor_hi d) (cursor_lo d)
      else if decide (p = FB_DATA_PORT) then
        if decide (crtc_index d = 14) then mk_crtc (crtc_index d) v (cursor_lo d)
        else if decide (crtc_index d = 15) then mk_crtc (crtc_index d) (cursor_hi d) v
        else d
      else d
  | _ => d
  end.

Definition crtc_run (d : crtc) (t : trace) : crtc := fold_left crtc_event t d.

Definition crtc_cursor (d : crtc) : Z := cursor_hi d * 256 + cursor_lo d.

(** ** Lemmas *)

Lemma byte_split_join p : 0 <= p < 65536 ->
  u8 (Z.land (Z.shiftr p 8) 0xFF) * 256 + u8 (Z.land p 0xFF) = p.
Proof.
  intros Hp. change 0xFF with (Z.ones 8).
  rewrite !Z.land_ones, Z.shiftr_div_pow2 by lia.
  rewrite !u8_id by (split; [apply Z.mod_pos_bound | apply Z.mod_pos_bound]; lia).
  change (2 ^ 8) with 256. zify_mod.
Qed.

(** The wrap-around of a position that moved by at most one period. *)
Lemma mod_step a m r : 0 < m -> (0 <= a < m /\ r = a) \/ (a = m /\ r = 0) -> r = a mod m.
Proof.
  intros Hm [[Ha ->] | [-> ->]]; [by rewrite Z.mod_small | by rewrite Z.mod_same by lia].
Qed.

Lemma fb_pos_bound st : fb_wf st -> 0 <= fb_pos st < 2000.
Proof. intros [Hr Hc _]. unfold fb_pos, FB_MAX_ROWS, FB_MAX_COLS in *. lia. Qed.

(** The cell at [pos]: character then attribute. *)
Lemma write_cell {A} (mem : list Z) pos c v (k : list Z -> option A) :
  length mem = 4000%nat -> 0 <= pos < 2000 ->
  (m1 ← (mem.[pos * 2 := c])%kern; m2 ← (m1.[pos * 2 + 1 := v])%kern; k m2) =
    k (<[Z.to_nat (pos * 2 + 1) := v]> (<[Z.to_nat (pos * 2) := c]> mem)).
Proof.
  intros Hl Hp. rewrite store_in_range by lia. cbn.
  rewrite store_in_range; [done|]. rewrite length_insert. lia.
Qed.

Lemma clear_cells_spec n i mem :
  length mem = 4000%nat -> 0 <= i -> i + Z.of_nat n <= 2000 ->
  exists mem', clear_cells n i mem = Some mem' /\ length mem' = 4000%nat /\
    (forall k, i <= k < i + Z.of_nat n ->
       mem' !! Z.to_nat (k * 2) = Some 32 /\ mem' !! Z.to_nat (k * 2 + 1) = Some 7) /\
    (forall j, Z.of_nat j < 2 * i \/ 2 * (i + Z.of_nat n) <= Z.of_nat j -> mem' !! j = mem !! j).
Proof.
  revert i mem. induction n as [|n IH]; intros i mem Hl Hi Hn.
  { exists mem. repeat split; try done; lia. }
  cbn [clear_cells]. rewrite write_cell by lia.
  set (m2 := <[Z.to_nat (i * 2 + 1) := 7]> (<[Z.to_nat (i * 2) := 32]> mem)).
  assert (Hl2 : length m2 = 4000%nat) by (unfold m2; by rewrite !length_insert).
  destruct (IH (i + 1) m2 Hl2 ltac:(lia) ltac:(lia)) as (mem' & -> & Hl' & Hcells & Hsame).
  exists mem'. split; [done|]. split; [done|]. split.
  - intros k Hk. destruct (decide (k = i)) as [->|]; [|apply Hcells; lia].
    rewrite !Hsame by lia. unfold m2.
    rewrite list_lookup_insert_ne, list_lookup_insert_eq by (rewrite ?length_insert; lia).
    rewrite list_lookup_insert_eq by (rewrite ?length_insert; lia). done.
  - intros j Hj. rewrite Hsame by lia. unfold m2.
    rewrite !list_lookup_insert_ne by lia. done.
Qed.

Lemma fb_move_cursor_crtc d st :
  0 <= fb_pos st < 65536 -> crtc_cursor (crtc_run d (fb_move_cursor st)) = fb_pos st.
Proof.
  intros Hp. unfold crtc_run, fb_move_cursor, crtc_cursor, outb. cbn [fold_left].
  change (u16 FB_COMMAND_PORT) with FB_COMMAND_PORT. change (u16 FB_DATA_PORT) with FB_DATA_PORT.
  change (u8 14) with 14. change (u8 15) with 15.
  cbn. apply byte_split_join. done.
Qed.

(** The case analysis of [fb_write_char] on a well-formed state: each
    branch is left with the facts after the new state. *)
Ltac fb_write_cases Hwf :=
  let Hp := fresh "Hp" in
  pose proof (fb_pos_bound _ Hwf) as Hp; destruct Hwf as [? ? ?];
  unfold fb_write_char, fb_pos, FB_MAX_ROWS, FB_MAX_COLS in *;
  case_decide; [cbn | rewrite write_cell by done; cbn];
  repeat case_decide; cbn in *; try lia; eexists; (split; [reflexivity|]).

Ltac fb_wf_goal := split; cbn; unfold FB_MAX_ROWS, FB_MAX_COLS; rewrite ?length_insert; lia.

Lemma fb_write_char_wf c st : fb_wf st ->
  exists st', fb_write_char c st = Some (st', fb_move_cursor st') /\ fb_wf st'.
Proof. intros Hwf. fb_write_cases Hwf; fb_wf_goal. Qed.

(** One character, shared with the string-level lemmas of [Terminal]. *)
Lemma fb_write_char_step c st : fb_wf st ->
  exists st', fb_write_char c st = Some (st', fb_move_cursor st') /\ fb_wf st' /\
    fb_pos st' = (if decide (c = 10) then ((cursor_row st + 1) * 80) mod 2000
                  else (fb_pos st + 1) mod 2000) /\
    fb st' = (if decide (c = 10) then fb st
              else <[Z.to_nat (fb_pos st * 2 + 1) := 7]> (<[Z.to_nat (fb_pos st * 2) := c]> (fb st))).
Proof.
  intros Hwf. fb_write_cases Hwf; (split; [fb_wf_goal|]); cbn;
    (split; [apply mod_step; lia | done]).
Qed.

Lemma length_blank_cells n : length (blank_cells n) = (2 * n)%nat.
Proof. induction n as [|n IH]; [done|]. unfold blank_cells in *. cbn. lia. Qed.

Lemma blank_cells_lookup n k : (k < 2 * n)%nat ->
  blank_cells n !! k = Some (if Nat.even k then 32 else 7).
Proof.
  revert k. induction n as [|n IH]; intros k Hk; [lia|]. unfold blank_cells in *. cbn [replicate concat].
  destruct k as [|[|k]]; [done|done|]. cbn. apply IH. lia.
Qed.

Lemma length_blank_screen : length blank_screen = 4000%nat.
Proof. apply length_blank_cells. Qed.

Lemma blank_screen_lookup j : (j < 4000)%nat ->
  blank_screen !! j = Some (if Nat.even j then 32 else 7).
Proof. intros Hj. apply blank_cells_lookup. lia. Qed.

(** Whatever the screen held, [fb_clear] leaves the same state. *)
Lemma fb_clear_canonical st : length (fb st) = 4000%nat ->
  fb_clear st = Some (mk_fb 0 0 blank_screen, fb_move_cursor (mk_fb 0 0 blank_screen)).
Proof.
  intros Hl. destruct (clear_cells_spec 2000 0 (fb st) Hl ltac:(lia) ltac:(lia))
    as (mem & Hrun & Hl' & Hcells & _).
  unfold fb_clear. change (Z.to_nat (FB_MAX_ROWS * FB_MAX_COLS)) with 2000%nat.
  rewrite Hrun. cbn. do 3 f_equal. apply list_eq. intros j.
  destruct (Nat.lt_ge_cases j 4000) as [Hj|Hj].
  - rewrite blank_screen_lookup by done.
    destruct (Nat.Even_or_Odd j) as [[n ->]|[n ->]].
    + rewrite Nat.even_mul. destruct (Hcells (Z.of_nat n) ltac:(lia)) as [H _].
      by replace (2 * n)%nat with (Z.to_nat (Z.of_nat n * 2)) by lia.
    + rewrite Nat.even_add, Nat.even_mul. destruct (Hcells (Z.of_nat n) ltac:(lia)) as [_ H].
      by replace (2 * n + 1)%nat with (Z.to_nat (Z.of_nat n * 2 + 1)) by lia.
  - assert (4000 <= j)%nat by lia. rewrite (lookup_ge_None_2 mem), (lookup_ge_None_2 blank_screen); [done|..];
      rewrite ?length_blank_screen, ?Hl'; lia.
Qed.

Lemma fb_clear_ok st : length (fb st) = 4000%nat ->
  exists st', fb_clear st = Some (st', fb_move_cursor st') /\ fb_wf st'.
Proof.
  intros Hl. rewrite fb_clear_canonical by done. eexists. split; [reflexivity|].
  split; cbn [cursor_row cursor_col fb]; unfold FB_MAX_ROWS, FB_MAX_COLS;
    [lia|lia|apply length_blank_screen].
Qed.

(** ** Properties *)

(** C14: [fb_write_char] never faults on a well-formed screen state, keeps
    the cursor on the screen, moves it to the next cell in row-major order
    (a newline to the start of the next row), wrapping from the last row
    to the first, writes the character and the attribute 0x07 at the old
    cell only, and reports the new position to the controller. *)
Theorem fb_write_char_spec c st : fb_wf st ->
  exists st', fb_write_char c st = Some (st', fb_move_cursor st') /\ fb_wf st' /\
    fb_pos st' = (if decide (c = 10) then ((cursor_row st + 1) * 80) mod 2000
                  else (fb_pos st + 1) mod 2000) /\
    fb st' = (if decide (c = 10) then fb st
              else <[Z.to_nat (fb_pos st * 2 + 1) := 7]> (<[Z.to_nat (fb_pos st * 2) := c]> (fb st))).
Proof. apply fb_write_char_step. Qed.

(** C14 witness: an 'a' in the last cell wraps the cursor to the top. *)
Lemma fb_write_char_spec_witness :
  exists st', fb_write_char 97 (mk_fb 24 79 (replicate 4000 0)) = Some (st', fb_move_cursor st') /\
    fb_wf st' /\ fb_pos st' = 0 /\
    fb st' = <[3999%nat := 7]> (<[3998%nat := 97]> (replicate 4000 0)).
Proof.
  destruct (fb_write_char_spec 97 (mk_fb 24 79 (replicate 4000 0)))
    as (st' & H1 & H2 & H3 & H4); [split; cbn; unfold FB_MAX_ROWS, FB_MAX_COLS; rewrite ?length_replicate; lia|].
  exists st'. split; [done|]. split; [done|]. split; [by rewrite H3|]. by rewrite H4.
Defined.

(** C32: the four port writes of [fb_move_cursor] program the VGA
    controller's cursor-location registers (index 14 then 15 at 0x3D4,
    high and low byte at 0x3D5) with exactly the logical position
    [cursor_row * 80 + cursor_col], whatever the controller held before. *)
Theorem fb_move_cursor_programs_crtc d st :
  fb_wf st -> crtc_cursor (crtc_run d (fb_move_cursor st)) = cursor_row st * 80 + cursor_col st.
Proof.
  intros Hwf. pose proof (fb_pos_bound st Hwf).
  rewrite fb_move_cursor_crtc by lia. done.
Qed.

(** C32 witness. *)
Lemma fb_move_cursor_programs_crtc_witness :
  crtc_cursor (crtc_run (mk_crtc 0 0 0) (fb_move_cursor (mk_fb 24 79 (replicate 4000 0)))) = 1999.
Proof.
  apply (fb_move_cursor_programs_crtc (mk_crtc 0 0 0) (mk_fb 24 79 (replicate 4000 0))).
  split; cbn; unfold FB_MAX_ROWS, FB_MAX_COLS; rewrite ?length_replicate; lia.
Defined.

(** C30: [fb_clear] never faults on the 4000-byte buffer; it leaves every
    one of the 2000 cells a blank with attribute 0x07, the cursor at the
    origin, and reports the origin to the controller. *)
Theorem fb_clear_blanks_screen st :
  length (fb st) = 4000%nat ->
  exists st', fb_clear st = Some (st', fb_move_cursor st') /\ fb_wf st' /\ fb_pos st' = 0 /\
    forall k, 0 <= k < 2000 ->
      fb st' !! Z.to_nat (k * 2) = Some 32 /\ fb st' !! Z.to_nat (k * 2 + 1) = Some 7.
Proof.
  intros Hl. destruct (clear_cells_spec 2000 0 (fb st) Hl ltac:(lia) ltac:(lia))
    as (mem & Hrun & Hl' & Hcells & _).
  unfold fb_clear. change (Z.to_nat (FB_MAX_ROWS * FB_MAX_COLS)) with 2000%nat.
  rewrite Hrun. cbn. eexists. split; [reflexivity|].
  split; [split; cbn; unfold FB_MAX_ROWS, FB_MAX_COLS; lia|]. split; [done|].
  intros k Hk. apply Hcells. lia.
Qed.

(** C30 witness. *)
Lemma fb_clear_blanks_screen_witness :
  exists st', fb_clear (mk_fb 3 5 (replicate 4000 65)) = Some (st', fb_move_cursor st') /\
    fb_wf st' /\ fb_pos st' = 0 /\
    forall k, 0 <= k < 2000 ->
      fb st' !! Z.to_nat (k * 2) = Some 32 /\ fb st' !! Z.to_nat (k * 2 + 1) = Some 7.
Proof. apply fb_clear_blanks_screen. reflexivity. Defined.

(** C31: the loop of [fb_clear] is a slice replacement.  On the
    4000-byte screen, [n] iterations from cell [i] (staying inside the
    2000 cells) never fault and give exactly the memory with bytes
    [2i .. 2(i+n)-1] replaced by [n] blank cells (0x20, 0x07) and every
    other byte unchanged. *)
Theorem clear_cells_slice n i mem :
  length mem = 4000%nat -> 0 <= i -> i + Z.of_nat n <= 2000 ->
  clear_cells n i mem = Some (clear_ref n i mem).
Proof.
  intros Hl Hi Hn. destruct (clear_cells_spec n i mem Hl Hi Hn) as (mem' & -> & Hl' & Hcells & Hsame).
  f_equal. apply list_eq. intros j. unfold clear_ref.
  assert (Ht : length (take (Z.to_nat (i * 2)) mem) = Z.to_nat (i * 2)) by (rewrite length_take; lia).
  destruct (decide (Z.of_nat j < 2 * i)) as [Hlo|Hlo].
  - rewrite Hsame by lia. rewrite lookup_app_l by lia. rewrite lookup_take_lt by lia. done.
  - rewrite lookup_app_r by lia. rewrite Ht.
    destruct (decide (Z.of_nat j < 2 * (i + Z.of_nat n))) as [Hhi|Hhi].
    + rewrite lookup_app_l by (rewrite length_blank_cells; lia).
      rewrite blank_cells_lookup by lia.
      destruct (Nat.Even_or_Odd j) as [[q ->]|[q ->]].
      * replace (2 * q - Z.to_nat (i * 2))%nat with (2 * (q - Z.to_nat i))%nat by lia.
        rewrite Nat.even_mul. destruct (Hcells (Z.of_nat q) ltac:(lia)) as [H _].
        by replace (2 * q)%nat with (Z.to_nat (Z.of_nat q * 2)) by lia.
      * replace (2 * q + 1 - Z.to_nat (i * 2))%nat with (2 * (q - Z.to_nat i) + 1)%nat by lia.
        rewrite Nat.even_add, Nat.even_mul. destruct (Hcells (Z.of_nat q) ltac:(lia)) as [_ H].
        by replace (2 * q + 1)%nat with (Z.to_nat (Z.of_nat q * 2 + 1)) by lia.
    + rewrite Hsame by lia. rewrite lookup_app_r by (rewrite length_blank_cells; lia).
      rewrite lookup_drop, length_blank_cells. f_equal. lia.
Qed.

(** C31 witness: three cells from cell 5 of a screen full of 'A'. *)
Lemma clear_cells_slice_witness :
  clear_cells 3 5 (replicate 4000 65) = Some (clear_ref 3 5 (replicate 4000 65)).
Proof. apply clear_cells_slice; [reflexivity | lia | lia]. Defined.

End Fb.
