(* ===== verification/Terminal.v ===== *)
(** * The terminal ([src/kernel/terminal.c], lines 1-18)

    [terminal_write] walks a NUL-terminated C string and writes each byte
    with [fb_write_char]; running off the end of a list without a NUL is
    a read past the string, modelled as a fault.  [terminal_put] and
    [terminal_init] are one-liners over [Fb].  String literals are lists
    of byte values ending in 0 ([lit]); the shell loop [terminal_run] is
    in [Kernel], next to [readline]'s caller state.  The file proves that
    writing a string never faults on a well-formed screen and writes
    exactly the bytes before the first NUL, and where a line of text
    lands: cell after cell from the cursor, modulo the 2000 cells; on
    any text [terminal_write] is equivalent to [screen_write], a
    reference with one cursor position instead of a row and a column. *)

From S2P Require Import Prelude PortIO Fb.
From Stdlib Require Import String Ascii.

Module Terminal.
Import Fb.

(** The bytes of a string literal, without the terminating NUL. *)
Definition str_bytes (s : string) : list Z :=
  map (fun a => Z.of_nat (nat_of_ascii a)) (list_ascii_of_string s).

(** A C literal: its bytes, an optional trailing newline, and the NUL. *)
Definition lit (s : string) (newline : bool) : list Z :=
  str_bytes s ++ (if newline then [10] else []) ++ [0].

(** [void terminal_write(const char *s)] *)
Fixpoint terminal_write (s : list Z) (st : fb_state) : option (fb_state * trace) :=
  match s with
  | [] => None
  | c :: s' =>
      if decide (c = 0) then Some (st, [])
      else
        '(st1, t1) ← fb_write_char c st;
        '(st2, t2) ← terminal_write s' st1;
        Some (st2, t1 ++ t2)
  end.

(** [void terminal_put(char c)] *)
Definition terminal_put (c : Z) (st : fb_state) : option (fb_state * trace) :=
  fb_write_char c st.

(** [void terminal_init()] *)
Definition terminal_init (st : fb_state) : option (fb_state * trace) :=
  '(st1, t1) ← fb_clear st;
  '(st2, t2) ← terminal_write (lit "Welcome to my OS!" true) st1;
  Some (st2, t1 ++ t2).

(** The bytes [terminal_write] reaches: those before the first NUL. *)
Fixpoint c_string (s : list Z) : list Z :=
  match s with
  | [] => []
  | c :: s' => if decide (c = 0) then [] else c :: c_string s'
  end.

(** [fb_write_char] on each byte in turn. *)
Fixpoint write_all (cs : list Z) (st : fb_state) : option (fb_state * trace) :=
  match cs with
  | [] => Some (st, [])
  | c :: cs' =>
      '(st1, t1) ← fb_write_char c st;
      '(st2, t2) ← write_all cs' st1;
      Some (st2, t1 ++ t2)
  end.

(** A reference for the screen: a single cursor position [p] in
    [0, 2000) instead of the row and column of [fb.c] with their two wrap
    tests.  A character is stored at [p] with attribute 0x07 and the
    position moves on by one, a newline moves to the start of the next
    row, both modulo the screen. *)
Definition screen_step (c p : Z) (mem : list Z) : Z * list Z :=
  if decide (c = 10) then (((p / 80 + 1) * 80) mod 2000, mem)
  else ((p + 1) mod 2000, <[Z.to_nat (p * 2 + 1) := 7]> (<[Z.to_nat (p * 2) := c]> mem)).

Fixpoint screen_write (cs : list Z) (p : Z) (mem : list Z) : Z * list Z :=
  match cs with
  | [] => (p, mem)
  | c :: cs' => let (p', mem') := screen_step c p mem in screen_write cs' p' mem'
  end.

(** ** Lemmas *)

Lemma write_all_wf cs st : fb_wf st ->
  exists st' t, write_all cs st = Some (st', t) /\ fb_wf st'.
Proof.
  revert st. induction cs as [|c cs IH]; intros st Hwf; [by exists st, []|].
  cbn [write_all]. destruct (fb_write_char_wf c st Hwf) as (st1 & -> & Hwf1).
  destruct (IH st1 Hwf1) as (st2 & t2 & Hrun & Hwf2). cbn. rewrite Hrun.
  by exists st2, (fb_move_cursor st1 ++ t2).
Qed.

Lemma terminal_write_prefix p r st :
  (0 ∉ p) -> terminal_write (p ++ 0 :: r) st = write_all p st.
Proof.
  revert st. induction p as [|c p IH]; intros st Hp; [done|].
  apply not_elem_of_cons in Hp as [Hc Hp]. cbn. rewrite decide_False by done.
  destruct (fb_write_char c st) as [[st1 t1]|]; [|done]. cbn. by rewrite IH.
Qed.

Lemma c_string_prefix p r : (0 ∉ p) -> c_string (p ++ 0 :: r) = p.
Proof.
  induction p as [|c p IH]; intros Hp; [done|].
  apply not_elem_of_cons in Hp as [Hc Hp]. cbn. rewrite decide_False by done. by rewrite IH.
Qed.

Lemma terminal_write_wf s st : fb_wf st -> 0 ∈ s ->
  exists st' t, terminal_write s st = Some (st', t) /\ fb_wf st'.
Proof.
  intros Hwf Hin. destruct (list_elem_of_split_l s 0 Hin) as (p & r & -> & Hp).
  rewrite terminal_write_prefix by done. by apply write_all_wf.
Qed.

Lemma terminal_write_c_string s st : 0 ∈ s -> terminal_write s st = write_all (c_string s) st.
Proof.
  intros Hin. destruct (list_elem_of_split_l s 0 Hin) as (p & r & -> & Hp).
  by rewrite terminal_write_prefix, c_string_prefix.
Qed.

Lemma write_all_app a b st :
  write_all (a ++ b) st =
    '(st1, t1) ← write_all a st; '(st2, t2) ← write_all b st1; Some (st2, t1 ++ t2).
Proof.
  revert st. induction a as [|c a IH]; intros st; cbn.
  - by destruct (write_all b st) as [[? ?]|].
  - destruct (fb_write_char c st) as [[st1 t1]|]; [cbn|done]. rewrite IH.
    destruct (write_all a st1) as [[st2 t2]|]; [cbn|done].
    destruct (write_all b st2) as [[st3 t3]|]; [cbn|done]. by rewrite app_assoc.
Qed.

(** On a well-formed state the row is the position divided by 80. *)
Lemma fb_pos_row st : fb_wf st -> fb_pos st / 80 = cursor_row st.
Proof. intros [Hr Hc _]. unfold fb_pos, FB_MAX_ROWS, FB_MAX_COLS in *. zify_mod. Qed.

(** [fb_write_char] is one step of the reference. *)
Lemma fb_write_char_screen c st : fb_wf st ->
  exists st', fb_write_char c st = Some (st', fb_move_cursor st') /\ fb_wf st' /\
    (fb_pos st', fb st') = screen_step c (fb_pos st) (fb st).
Proof.
  intros Hwf. destruct (fb_write_char_step c st Hwf) as (st' & Hw & Hwf' & Hpos & Hfb).
  exists st'. do 2 (split; [done|]). unfold screen_step. rewrite Hpos, Hfb.
  case_decide; [|done]. by rewrite fb_pos_row.
Qed.

Lemma write_all_screen cs st : fb_wf st ->
  exists st' t, write_all cs st = Some (st', t) /\ fb_wf st' /\
    (fb_pos st', fb st') = screen_write cs (fb_pos st) (fb st).
Proof.
  revert st. induction cs as [|c cs IH]; intros st Hwf; [by exists st, []|].
  destruct (fb_write_char_screen c st Hwf) as (st1 & Hw & Hwf1 & Hs).
  destruct (IH st1 Hwf1) as (st2 & t2 & Hrun & Hwf2 & Hs2).
  exists st2, (fb_move_cursor st1 ++ t2). cbn [write_all screen_write].
  rewrite Hw. cbn. rewrite Hrun, <- Hs. done.
Qed.

(** The distance, on the wrapping screen, from the cell after [p] back
    to [p] is a full turn less one; to any other cell it is one less than
    from [p]. *)
Lemma offset_self p : 0 <= p < 2000 -> (p - (p + 1) mod 2000) mod 2000 = 1999.
Proof. intros. zify_mod. Qed.

Lemma offset_next p q : 0 <= p < 2000 -> 0 <= q < 2000 -> q <> p ->
  (q - p) mod 2000 = (q - (p + 1) mod 2000) mod 2000 + 1.
Proof. intros. zify_mod. Qed.

(** Text without newlines, at most a screenful: [write_all] puts the
    [i]-th character, with attribute 0x07, in the cell [i] after the
    cursor, wrapping from the last cell to the first; the cursor ends
    [length cs] cells on and every other cell is unchanged. *)
Lemma write_all_text cs st :
  fb_wf st -> Forall (fun c => c <> 10) cs -> (List.length cs <= 2000)%nat ->
  exists st' t, write_all cs st = Some (st', t) /\ fb_wf st' /\
    fb_pos st' = (fb_pos st + Z.of_nat (List.length cs)) mod 2000 /\
    forall q, 0 <= q < 2000 ->
      fb st' !! Z.to_nat (q * 2) =
        (if decide ((q - fb_pos st) mod 2000 < Z.of_nat (List.length cs))
         then cs !! Z.to_nat ((q - fb_pos st) mod 2000) else fb st !! Z.to_nat (q * 2)) /\
      fb st' !! Z.to_nat (q * 2 + 1) =
        (if decide ((q - fb_pos st) mod 2000 < Z.of_nat (List.length cs))
         then Some 7 else fb st !! Z.to_nat (q * 2 + 1)).
Proof.
  revert st. induction cs as [|c cs IH]; intros st Hwf Hnl Hlen.
  { pose proof (fb_pos_bound st Hwf). exists st, []. do 2 (split; [done|]).
    split; [cbn; rewrite Z.add_0_r, Z.mod_small; lia|].
    intros q Hq. rewrite !decide_False by (cbn; pose proof (Z.mod_pos_bound (q - fb_pos st) 2000); lia). done. }
  inversion Hnl as [|? ? Hc Hnl']; subst. cbn [List.length] in Hlen |- *.
  destruct (fb_write_char_step c st Hwf) as (st1 & Hw & Hwf1 & Hpos1 & Hfb1).
  rewrite decide_False in Hpos1 by done. rewrite decide_False in Hfb1 by done.
  destruct (IH st1 Hwf1 Hnl' ltac:(lia)) as (st2 & t2 & Hrun & Hwf2 & Hpos2 & Hcell).
  exists st2, (fb_move_cursor st1 ++ t2). cbn [write_all]. rewrite Hw. cbn. rewrite Hrun.
  do 2 (split; [done|]). pose proof (fb_pos_bound st Hwf) as Hp.
  pose proof (wf_mem _ Hwf) as Hl. rewrite Hpos1, Hfb1 in Hcell. rewrite Hpos1 in Hpos2.
  split; [rewrite Hpos2; zify_mod|]. intros q Hq. specialize (Hcell q Hq).
  destruct (decide (q = fb_pos st)) as [->|Hne].
  - rewrite offset_self, !decide_False in Hcell by lia. destruct Hcell as [-> ->].
    rewrite Z.sub_diag, Z.mod_0_l, !decide_True by lia. cbn. split.
    + rewrite list_lookup_insert_ne by lia. apply list_lookup_insert_eq. lia.
    + apply list_lookup_insert_eq. rewrite length_insert. lia.
  - rewrite (offset_next (fb_pos st) q) by lia.
    pose proof (Z.mod_pos_bound (q - (fb_pos st + 1) mod 2000) 2000).
    destruct (decide ((q - (fb_pos st + 1) mod 2000) mod 2000 < Z.of_nat (List.length cs))).
    + rewrite !decide_True by lia. destruct Hcell as [-> ->]. split; [|done].
      by rewrite Z2Nat.inj_add, Nat.add_1_r by lia.
    + rewrite !decide_False by lia. destruct Hcell as [-> ->].
      rewrite !list_lookup_insert_ne by lia. done.
Qed.

(** ** Properties *)

(** C33: [terminal_write] on a well-formed screen and a string that has a
    NUL never faults, keeps the screen well formed, and has exactly the
    effect of writing, one [fb_write_char] at a time, the bytes before the
    first NUL. *)
Theorem terminal_write_safe s st :
  fb_wf st -> 0 ∈ s ->
  exists st' t, terminal_write s st = Some (st', t) /\ fb_wf st' /\
    write_all (c_string s) st = Some (st', t).
Proof.
  intros Hwf Hin. destruct (list_elem_of_split_l s 0 Hin) as (p & r & -> & Hp).
  rewrite terminal_write_prefix, c_string_prefix by done.
  destruct (write_all_wf p st Hwf) as (st' & t & Hrun & Hwf'). eauto.
Qed.

(** C33 witness: the prompt "> " on the boot screen. *)
Lemma terminal_write_safe_witness :
  exists st' t, terminal_write (lit "> " false) (mk_fb 0 0 (replicate 4000 0)) = Some (st', t) /\
    fb_wf st' /\ write_all (c_string (lit "> " false)) (mk_fb 0 0 (replicate 4000 0)) = Some (st', t).
Proof.
  apply terminal_write_safe; [split; cbn; unfold FB_MAX_ROWS, FB_MAX_COLS; lia|].
  in_list.
Defined.

(** C15: [terminal_write] on a line of text (no newline, at most a
    screenful, ended by the NUL): the [i]-th character lands, with the
    attribute 0x07, in the [i]-th cell after the cursor in row-major
    order, and past the last cell of the screen the text continues in the
    first (the wrap of [fb_write_char], which overwrites the top line
    instead of scrolling); the cursor ends [length cs] cells on, modulo
    the 2000 cells, and every other cell keeps its content. *)
Theorem terminal_write_text cs r st :
  fb_wf st -> 0 ∉ cs -> Forall (fun c => c <> 10) cs -> (List.length cs <= 2000)%nat ->
  exists st' t, terminal_write (cs ++ 0 :: r) st = Some (st', t) /\ fb_wf st' /\
    fb_pos st' = (fb_pos st + Z.of_nat (List.length cs)) mod 2000 /\
    forall q, 0 <= q < 2000 ->
      fb st' !! Z.to_nat (q * 2) =
        (if decide ((q - fb_pos st) mod 2000 < Z.of_nat (List.length cs))
         then cs !! Z.to_nat ((q - fb_pos st) mod 2000) else fb st !! Z.to_nat (q * 2)) /\
      fb st' !! Z.to_nat (q * 2 + 1) =
        (if decide ((q - fb_pos st) mod 2000 < Z.of_nat (List.length cs))
         then Some 7 else fb st !! Z.to_nat (q * 2 + 1)).
Proof. intros Hwf H0 Hnl Hlen. rewrite terminal_write_prefix by done. by apply write_all_text. Qed.

(** C15 witness: "ab" written from the last cell of the screen: 'a' in
    cell 1999, 'b' in cell 0 at the top left, the cursor on cell 1. *)
Lemma terminal_write_text_witness :
  exists st' t, terminal_write ([97; 98] ++ [0]) (mk_fb 24 79 (replicate 4000 0)) = Some (st', t) /\
    fb_wf st' /\
    fb_pos st' = (fb_pos (mk_fb 24 79 (replicate 4000 0)) + Z.of_nat (List.length [97; 98])) mod 2000 /\
    forall q, 0 <= q < 2000 ->
      fb st' !! Z.to_nat (q * 2) =
        (if decide ((q - fb_pos (mk_fb 24 79 (replicate 4000 0))) mod 2000 < Z.of_nat (List.length [97; 98]))
         then [97; 98] !! Z.to_nat ((q - fb_pos (mk_fb 24 79 (replicate 4000 0))) mod 2000)
         else replicate 4000 0 !! Z.to_nat (q * 2)) /\
      fb st' !! Z.to_nat (q * 2 + 1) =
        (if decide ((q - fb_pos (mk_fb 24 79 (replicate 4000 0))) mod 2000 < Z.of_nat (List.length [97; 98]))
         then Some 7 else replicate 4000 0 !! Z.to_nat (q * 2 + 1)).
Proof.
  apply (terminal_write_text [97; 98] [] (mk_fb 24 79 (replicate 4000 0))).
  - split; cbn; unfold FB_MAX_ROWS, FB_MAX_COLS; rewrite ?length_replicate; lia.
  - not_in_list.
  - repeat constructor; lia.
  - cbn. lia.
Defined.

(** C16: [terminal_write] is equivalent to the reference [screen_write]
    on every text, newlines included and of any length: the row and
    column of [fb.c], with their two wrap tests, behave as one position
    modulo the 2000 cells, where a character is stored at the position
    with attribute 0x07 and a newline moves to the start of the next
    row, from the last row to the first. *)
Theorem terminal_write_screen cs r st :
  fb_wf st -> 0 ∉ cs ->
  exists st' t, terminal_write (cs ++ 0 :: r) st = Some (st', t) /\ fb_wf st' /\
    (fb_pos st', fb st') = screen_write cs (fb_pos st) (fb st).
Proof. intros Hwf H0. rewrite terminal_write_prefix by done. by apply write_all_screen. Qed.

(** C16 witness: "h", newline, "i" from row 24, column 78: 'h' in the
    cell before the last, the newline back to row 0, 'i' in cell 0. *)
Lemma terminal_write_screen_witness :
  exists st' t, terminal_write ([104; 10; 105] ++ [0]) (mk_fb 24 78 (replicate 4000 0)) = Some (st', t) /\
    fb_wf st' /\
    (fb_pos st', fb st') = screen_write [104; 10; 105] (fb_pos (mk_fb 24 78 (replicate 4000 0))) (replicate 4000 0).
Proof.
  apply (terminal_write_screen [104; 10; 105] [] (mk_fb 24 78 (replicate 4000 0))).
  - split; cbn; unfold FB_MAX_ROWS, FB_MAX_COLS; rewrite ?length_replicate; lia.
  - not_in_list.
Defined.

End Terminal.
