(* ===== verification/Keyboard.v ===== *)
(** * The keyboard ([src/kernel/keyboard.c])

    [sc_ascii] is the 58-entry table of the source, character by
    character.  [kbd_decode] is lines 16-18 of [keyboard_isr]: the
    release test on bit 7, the table read, the test on 0; a read of the
    table past its 58 entries is undefined behaviour and gives [None].
    [keyboard_isr] reads the data port 0x60 ([inb] with the byte the
    controller drives) and hands the character to [terminal_put], as the
    source does: the character goes to the screen, not to the input
    ring buffer.  The file proves that the table decodes as the US layout
    of scan code set 1 ([set1_us], a reference written from the
    keyboard) and ignores release codes, that the make codes 58..127 read
    past the table, that decoded characters are positive ASCII and pass
    through a [char] unchanged, and what the handler does to the
    screen. *)

From Stdlib Require Import String.
From S2P Require Import Prelude PortIO Fb Terminal.

Module Keyboard.
Import Fb Terminal.

(** [static const char sc_ascii[]] (58 entries). *)
Definition sc_ascii : list Z :=
  [0; 27; 49; 50; 51; 52; 53; 54; 55; 56; 57; 48; 45; 61; 8;
   9; 113; 119; 101; 114; 116; 121; 117; 105; 111; 112; 91; 93; 10; 0;
   97; 115; 100; 102; 103; 104; 106; 107; 108; 59; 39; 96; 0; 92; 122;
   120; 99; 118; 98; 110; 109; 44; 46; 47; 0; 42; 0; 32].

(** The keyboard controller's data port. *)
Definition KBD_DATA_PORT : Z := 0x60.

(** [void keyboard_init() {}] *)
Definition keyboard_init (st : fb_state) : fb_state := st.

(** [if (!(sc & 0x80)) { char c = sc_ascii[sc]; if (c) ... }]:
    [Some (Some c)] outputs [c], [Some None] outputs nothing, [None] is a
    read outside the table. *)
Definition kbd_decode (sc : Z) : option (option Z) :=
  if decide (Z.land sc 0x80 = 0) then
    c ← (sc_ascii.[sc])%kern;
    Some (if decide (c = 0) then None else Some c)
  else Some None.

(** [void keyboard_isr()] *)
Definition keyboard_isr (dev : Z) (st : fb_state) : option (fb_state * trace) :=
  let (sc, ev) := inb KBD_DATA_PORT dev in
  d ← kbd_decode sc;
  match d with
  | Some c => '(st', t) ← terminal_put c st; Some (st', ev :: t)
  | None => Some (st, [ev])
  end.

(** ** The reference: the US layout of scan code set 1

    Written from the keyboard, not from [sc_ascii]: each entry is the
    make code of the leftmost key of a run of keys and the characters of
    the run, left to right (the IBM PC/AT keyboard, set 1, no shift).
    Keys with no character (Ctrl 0x1D, the Shifts 0x2A and 0x36, Alt
    0x38) and the code 0 are in no run. *)
Definition set1_rows : list (Z * list Z) :=
  [(0x01, [27]);                              (* Esc *)
   (0x02, str_bytes "1234567890-=");
   (0x0E, [8]); (0x0F, [9]);                  (* Backspace, Tab *)
   (0x10, str_bytes "qwertyuiop[]");
   (0x1C, [10]);                              (* Enter *)
   (0x1E, str_bytes "asdfghjkl;'`");
   (0x2B, str_bytes "\zxcvbnm,./");
   (0x37, [42]); (0x39, [32])].               (* keypad *, Space *)

Definition row_lookup (sc : Z) (row : Z * list Z) : option Z :=
  if decide (row.1 <= sc) then row.2 !! Z.to_nat (sc - row.1) else None.

(** The character of the make code [sc] in the layout, if any. *)
Definition set1_us (sc : Z) : option Z := head (omap (row_lookup sc) set1_rows).

(** ** Lemmas *)

Lemma length_sc_ascii : length sc_ascii = 58%nat.
Proof. reflexivity. Qed.

Lemma sc_ascii_range : Forall (fun c => 0 <= c < 128) sc_ascii.
Proof. repeat constructor; lia. Qed.

(** Bit 7 of a byte is clear exactly for the codes 0..127 (checked on
    the 256 bytes). *)
Lemma land_0x80_byte sc : 0 <= sc < 256 -> (Z.land sc 0x80 = 0 <-> sc < 128).
Proof.
  intros Hsc.
  assert (Hall : forallb (fun n => Bool.eqb (Z.land (Z.of_nat n) 0x80 =? 0) (Z.of_nat n <? 128))
                   (seq 0 256) = true) by (vm_compute; reflexivity).
  rewrite forallb_forall in Hall. specialize (Hall (Z.to_nat sc) ltac:(apply in_seq; lia)).
  rewrite Z2Nat.id in Hall by lia. apply Bool.eqb_prop in Hall.
  rewrite <- Z.eqb_eq, Hall, Z.ltb_lt. done.
Qed.

Lemma sc_ascii_lookup sc : 0 <= sc < 58 ->
  exists c, (sc_ascii.[sc])%kern = Some c /\ sc_ascii !! Z.to_nat sc = Some c /\ 0 <= c < 128.
Proof.
  intros Hsc. destruct (load_in_range sc_ascii sc) as (c & H1 & H2); [cbn; lia|].
  exists c. split; [done|]. split; [done|].
  eapply (Forall_lookup_1 _ _ _ _ sc_ascii_range H2).
Qed.

Lemma sc_ascii_past_end sc : 58 <= sc -> (sc_ascii.[sc])%kern = None.
Proof. intros Hsc. unfold load. rewrite decide_True by lia. apply lookup_ge_None. cbn. lia. Qed.

Lemma kbd_decode_release sc : 128 <= sc < 256 -> kbd_decode sc = Some None.
Proof.
  intros Hsc. unfold kbd_decode. rewrite decide_False; [done|].
  rewrite land_0x80_byte by lia. lia.
Qed.

Lemma kbd_decode_make sc : 0 <= sc < 128 ->
  kbd_decode sc = (c ← (sc_ascii.[sc])%kern; Some (if decide (c = 0) then None else Some c)).
Proof.
  intros Hsc. unfold kbd_decode. rewrite decide_True; [done|]. apply land_0x80_byte; lia.
Qed.

(** Outside 58..127 the table read is in bounds. *)
Lemma kbd_decode_defined sc : 0 <= sc < 256 -> ~ (58 <= sc < 128) -> kbd_decode sc <> None.
Proof.
  intros Hb Hsc Ed. destruct (decide (128 <= sc)).
  - rewrite kbd_decode_release in Ed by lia. done.
  - rewrite kbd_decode_make in Ed by lia.
    destruct (sc_ascii_lookup sc) as (c & E & _); [lia|]. by rewrite E in Ed.
Qed.

Lemma keyboard_isr_ok dev f : fb_wf f -> ~ (58 <= u8 dev < 128) ->
  exists f' t, keyboard_isr dev f = Some (f', t) /\ fb_wf f'.
Proof.
  intros Hwf Hsc. pose proof (kbd_decode_defined (u8 dev) (u8_bound dev) Hsc) as Hd.
  unfold keyboard_isr, inb. cbn [fst snd].
  destruct (kbd_decode (u8 dev)) as [[c|]|]; cbn; [|eauto|done].
  unfold terminal_put. destruct (fb_write_char_wf c f Hwf) as (f' & -> & Hf'). cbn. eauto.
Qed.

(** ** Properties *)

(** C23: decoding against the keyboard layout (spec, testable property
    4).  For every make code inside the table, [kbd_decode] gives the
    character of the US layout of scan code set 1 ([set1_us], written
    from the keyboard), or nothing for the keys without one, and the
    release code of the same key (bit 7 set) gives nothing. *)
Theorem kbd_decode_layout sc :
  0 <= sc < 58 ->
  kbd_decode sc = Some (set1_us sc) /\ kbd_decode (Z.lor sc 0x80) = Some None.
Proof.
  intros Hsc.
  assert (Hall : Forall (fun n => kbd_decode n = Some (set1_us n) /\
                                  kbd_decode (Z.lor n 0x80) = Some None) (seqZ 0 58)).
  { apply (bool_decide_unpack _). vm_compute. exact I. }
  rewrite Forall_seqZ in Hall. apply Hall. lia.
Qed.

(** C23 witness: 0x1E is 'a', its release 0x1E | 0x80 is nothing. *)
Lemma kbd_decode_layout_witness :
  (kbd_decode 0x1E = Some (set1_us 0x1E) /\ kbd_decode (Z.lor 0x1E 0x80) = Some None) /\
  set1_us 0x1E = Some 97.
Proof. split; [apply kbd_decode_layout; lia | reflexivity]. Defined.

(** C11: [sc_ascii] has 58 entries but [keyboard_isr] indexes it with
    every make code: the codes 58..127 (Caps Lock, F1-F10, the keypad, ...)
    read past the end of the array. *)
Theorem kbd_decode_reads_past_table sc : 58 <= sc < 128 -> kbd_decode sc = None.
Proof.
  intros Hsc. rewrite kbd_decode_make by lia. by rewrite sc_ascii_past_end by lia.
Qed.

(** C11 witness: Caps Lock (0x3A). *)
Lemma kbd_decode_reads_past_table_witness : kbd_decode 0x3A = None.
Proof. apply kbd_decode_reads_past_table. lia. Defined.

(** C34: every decoded character is a positive 7-bit value: never the
    NUL, never negative, so never the empty sentinel [-1] of the ring
    buffer, and a valid [char]: the narrowing to a signed [char] on the
    way to [terminal_put] or a [char] buffer leaves it unchanged. *)
Theorem kbd_decode_positive sc c : kbd_decode sc = Some (Some c) -> 1 <= c < 128 /\ s8 c = c.
Proof.
  unfold kbd_decode. case_decide; [|done].
  destruct (sc_ascii.[sc])%kern as [c'|] eqn:E; cbn; [|done].
  case_decide; intros [= <-]. unfold load in E. case_decide; [|done].
  pose proof (Forall_lookup_1 _ _ _ _ sc_ascii_range E) as Hr. cbv beta in Hr.
  split; [lia|]. apply s8_id. unfold char_range. lia.
Qed.

(** C34 witness: Enter (0x1C) decodes to the newline, which passes
    through a [char] unchanged. *)
Lemma kbd_decode_positive_witness :
  kbd_decode 0x1C = Some (Some 10) /\ 1 <= 10 < 128 /\ s8 10 = 10.
Proof. split; [reflexivity|]. apply (kbd_decode_positive 0x1C 10). reflexivity. Defined.

(** C24: the keyboard handler, on a well-formed screen and a byte that
    is a release code or a make code inside the table, never faults: it
    reads port 0x60 once, and either leaves the screen unchanged (no
    character) or echoes the decoded character with [fb_write_char]. *)
Theorem keyboard_isr_echoes dev st :
  fb_wf st -> ~ (58 <= u8 dev < 128) ->
  exists st' t, keyboard_isr dev st = Some (st', Inb KBD_DATA_PORT (u8 dev) :: t) /\ fb_wf st' /\
    match kbd_decode (u8 dev) with
    | Some (Some c) => fb_write_char c st = Some (st', t)
    | _ => st' = st /\ t = []
    end.
Proof.
  intros Hwf Hsc. pose proof (u8_bound dev) as Hb.
  unfold keyboard_isr, inb. change (u16 KBD_DATA_PORT) with KBD_DATA_PORT.
  destruct (kbd_decode (u8 dev)) as [[c|]|] eqn:Ed.
  - cbn. unfold terminal_put. destruct (fb_write_char_wf c st Hwf) as (st' & -> & Hwf').
    cbn. by exists st', (fb_move_cursor st').
  - cbn. by exists st, [].
  - exfalso. by apply (kbd_decode_defined (u8 dev) Hb Hsc).
Qed.

(** C24 witness: 'a' pressed with the cursor at the origin. *)
Lemma keyboard_isr_echoes_witness :
  exists st' t, keyboard_isr 0x1E (mk_fb 0 0 (replicate 4000 0)) =
      Some (st', Inb KBD_DATA_PORT (u8 0x1E) :: t) /\ fb_wf st' /\
    match kbd_decode (u8 0x1E) with
    | Some (Some c) => fb_write_char c (mk_fb 0 0 (replicate 4000 0)) = Some (st', t)
    | _ => st' = mk_fb 0 0 (replicate 4000 0) /\ t = []
    end.
Proof.
  apply keyboard_isr_echoes; [split; cbn; unfold FB_MAX_ROWS, FB_MAX_COLS; lia | change (u8 0x1E) with 30; lia].
Defined.

End Keyboard.
