(* ===== verification/Pic.v ===== *)
(** * The interrupt controller driver ([src/kernel/pic.c])

    [pic_remap] and [pic_acknowledge] return their port writes in
    program order.  To state what those writes achieve, [I8259] models
    the 8259A controller (hardware, not code of the repository): a write
    with bit 4 set on the command port is ICW1 and starts initialisation;
    the next data-port writes are ICW2 (vector base), ICW3 (cascade
    wiring) and, when ICW1 asked for it, ICW4 (mode); after that a data
    write sets the mask (OCW1), and the command 0x20 is a non-specific
    end of interrupt that clears the highest-priority in-service bit.
    The file proves that the remap sequence initialises both controllers
    to the requested vector bases whatever state they were in, and that
    the acknowledgment
    clears the in-service bits, the secondary controller before the
    primary. *)

From S2P Require Import Prelude PortIO.

Module Pic.

Definition PIC1 : Z := 0x20.
Definition PIC2 : Z := 0xA0.
Definition PIC1_COMMAND : Z := PIC1.
Definition PIC2_COMMAND : Z := PIC2.
Definition PIC1_DATA : Z := PIC1 + 1.
Definition PIC2_DATA : Z := PIC2 + 1.

(** [void pic_remap(int offset1, int offset2)] *)
Definition pic_remap (offset1 offset2 : Z) : trace :=
  [outb PIC1_COMMAND 0x11; outb PIC2_COMMAND 0x11;
   outb PIC1_DATA offset1; outb PIC2_DATA offset2;
   outb PIC1_DATA 4; outb PIC2_DATA 2;
   outb PIC1_DATA 0x01; outb PIC2_DATA 0x01;
   outb PIC1_DATA 0; outb PIC2_DATA 0].

(** [void pic_acknowledge(int interrupt)] *)
Definition pic_acknowledge (interrupt : Z) : trace :=
  (if decide (40 <= interrupt) then [outb PIC2_COMMAND 0x20] else []) ++
  [outb PIC1_COMMAND 0x20].

(** ** The 8259A device *)

Inductive init_phase := Ready | WantICW2 | WantICW3 | WantICW4.

#[export] Instance init_phase_eq_dec : EqDecision init_phase.
Proof. solve_decision. Defined.

Record I8259 := mk_pic {
  phase : init_phase;
  need_icw4 : bool;
  single : bool;
  vector_base : Z;
  cascade : Z;
  mode : Z;
  imr : Z;
  isr : Z
}.

(** Clear the lowest set bit (the highest-priority in-service line). *)
Definition clear_lowest (x : Z) : Z := Z.land x (x - 1).

Definition pic_command (d : I8259) (v : Z) : I8259 :=
  if Z.testbit v 4 then
    mk_pic WantICW2 (Z.testbit v 0) (Z.testbit v 1) (vector_base d) (cascade d) (mode d) 0 0
  else if decide (v = 0x20) then
    mk_pic (phase d) (need_icw4 d) (single d) (vector_base d) (cascade d) (mode d) (imr d)
      (clear_lowest (isr d))
  else d.

Definition pic_data (d : I8259) (v : Z) : I8259 :=
  match phase d with
  | WantICW2 =>
      mk_pic (if single d then (if need_icw4 d then WantICW4 else Ready) else WantICW3)
        (need_icw4 d) (single d) (Z.land v 0xF8) (cascade d) (mode d) (imr d) (isr d)
  | WantICW3 =>
      mk_pic (if need_icw4 d then WantICW4 else Ready)
        (need_icw4 d) (single d) (vector_base d) v (mode d) (imr d) (isr d)
  | WantICW4 =>
      mk_pic Ready (need_icw4 d) (single d) (vector_base d) (cascade d) v (imr d) (isr d)
  | Ready =>
      mk_pic Ready (need_icw4 d) (single d) (vector_base d) (cascade d) (mode d) v (isr d)
  end.

(** A controller at command port [cmd] and data port [cmd + 1]. *)
Definition pic_event (cmd : Z) (d : I8259) (e : hw_event) : I8259 :=
  match e with
  | Outb p v =>
      if decide (p = cmd) then pic_command d v
      else if decide (p = cmd + 1) then pic_data d v
      else d
  | _ => d
  end.

Definition pic_run (cmd : Z) (d : I8259) (t : trace) : I8259 := fold_left (pic_event cmd) t d.

(** The vector the controller raises for its line [irq]. *)
Definition vector_of (d : I8259) (irq : Z) : Z := vector_base d + irq.

(** ** Lemmas *)

(** A byte that is a multiple of 8 is its own vector base (checked on the
    256 bytes). *)
Lemma land_F8_aligned o : 0 <= o < 256 -> o mod 8 = 0 -> Z.land o 0xF8 = o.
Proof.
  intros Ho Hm.
  assert (Hall : forallb (fun n => negb (Z.of_nat n mod 8 =? 0) || (Z.land (Z.of_nat n) 0xF8 =? Z.of_nat n))
                   (seq 0 256) = true) by (vm_compute; reflexivity).
  rewrite forallb_forall in Hall. specialize (Hall (Z.to_nat o) ltac:(apply in_seq; lia)).
  rewrite Z2Nat.id in Hall by lia. rewrite (proj2 (Z.eqb_eq _ _) Hm) in Hall.
  apply Z.eqb_eq. done.
Qed.

Lemma clear_lowest_pow2 k : 0 <= k -> clear_lowest (2 ^ k) = 0.
Proof.
  intros Hk. unfold clear_lowest.
  replace (2 ^ k - 1) with (Z.ones k) by (rewrite Z.ones_equiv; lia). rewrite Z.land_ones by lia.
  apply Z.mod_same. apply Z.pow_nonzero; lia.
Qed.

Lemma pic_eoi_isr d : isr (pic_command d 0x20) = clear_lowest (isr d).
Proof. reflexivity. Qed.

(** What each controller sees of the acknowledgment. *)
Lemma pic_acknowledge_run n m s :
  pic_run PIC1_COMMAND m (pic_acknowledge n) = pic_command m 0x20 /\
  pic_run PIC2_COMMAND s (pic_acknowledge n) = (if decide (40 <= n) then pic_command s 0x20 else s).
Proof. unfold pic_acknowledge. case_decide; split; reflexivity. Qed.

(** The state the remap sequence leaves, from any prior state. *)
Lemma pic_remap_run o1 o2 d1 d2 :
  pic_run PIC1_COMMAND d1 (pic_remap o1 o2) = mk_pic Ready true false (Z.land (u8 o1) 0xF8) 4 1 0 0 /\
  pic_run PIC2_COMMAND d2 (pic_remap o1 o2) = mk_pic Ready true false (Z.land (u8 o2) 0xF8) 2 1 0 0.
Proof. split; reflexivity. Qed.

(** ** Properties *)

(** C26: [pic_remap o1 o2] with byte offsets that are multiples of 8
    (the caller's contract) initialises both controllers, whatever state
    they were in: line [i] of the primary raises vector [o1 + i], line [i]
    of the secondary raises [o2 + i], the secondary hangs on the primary's
    line 2, both run in 8086 mode and no line is masked. *)
Theorem pic_remap_programs_vectors o1 o2 d1 d2 :
  0 <= o1 < 256 -> o1 mod 8 = 0 -> 0 <= o2 < 256 -> o2 mod 8 = 0 ->
  let m := pic_run PIC1_COMMAND d1 (pic_remap o1 o2) in
  let s := pic_run PIC2_COMMAND d2 (pic_remap o1 o2) in
  phase m = Ready /\ phase s = Ready /\
  (forall irq, 0 <= irq < 8 -> vector_of m irq = o1 + irq /\ vector_of s irq = o2 + irq) /\
  cascade m = 4 /\ cascade s = 2 /\ mode m = 1 /\ mode s = 1 /\ imr m = 0 /\ imr s = 0.
Proof.
  intros H1 H1m H2 H2m m s. destruct (pic_remap_run o1 o2 d1 d2) as [Hm Hs].
  subst m s. rewrite Hm, Hs. unfold vector_of. cbn.
  rewrite !u8_id, !land_F8_aligned by done. repeat split; lia.
Qed.

(** C26 witness: the kernel's call [pic_remap(32, 40)]: the keyboard's
    line 1 raises vector 33. *)
Lemma pic_remap_programs_vectors_witness :
  vector_of (pic_run PIC1_COMMAND (mk_pic Ready false false 8 0 0 0xFF 0) (pic_remap 32 40)) 1 = 33.
Proof.
  pose proof (pic_remap_programs_vectors 32 40 (mk_pic Ready false false 8 0 0 0xFF 0)
              (mk_pic Ready false false 0x70 0 0 0xFF 0) ltac:(lia) eq_refl ltac:(lia) eq_refl) as H.
  cbv zeta in H. destruct H as (_ & _ & Hv & _). apply (Hv 1). lia.
Defined.

(** C27: acknowledgment (spec, testable property 7).  For a vector of the
    secondary controller (40..47) [pic_acknowledge] sends the end of
    interrupt to the secondary first, then to the primary, and clears the
    in-service bit of both (the line and the cascade line 2); for a
    vector of the primary (32..39) it acknowledges the primary only and
    leaves the secondary as it was. *)
Theorem pic_acknowledge_eoi n m s :
  32 <= n < 48 ->
  isr m = (if decide (n < 40) then 2 ^ (n - 32) else 4) ->
  (40 <= n -> isr s = 2 ^ (n - 40)) ->
  isr (pic_run PIC1_COMMAND m (pic_acknowledge n)) = 0 /\
  (40 <= n -> isr (pic_run PIC2_COMMAND s (pic_acknowledge n)) = 0 /\
              pic_acknowledge n = [Outb PIC2_COMMAND 0x20; Outb PIC1_COMMAND 0x20]) /\
  (n < 40 -> pic_run PIC2_COMMAND s (pic_acknowledge n) = s /\
             pic_acknowledge n = [Outb PIC1_COMMAND 0x20]).
Proof.
  intros Hn Hm Hs. destruct (pic_acknowledge_run n m s) as [-> ->].
  rewrite pic_eoi_isr, Hm. unfold pic_acknowledge.
  destruct (decide (40 <= n)) as [Hge|Hlt].
  - rewrite decide_False by lia. change 4 with (2 ^ 2).
    rewrite clear_lowest_pow2 by lia. split; [done|]. split; [|lia].
    intros _. rewrite pic_eoi_isr, (Hs Hge), clear_lowest_pow2 by lia. done.
  - rewrite decide_True by lia. rewrite clear_lowest_pow2 by lia.
    split; [done|]. split; [lia|]. done.
Qed.

(** C27 witness: the secondary's line 4 (vector 44). *)
Lemma pic_acknowledge_eoi_witness :
  isr (pic_run PIC1_COMMAND (mk_pic Ready true false 32 4 1 0 4) (pic_acknowledge 44)) = 0 /\
  (40 <= 44 -> isr (pic_run PIC2_COMMAND (mk_pic Ready true false 40 2 1 0 16) (pic_acknowledge 44)) = 0 /\
              pic_acknowledge 44 = [Outb PIC2_COMMAND 0x20; Outb PIC1_COMMAND 0x20]) /\
  (44 < 40 -> pic_run PIC2_COMMAND (mk_pic Ready true false 40 2 1 0 16) (pic_acknowledge 44) =
                mk_pic Ready true false 40 2 1 0 16 /\
              pic_acknowledge 44 = [Outb PIC1_COMMAND 0x20]).
Proof. apply pic_acknowledge_eoi; [lia | reflexivity | reflexivity]. Defined.

End Pic.
