(* ===== verification/Idt.v ===== *)
(** * The vector table installer ([src/kernel/interrupts.c], lines 1-28,
      and [src/include/interrupts.h])

    The packed structures [IDTDescriptor] and [IDT] are records of their
    fields; the globals [idt[256]] and [idt_ptr] are zero-initialised
    static storage ([idt_state_init]).  [set_idt] writes the five fields
    of one entry (one checked store of the record: an index outside the
    256 entries would be a fault).  [interrupts_install_idt] takes the
    addresses the linker gives to [interrupt_handler_33] and to [idt] as
    inputs and returns its hardware events: the [lidt] of [load_idt]
    (an assembly stub outside the repository, modelled from the spec),
    then the port writes of [pic_remap 32 40].  The packed layout is
    [desc_bytes]; [sizeof(idt)] is computed from it.  The file proves
    what the installation leaves in the table, what the CPU decodes from
    the gate [set_idt] writes (the handler address rejoined from its two
    16-bit halves), and [set_idt] as a frame property: one entry
    written, the others and the length kept, the table invariant
    preserved. *)

From S2P Require Import Prelude PortIO Pic.

Module Idt.

(** [struct IDTDescriptor] (packed). *)
Record IDTDescriptor := mk_desc {
  offset_low : Z;
  selector : Z;
  zero : Z;
  type_attr : Z;
  offset_high : Z
}.

#[export] Instance desc_eq_dec : EqDecision IDTDescriptor.
Proof. solve_decision. Defined.

(** [struct IDT] (packed). *)
Record IDT := mk_idt { limit : Z; base : Z }.

Definition desc_zero : IDTDescriptor := mk_desc 0 0 0 0 0.

(** [struct IDTDescriptor idt[256]; struct IDT idt_ptr;] *)
Record idt_state := mk_idt_state { idt : list IDTDescriptor; idt_ptr : IDT }.

Definition idt_state_init : idt_state := mk_idt_state (replicate 256 desc_zero) (mk_idt 0 0).

(** The bytes of a packed descriptor, little-endian fields in order. *)
Definition desc_bytes (d : IDTDescriptor) : list Z :=
  [Z.land (offset_low d) 0xFF; Z.shiftr (offset_low d) 8;
   Z.land (selector d) 0xFF; Z.shiftr (selector d) 8;
   zero d; type_attr d;
   Z.land (offset_high d) 0xFF; Z.shiftr (offset_high d) 8].

(** [sizeof(idt)]. *)
Definition sizeof_idt : Z := 256 * Z.of_nat (length (desc_bytes desc_zero)).

(** [extern void load_idt(struct IDT *idt)]: the assembly stub is not in
    the repository; as the spec describes it, it issues the one [lidt]
    that loads the descriptor into the CPU's IDTR. *)
Definition load_idt (p : IDT) : trace := [Lidt (base p) (limit p)].

(** [static void set_idt(int num, u32int base)] *)
Definition set_idt (num base : Z) (t : list IDTDescriptor) : option (list IDTDescriptor) :=
  (t.[num := mk_desc (u16 (Z.land base 0xFFFF)) (u16 0x08) (u8 0) (u8 0x8E)
                     (u16 (Z.land (Z.shiftr base 16) 0xFFFF))])%kern.

(** [void interrupts_install_idt()]: [handler] is
    [(u32int)interrupt_handler_33], [idt_addr] is [&idt]. *)
Definition interrupts_install_idt (handler idt_addr : Z) (st : idt_state)
  : option (idt_state * trace) :=
  t ← set_idt 33 (u32 handler) (idt st);
  let p := mk_idt (u16 (sizeof_idt - 1)) (u32 idt_addr) in
  Some (mk_idt_state t p, load_idt p ++ Pic.pic_remap 32 40).

(** ** What the CPU reads from a descriptor *)

Definition gate_offset (d : IDTDescriptor) : Z :=
  Z.lor (Z.shiftl (offset_high d) 16) (offset_low d).

Definition gate_present (d : IDTDescriptor) : bool := Z.testbit (type_attr d) 7.
Definition gate_dpl (d : IDTDescriptor) : Z := Z.land (Z.shiftr (type_attr d) 5) 3.
Definition gate_type (d : IDTDescriptor) : Z := Z.land (type_attr d) 0xF.

(** The kernel's interrupt gate for a handler address. *)
Definition kernel_gate (handler : Z) : IDTDescriptor :=
  mk_desc (Z.land handler 0xFFFF) 8 0 0x8E (Z.land (Z.shiftr handler 16) 0xFFFF).

(** Every entry is unused (all zero) or a kernel interrupt gate. *)
Definition idt_entry_ok (d : IDTDescriptor) : Prop :=
  d = desc_zero \/ exists h, 0 <= h < 2 ^ 32 /\ d = kernel_gate h.

(** ** Lemmas *)

(** Bits of [h] above 32 are clear. *)
Lemma testbit_u32_high h i : 0 <= h < 2 ^ 32 -> 32 <= i -> Z.testbit h i = false.
Proof.
  intros Hh Hi. rewrite <- (Z.mod_small h (2 ^ 32)) by lia.
  apply Z.mod_pow2_bits_high. lia.
Qed.

(** Joining the two 16-bit halves gives back a 32-bit address. *)
Lemma join_halves h : 0 <= h < 2 ^ 32 ->
  Z.lor (Z.shiftl (Z.land (Z.shiftr h 16) 0xFFFF) 16) (Z.land h 0xFFFF) = h.
Proof.
  intros Hh. change 0xFFFF with (Z.ones 16). apply Z.bits_inj'. intros i Hi.
  rewrite Z.lor_spec, (Z.land_spec h).
  destruct (Z.lt_ge_cases i 16) as [Hlt|Hge].
  - rewrite Z.shiftl_spec_low, Z.ones_spec_low by lia. by rewrite andb_true_r.
  - rewrite Z.shiftl_spec, Z.land_spec, Z.shiftr_spec, (Z.ones_spec_high 16 i) by lia.
    rewrite andb_false_r, orb_false_r, Z.sub_add.
    destruct (Z.lt_ge_cases (i - 16) 16).
    + rewrite Z.ones_spec_low by lia. by rewrite andb_true_r.
    + rewrite (Z.ones_spec_high 16 (i - 16)), testbit_u32_high by lia. done.
Qed.

Lemma set_idt_gate num h t : 0 <= h < 2 ^ 32 -> 0 <= num < Z.of_nat (length t) ->
  set_idt num h t = Some (<[Z.to_nat num := kernel_gate h]> t).
Proof.
  intros Hh Hn. unfold set_idt, kernel_gate. rewrite store_in_range by done.
  rewrite (u16_id (Z.land h 0xFFFF)), (u16_id (Z.land (Z.shiftr h 16) 0xFFFF))
    by (change 0xFFFF with (Z.ones 16); rewrite Z.land_ones by lia;
        split; [apply Z.mod_pos_bound | apply Z.mod_pos_bound]; lia).
  reflexivity.
Qed.

Lemma kernel_gate_offset h : 0 <= h < 2 ^ 32 -> gate_offset (kernel_gate h) = h.
Proof. intros. unfold gate_offset, kernel_gate. cbn. by apply join_halves. Qed.

Lemma install_idt_ok handler idt_addr st : (34 <= length (idt st))%nat ->
  exists st', interrupts_install_idt handler idt_addr st = Some st'.
Proof.
  intros Hl. unfold interrupts_install_idt, set_idt. rewrite store_in_range by lia.
  by eexists.
Qed.

(** ** Properties *)

(** C18: installation (spec, testable property 8).  From the
    zero-initialised globals, [interrupts_install_idt] never faults; it
    leaves entry 33 the kernel gate of the handler's address and every
    other entry zero; the descriptor it loads covers the 256 entries
    ([limit] 2047) at the table's address; and its events are the [lidt]
    first, then the controller remap: the table is loaded before the
    controller can raise vector 33. *)
Theorem install_idt_result handler idt_addr :
  0 <= handler < 2 ^ 32 -> 0 <= idt_addr < 2 ^ 32 ->
  exists st' t, interrupts_install_idt handler idt_addr idt_state_init = Some (st', t) /\
    length (idt st') = 256%nat /\
    idt st' !! 33%nat = Some (kernel_gate handler) /\
    (forall i, i <> 33%nat -> (i < 256)%nat -> idt st' !! i = Some desc_zero) /\
    idt_ptr st' = mk_idt 2047 idt_addr /\
    t = Lidt idt_addr 2047 :: Pic.pic_remap 32 40.
Proof.
  intros Hh Ha. unfold interrupts_install_idt, idt_state_init.
  assert (Hu : u32 handler = handler /\ u32 idt_addr = idt_addr).
  { unfold u32. rewrite !Z.land_ones by lia. split; apply Z.mod_small; lia. }
  destruct Hu as [-> ->]. rewrite set_idt_gate by (cbn; lia).
  do 2 eexists. split; [reflexivity|]. cbn [idt idt_ptr]. rewrite length_insert, length_replicate.
  split; [done|]. split; [by rewrite list_lookup_insert_eq by (rewrite length_replicate; lia)|].
  split; [|done].
  intros i Hi Hlt. rewrite list_lookup_insert_ne by lia. by apply lookup_replicate_2.
Qed.

(** C18 witness: handler at 0x00100420, table at 0x00105000. *)
Lemma install_idt_result_witness :
  exists st' t, interrupts_install_idt 0x00100420 0x00105000 idt_state_init = Some (st', t) /\
    length (idt st') = 256%nat /\
    idt st' !! 33%nat = Some (kernel_gate 0x00100420) /\
    (forall i, i <> 33%nat -> (i < 256)%nat -> idt st' !! i = Some desc_zero) /\
    idt_ptr st' = mk_idt 2047 0x00105000 /\
    t = Lidt 0x00105000 2047 :: Pic.pic_remap 32 40.
Proof. apply install_idt_result; lia. Defined.

(** C28: the gate [set_idt] writes is what the CPU needs for a hardware
    interrupt: its two 16-bit halves join back to the handler's 32-bit
    address, it is present, of privilege level 0, a 32-bit interrupt gate
    (type 0xE), and uses the kernel code selector 0x08. *)
Theorem set_idt_gate_decodes num h t t' :
  0 <= h < 2 ^ 32 -> set_idt num h t = Some t' ->
  t' !! Z.to_nat num = Some (kernel_gate h) /\
  gate_offset (kernel_gate h) = h /\ gate_present (kernel_gate h) = true /\
  gate_dpl (kernel_gate h) = 0 /\ gate_type (kernel_gate h) = 0xE /\
  selector (kernel_gate h) = 8.
Proof.
  intros Hh Hset. pose proof Hset as Hset'. unfold set_idt in Hset'.
  apply store_Some in Hset' as [Hn _].
  rewrite set_idt_gate in Hset by done. injection Hset as <-.
  rewrite list_lookup_insert_eq by lia. split; [done|].
  rewrite kernel_gate_offset by done. done.
Qed.

(** C28 witness. *)
Lemma set_idt_gate_decodes_witness :
  (<[33%nat := kernel_gate 0x00100420]> (replicate 256 desc_zero)) !! Z.to_nat 33 =
    Some (kernel_gate 0x00100420) /\
  gate_offset (kernel_gate 0x00100420) = 0x00100420 /\
  gate_present (kernel_gate 0x00100420) = true /\
  gate_dpl (kernel_gate 0x00100420) = 0 /\ gate_type (kernel_gate 0x00100420) = 0xE /\
  selector (kernel_gate 0x00100420) = 8.
Proof.
  apply (set_idt_gate_decodes 33 0x00100420 (replicate 256 desc_zero)); [lia|].
  apply set_idt_gate; cbn; lia.
Defined.

(** C29: [set_idt] as a frame property.  On a table whose entries are
    all zero or kernel gates, [set_idt num h] with a 32-bit address
    keeps the length of the table, makes entry [num] the kernel gate of
    [h], leaves every other entry as it was, and so keeps the table
    invariant (spec, data model: every entry unused or a complete gate). *)
Theorem set_idt_preserves_entries num h t t' :
  Forall idt_entry_ok t -> 0 <= h < 2 ^ 32 -> set_idt num h t = Some t' ->
  length t' = length t /\ t' !! Z.to_nat num = Some (kernel_gate h) /\
  (forall i, i <> Z.to_nat num -> t' !! i = t !! i) /\ Forall idt_entry_ok t'.
Proof.
  intros Hok Hh Hset. pose proof Hset as Hs. unfold set_idt in Hs. apply store_Some in Hs as [Hn _].
  rewrite set_idt_gate in Hset by done. injection Hset as <-.
  split; [apply length_insert|]. split; [apply list_lookup_insert_eq; lia|].
  split; [intros i Hi; by apply list_lookup_insert_ne|].
  apply Forall_insert; [done|]. right. eauto.
Qed.

(** C29 witness: the keyboard gate written into entry 33 of the
    zero-initialised table. *)
Lemma set_idt_preserves_entries_witness :
  length (<[33%nat := kernel_gate 0x00100420]> (replicate 256 desc_zero)) = length (replicate 256 desc_zero) /\
  (<[33%nat := kernel_gate 0x00100420]> (replicate 256 desc_zero)) !! Z.to_nat 33 = Some (kernel_gate 0x00100420) /\
  (forall i, i <> Z.to_nat 33 ->
     (<[33%nat := kernel_gate 0x00100420]> (replicate 256 desc_zero)) !! i = replicate 256 desc_zero !! i) /\
  Forall idt_entry_ok (<[33%nat := kernel_gate 0x00100420]> (replicate 256 desc_zero)).
Proof.
  apply (set_idt_preserves_entries 33 0x00100420 (replicate 256 desc_zero)).
  - apply Forall_replicate. by left.
  - lia.
  - apply set_idt_gate; cbn; lia.
Defined.

End Idt.
