(* ===== verification/Cpu.v ===== *)
(** * Interrupt delivery: the two 8259s and the CPU (hardware)

    What happens between a device raising an IRQ line and the first
    instruction of a handler is done by hardware, not by code of the
    repository; this file models it so that the configuration the kernel
    writes ([pic_remap], [interrupts_install_idt]) can be given its
    meaning.  [pic_vector] is the routing of the cascaded controllers:
    lines 0-7 on the primary, 8-15 on the secondary behind the primary's
    line 2, a set mask bit blocks the line, the vector is the controller's
    base plus the line.  [idtr_of] is the CPU's IDTR, the operand of the
    last [lidt] on the trace.  [cpu_deliver] is the protected-mode
    delivery through the table: a present 32-bit interrupt gate inside
    the limit is entered; otherwise the CPU raises #NP (vector 11, gate
    not present) or #GP (13); if that exception cannot be delivered
    either it raises the double fault (8), and if that fails the
    processor shuts down (triple fault, a reset on a PC).  Not modelled:
    the in-service priority of the controllers and the CPU's interrupt
    flag, which decide whether a raised line is delivered now or later;
    the theorems speak of a delivery when it happens. *)

From S2P Require Import Prelude PortIO Pic Idt.

Module Cpu.
Import Pic Idt.

(** The IDTR: the operand of the last [lidt] of the trace. *)
Definition idtr_of (t : trace) : option IDT :=
  fold_left (fun r e => match e with Lidt b l => Some (mk_idt l b) | _ => r end) t None.

(** The descriptor of vector [v] read through the IDTR; [None] when the
    8 bytes of the entry pass the limit. *)
Definition gate_lookup (tbl : list IDTDescriptor) (r : IDT) (v : Z) : option IDTDescriptor :=
  if decide (0 <= v /\ v * 8 + 7 <= limit r) then tbl !! Z.to_nat v else None.

(** A present 32-bit interrupt gate. *)
Definition gate_usable (d : IDTDescriptor) : bool :=
  gate_present d && bool_decide (gate_type d = 0xE).

(** The handler offset the CPU jumps to for vector [v], if it can. *)
Definition vector_entry (tbl : list IDTDescriptor) (r : IDT) (v : Z) : option Z :=
  d ← gate_lookup tbl r v;
  if gate_usable d then Some (gate_offset d) else None.

(** The fault a failed delivery raises: #NP for a gate that is not
    present, #GP otherwise. *)
Definition fault_vector (tbl : list IDTDescriptor) (r : IDT) (v : Z) : Z :=
  match gate_lookup tbl r v with
  | Some d => if gate_present d then 13 else 11
  | None => 13
  end.

Inductive delivery := Enter (offset : Z) | TripleFault.

(** Delivery of vector [v]: the vector itself, else the fault it
    raises, else the double fault, else shutdown. *)
Definition cpu_deliver (tbl : list IDTDescriptor) (r : IDT) (v : Z) : delivery :=
  match vector_entry tbl r v with
  | Some h => Enter h
  | None =>
      match vector_entry tbl r (fault_vector tbl r v) with
      | Some h => Enter h
      | None => match vector_entry tbl r 8 with Some h => Enter h | None => TripleFault end
      end
  end.

(** The vector the cascaded controllers [m] (primary) and [s]
    (secondary) raise for the line [irq], [None] when it is masked; line
    2 carries the secondary and no device. *)
Definition pic_vector (m s : I8259) (irq : Z) : option Z :=
  if decide (0 <= irq < 8 /\ irq <> 2) then
    if Z.testbit (imr m) irq then None else Some (vector_of m irq)
  else if decide (8 <= irq < 16) then
    if Z.testbit (imr m) 2 || Z.testbit (imr s) (irq - 8) then None
    else Some (vector_of s (irq - 8))
  else None.

(** The table [interrupts_install_idt] builds: the kernel gate of the
    stub at 33, zero elsewhere. *)
Definition boot_table (stub : Z) : list IDTDescriptor :=
  <[33%nat := kernel_gate stub]> (replicate 256 desc_zero).

(** ** Lemmas *)

Lemma idtr_of_app t1 t2 :
  idtr_of (t1 ++ t2) =
    fold_left (fun r e => match e with Lidt b l => Some (mk_idt l b) | _ => r end) t2 (idtr_of t1).
Proof. unfold idtr_of. by rewrite fold_left_app. Qed.

(** Events without [lidt] leave the IDTR alone. *)
Lemma idtr_of_no_lidt t1 t2 :
  Forall (fun e => match e with Lidt _ _ => False | _ => True end) t2 ->
  idtr_of (t1 ++ t2) = idtr_of t1.
Proof.
  rewrite idtr_of_app. generalize (idtr_of t1). induction t2 as [|e t2 IH]; intros r Ht; [done|].
  inversion Ht as [|? ? He Ht']; subst. cbn. destruct e; [apply IH..|done]; done.
Qed.

Lemma boot_table_lookup stub v : 0 <= v < 256 ->
  boot_table stub !! Z.to_nat v = Some (if decide (v = 33) then kernel_gate stub else desc_zero).
Proof.
  intros Hv. unfold boot_table. case_decide as E.
  - subst. apply list_lookup_insert_eq. rewrite length_replicate. lia.
  - rewrite list_lookup_insert_ne by lia. apply lookup_replicate_2. lia.
Qed.

Lemma kernel_gate_usable stub : gate_usable (kernel_gate stub) = true.
Proof. reflexivity. Qed.

(** Through the descriptor the kernel loads, vector 33 enters the stub
    and every other vector of the table has no usable gate. *)
Lemma vector_entry_boot stub a v : 0 <= stub < 2 ^ 32 -> 0 <= v < 256 ->
  vector_entry (boot_table stub) (mk_idt 2047 a) v =
    if decide (v = 33) then Some stub else None.
Proof.
  intros Hs Hv. unfold vector_entry, gate_lookup. cbn [limit].
  rewrite decide_True by lia. rewrite boot_table_lookup by done.
  case_decide; cbn [mbind option_bind].
  - rewrite kernel_gate_usable. f_equal. by apply kernel_gate_offset.
  - reflexivity.
Qed.

(** Every vector other than 33 shuts the processor down. *)
Lemma cpu_deliver_boot stub a v : 0 <= stub < 2 ^ 32 -> 0 <= v < 256 ->
  cpu_deliver (boot_table stub) (mk_idt 2047 a) v =
    if decide (v = 33) then Enter stub else TripleFault.
Proof.
  intros Hs Hv. unfold cpu_deliver. rewrite vector_entry_boot by done.
  case_decide as E; [done|].
  assert (Hf : fault_vector (boot_table stub) (mk_idt 2047 a) v = 11).
  { unfold fault_vector, gate_lookup. cbn [limit]. rewrite decide_True by lia.
    rewrite boot_table_lookup, decide_False by done. reflexivity. }
  rewrite Hf, !vector_entry_boot by lia. reflexivity.
Qed.

End Cpu.
