(* ===== verification/Kernel.v ===== *)
(** * The dispatcher, the boot sequence and the whole machine
      ([src/kernel/interrupts.c] lines 30-35, [src/kernel/kernel.c],
      [src/kernel/terminal.c] lines 20-29)

    [machine] gathers the state of every component: the screen, the
    input ring buffer, the vector table, the foreground's position in
    [terminal_run] (inside [readline] with its [count] and [buffer], or
    faulted) and the trace of hardware events so far.
    [interrupt_handler] is the dispatcher; [kernel_boot] is [kernel_main]
    up to the first [readline] call of [terminal_run]
    ([terminal_run_entry]: the prompt, then [readline]); [fg_poll] is one
    iteration of [readline]'s loop and, when it returns, the echo of
    [terminal_run]'s inner loop.  [step] interleaves interrupts (any
    vector, any byte on the keyboard port) with foreground polls, and
    reachability is its reflexive-transitive closure [rtc step] from the
    state [kernel_boot] returns.

    The theorems show what this composition does: the keyboard handler
    echoes to the screen but never calls [input_put], so the ring buffer
    stays empty in every reachable state and [readline] never returns;
    a make code past the table
    makes the machine fault; what the boot leaves on the screen; and that
    the rest of [terminal_run] works: with a line in the ring, [fg_run]
    (polls with no interrupt) reaches the echo [shell_echo]. *)

From Stdlib Require Import String.
From stdpp Require Import relations.
From S2P Require Import Prelude PortIO RingBuffer LineReader Fb Terminal Keyboard Pic Idt.

Module Kernel.
Import Fb Terminal Keyboard Idt Readline.

(** Where the foreground is: in [readline(buffer, 256)], or stopped by
    undefined behaviour. *)
Inductive fg_state :=
| InReadline (st : rl_state)
| FgFault.

Record machine := mk_machine {
  m_fb : fb_state;
  m_ring : Ring.ring;
  m_idt : idt_state;
  m_fg : fg_state;
  m_trace : trace
}.

(** A run of the machine that may hit undefined behaviour. *)
Inductive sys := Running (m : machine) | Faulted.

Definition set_fb (m : machine) (f : fb_state) (t : trace) : machine :=
  mk_machine f (m_ring m) (m_idt m) (m_fg m) (m_trace m ++ t).

(** [void interrupt_handler(u32int interrupt)]; [dev] is the byte the
    keyboard controller drives on port 0x60. *)
Definition interrupt_handler (interrupt dev : Z) (m : machine) : option machine :=
  if decide (interrupt = 33) then
    '(f, t) ← keyboard_isr dev (m_fb m);
    Some (set_fb m f (t ++ Pic.pic_acknowledge interrupt))
  else Some m.

(** String literals of [kernel_main] and [terminal_run]. *)
Definition msg_booting : list Z := lit "MyOS Booting..." true.
Definition msg_ready : list Z := str_bytes "Ready." ++ 10 :: str_bytes "> " ++ [0].
Definition msg_prompt : list Z := lit "> " false.
Definition msg_you_typed : list Z := 10 :: str_bytes "You typed: " ++ [0].
Definition msg_next_prompt : list Z := 10 :: str_bytes "> " ++ [0].

(** [terminal_write] on the machine's screen. *)
Definition m_write (s : list Z) (m : machine) : option machine :=
  '(f, t) ← terminal_write s (m_fb m); Some (set_fb m f t).

(** [terminal_run] up to its first [readline(buffer, 256)]: the prompt,
    then the foreground is inside [readline] at [count = 0] with the
    uninitialised stack array [buf0]. *)
Definition terminal_run_entry (buf0 : list Z) (m : machine) : option machine :=
  m1 ← m_write msg_prompt m;
  Some (mk_machine (m_fb m1) (m_ring m1) (m_idt m1) (InReadline (mk_rl 0 buf0)) (m_trace m1)).

(** [kernel_main] up to the first [readline(buffer, 256)] of
    [terminal_run]; [handler] and [idt_addr] are the link-time addresses
    of [interrupt_handler_33] and [idt], [buf0] the uninitialised
    [buffer]. *)
Definition kernel_boot (handler idt_addr : Z) (buf0 : list Z) (m : machine) : option machine :=
  '(f1, t1) ← terminal_init (m_fb m);
  let m1 := set_fb m f1 t1 in
  m2 ← m_write msg_booting m1;
  '(i, t3) ← interrupts_install_idt handler idt_addr (m_idt m2);
  let m3 := mk_machine (keyboard_init (m_fb m2)) (m_ring m2) i (m_fg m2) (m_trace m2 ++ t3) in
  m4 ← m_write msg_ready m3;
  terminal_run_entry buf0 m4.

(** One iteration of [readline]'s loop in [terminal_run]; when it
    returns, the echo and the next call [readline(buffer, 256)] on the
    same array. *)
Definition fg_poll (m : machine) : option machine :=
  match m_fg m with
  | InReadline st =>
      let (r, ring') := readline_iter 256 st (m_ring m) in
      let m1 := mk_machine (m_fb m) ring' (m_idt m) (m_fg m) (m_trace m) in
      match r with
      | Poll st' => Some (mk_machine (m_fb m) ring' (m_idt m) (InReadline st') (m_trace m))
      | Return _ o =>
          m2 ← m_write msg_you_typed m1;
          m3 ← m_write o m2;
          m4 ← m_write msg_next_prompt m3;
          Some (mk_machine (m_fb m4) (m_ring m4) (m_idt m4) (InReadline (mk_rl 0 o)) (m_trace m4))
      | Fault => None
      end
  | FgFault => None
  end.

(** The machine's transitions. *)
Inductive step : sys -> sys -> Prop :=
| step_intr n dev m m' :
    interrupt_handler n dev m = Some m' -> step (Running m) (Running m')
| step_intr_fault n dev m :
    interrupt_handler n dev m = None -> step (Running m) Faulted
| step_poll m m' :
    fg_poll m = Some m' -> step (Running m) (Running m')
| step_poll_fault m :
    fg_poll m = None -> m_fg m <> FgFault -> step (Running m) Faulted.

(** The power-on state: zeroed globals, the screen memory [vga]. *)
Definition power_on (vga : list Z) : machine :=
  mk_machine (mk_fb 0 0 vga) Ring.ring_init idt_state_init (InReadline (mk_rl 0 [])) [].

(** The state every reachable machine keeps: the ring buffer as
    initialised, the foreground inside the first [readline] at [count = 0],
    and a well-formed screen. *)
Record kinv (buf0 : list Z) (m : machine) : Prop := {
  kinv_ring : m_ring m = Ring.ring_init;
  kinv_fg : m_fg m = InReadline (mk_rl 0 buf0);
  kinv_fb : fb_wf (m_fb m)
}.

(** The screen side of [kernel_boot]: the four writes of the boot, on
    the screen alone. *)
Definition boot_screen_run (f : fb_state) : option fb_state :=
  '(f1, _) ← terminal_init f;
  '(f2, _) ← terminal_write msg_booting f1;
  '(f3, _) ← terminal_write msg_ready (keyboard_init f2);
  '(f4, _) ← terminal_write msg_prompt f3;
  Some f4.

(** [n] iterations of the foreground with no interrupt in between. *)
Fixpoint fg_run (n : nat) (m : machine) : option machine :=
  match n with
  | O => Some m
  | S n' => m' ← fg_poll m; fg_run n' m'
  end.

(** What [terminal_run] does once [readline] has returned the array [o]
    and left the ring [r]: the three writes, then [readline] again on the
    same buffer. *)
Definition shell_echo (m : machine) (r : Ring.ring) (o : list Z) : option machine :=
  '(f1, t1) ← terminal_write msg_you_typed (m_fb m);
  '(f2, t2) ← terminal_write o f1;
  '(f3, t3) ← terminal_write msg_next_prompt f2;
  Some (mk_machine f3 r (m_idt m) (InReadline (mk_rl 0 o)) (m_trace m ++ t1 ++ t2 ++ t3)).

(** ** Lemmas *)

(** Writing to the screen touches nothing else. *)
Lemma m_write_frame s m m' :
  m_write s m = Some m' ->
  m_ring m' = m_ring m /\ m_idt m' = m_idt m /\ m_fg m' = m_fg m.
Proof.
  unfold m_write. destruct (terminal_write s (m_fb m)) as [[f t]|]; [|done].
  intros [= <-]. done.
Qed.

Lemma m_write_fb s m m' :
  m_write s m = Some m' -> exists t, terminal_write s (m_fb m) = Some (m_fb m', t).
Proof.
  unfold m_write. destruct (terminal_write s (m_fb m)) as [[f t]|]; [|done].
  intros [= <-]. by exists t.
Qed.

Lemma m_write_wf s m : fb_wf (m_fb m) -> 0 ∈ s ->
  exists m', m_write s m = Some m' /\ fb_wf (m_fb m').
Proof.
  intros Hwf Hin. unfold m_write.
  destruct (terminal_write_wf s (m_fb m) Hwf Hin) as (f & t & -> & Hf). by eexists.
Qed.

(** The interrupt handler touches the screen and the trace only. *)
Lemma interrupt_handler_frame n dev m m' :
  interrupt_handler n dev m = Some m' ->
  m_ring m' = m_ring m /\ m_idt m' = m_idt m /\ m_fg m' = m_fg m.
Proof.
  unfold interrupt_handler. case_decide; [|by intros [= <-]].
  destruct (keyboard_isr dev (m_fb m)) as [[f t]|]; [|done]. intros [= <-]. done.
Qed.

(** On the empty buffer a poll changes nothing. *)
Lemma fg_poll_idle m st :
  m_ring m = Ring.ring_init -> m_fg m = InReadline st -> fg_poll m = Some m.
Proof.
  intros Hr Hf. unfold fg_poll. rewrite Hf, Hr.
  rewrite (@iter_empty _ Ring.ring_char_queue ring_char_queue_laws 256 st Ring.ring_init
             Ring.ring_init_wf eq_refl). cbn.
  rewrite (Ring.getc_nonblock_empty Ring.ring_init Ring.ring_init_wf eq_refl). cbn.
  rewrite <- Hr, <- Hf. by destruct m.
Qed.

Lemma keyboard_isr_bad dev f : 58 <= u8 dev < 128 -> keyboard_isr dev f = None.
Proof.
  intros Hsc. unfold keyboard_isr, inb. cbn [fst snd].
  rewrite kbd_decode_make by lia. rewrite sc_ascii_past_end by lia. done.
Qed.

(** What the boot leaves for the rest of the system. *)
Lemma kernel_boot_frame handler idt_addr buf0 m m0 :
  kernel_boot handler idt_addr buf0 m = Some m0 ->
  m_ring m0 = m_ring m /\ m_fg m0 = InReadline (mk_rl 0 buf0).
Proof.
  unfold kernel_boot, terminal_run_entry. intros H. bind_inv H. injection H as <-. cbn.
  repeat match goal with E : m_write _ _ = Some _ |- _ => apply m_write_frame in E as (? & _ & ?) end.
  cbn in *. split; [congruence | done].
Qed.

Lemma m_write_msg_ok s m : fb_wf (m_fb m) -> 0 ∈ s ->
  exists m', m_write s m = Some m' /\ fb_wf (m_fb m') /\
    m_ring m' = m_ring m /\ m_idt m' = m_idt m /\ m_fg m' = m_fg m.
Proof.
  intros Hwf Hin. destruct (m_write_wf s m Hwf Hin) as (m' & E & Hf).
  exists m'. split; [done|]. split; [done|]. by apply (m_write_frame s).
Qed.

(** The boot does not fault on a screen of 2000 cells and a table of at
    least 34 entries. *)
Lemma kernel_boot_ok handler idt_addr buf0 m :
  length (fb (m_fb m)) = 4000%nat -> (34 <= length (idt (m_idt m)))%nat ->
  exists m0, kernel_boot handler idt_addr buf0 m = Some m0 /\ fb_wf (m_fb m0).
Proof.
  intros Hl Hi. unfold kernel_boot, terminal_init, terminal_run_entry.
  destruct (fb_clear_ok _ Hl) as (f0 & -> & Hf0). cbn [mbind option_bind].
  destruct (terminal_write_wf (lit "Welcome to my OS!" true) f0 Hf0 ltac:(in_list))
    as (f1 & t1 & -> & Hf1). cbn [mbind option_bind].
  destruct (m_write_msg_ok msg_booting (set_fb m f1 (fb_move_cursor f0 ++ t1)) Hf1
              ltac:(in_list)) as (m2 & -> & Hf2 & _ & Hi2 & _). cbn [mbind option_bind].
  destruct (install_idt_ok handler idt_addr (m_idt m2)) as ([i t3] & ->);
    [by rewrite Hi2|]. cbn [mbind option_bind].
  destruct (m_write_msg_ok msg_ready (mk_machine (keyboard_init (m_fb m2)) (m_ring m2) i
              (m_fg m2) (m_trace m2 ++ t3)) Hf2 ltac:(in_list)) as (m4 & -> & Hf4 & _).
  cbn [mbind option_bind].
  destruct (m_write_msg_ok msg_prompt m4 Hf4 ltac:(in_list)) as (m5 & -> & Hf5 & _).
  cbn [mbind option_bind]. by eexists.
Qed.

Lemma interrupt_handler_wf n dev m m' :
  fb_wf (m_fb m) -> interrupt_handler n dev m = Some m' -> fb_wf (m_fb m').
Proof.
  intros Hwf. unfold interrupt_handler. case_decide; [|by intros [= <-]].
  destruct (decide (58 <= u8 dev < 128)) as [Hb|Hb]; [by rewrite keyboard_isr_bad|].
  destruct (keyboard_isr_ok dev _ Hwf Hb) as (f' & t & -> & Hf). by intros [= <-].
Qed.

(** On a well-formed screen the handler faults exactly on vector 33 with
    a make code past the table. *)
Lemma interrupt_handler_None n dev m : fb_wf (m_fb m) ->
  interrupt_handler n dev m = None <-> n = 33 /\ 58 <= u8 dev < 128.
Proof.
  intros Hwf. unfold interrupt_handler. case_decide as Hn; [|split; [done|lia]].
  destruct (decide (58 <= u8 dev < 128)) as [Hb|Hb]; [by rewrite keyboard_isr_bad|].
  destruct (keyboard_isr_ok dev _ Hwf Hb) as (f' & t & -> & Hf). cbn. split; [done|lia].
Qed.

Lemma step_kinv buf0 m s : kinv buf0 m -> step (Running m) s ->
  s = Faulted \/ exists m', s = Running m' /\ kinv buf0 m'.
Proof.
  intros [Hr Hf Hwf] Hs. inversion Hs as [n dev ? m' E| | ? m' E|]; subst; [| by left | | by left].
  - right. exists m'. split; [done|].
    destruct (interrupt_handler_frame _ _ _ _ E) as (R & _ & F).
    split; [congruence|congruence|]. by apply (interrupt_handler_wf n dev m).
  - right. exists m'. split; [done|].
    rewrite (fg_poll_idle m _ Hr Hf) in E. injection E as <-. by split.
Qed.

Lemma faulted_final s : rtc step Faulted s -> s = Faulted.
Proof. intros H. inversion H as [|? ? ? Hs]; [done|inversion Hs]. Qed.

(** An invariant of running machines that every step keeps (or that
    ends in a fault) holds in every state reachable from one where it
    holds. *)
Section StepInvariant.
Variable P : machine -> Prop.
Hypothesis P_step : forall m s, P m -> step (Running m) s ->
  s = Faulted \/ exists m', s = Running m' /\ P m'.

Lemma rtc_step_inv m s : P m -> rtc step (Running m) s ->
  s = Faulted \/ exists m', s = Running m' /\ P m'.
Proof.
  intros Hinv Hrun. remember (Running m) as s0 eqn:E. revert m E Hinv.
  induction Hrun as [s|s1 s2 s3 Hs Hrun IH]; intros m -> Hinv; [right; by exists m|].
  destruct (P_step m s2 Hinv Hs) as [->|(m' & -> & Hinv')].
  - left. by apply faulted_final.
  - by apply (IH m').
Qed.

Lemma rtc_step_inv_running m m' : P m -> rtc step (Running m) (Running m') -> P m'.
Proof. intros Hinv Hrun. by destruct (rtc_step_inv m _ Hinv Hrun) as [?|(? & [= <-] & ?)]. Qed.
End StepInvariant.

Lemma reachable_kinv buf0 m s : kinv buf0 m -> rtc step (Running m) s ->
  s = Faulted \/ exists m', s = Running m' /\ kinv buf0 m'.
Proof. apply rtc_step_inv, step_kinv. Qed.

Lemma kernel_boot_screen handler idt_addr buf0 m m0 :
  kernel_boot handler idt_addr buf0 m = Some m0 -> boot_screen_run (m_fb m) = Some (m_fb m0).
Proof.
  unfold kernel_boot, terminal_run_entry. intros H. bind_inv H. injection H as <-.
  repeat match goal with E : m_write _ _ = Some _ |- _ => apply m_write_fb in E as [? E] end.
  cbn [m_fb set_fb] in *. unfold boot_screen_run.
  repeat match goal with E : ?l = Some _ |- context [?l] => rewrite E; cbn [mbind option_bind] end.
  done.
Qed.

Lemma boot_screen_run_canonical vga : length vga = 4000%nat ->
  boot_screen_run (mk_fb 0 0 vga) = boot_screen_run (mk_fb 0 0 blank_screen).
Proof.
  intros Hl. unfold boot_screen_run, terminal_init.
  rewrite !fb_clear_canonical; [done|apply length_blank_screen|done].
Qed.

Lemma boot_screen_blank :
  match boot_screen_run (mk_fb 0 0 blank_screen) with
  | Some f => cursor_row f = 3 /\ cursor_col f = 4 /\
      take 8 (drop (2 * 3 * 80) (fb f)) = [62; 7; 32; 7; 62; 7; 32; 7]
  | None => False
  end.
Proof. vm_compute. auto. Qed.

(** The two outcomes of a poll that does not fault. *)
Lemma fg_poll_poll m st st' r :
  m_fg m = InReadline st -> readline_iter 256 st (m_ring m) = (Poll st', r) ->
  fg_poll m = Some (mk_machine (m_fb m) r (m_idt m) (InReadline st') (m_trace m)).
Proof. intros Hf Hi. unfold fg_poll. rewrite Hf, Hi. reflexivity. Qed.

Lemma fg_poll_return m st n o r :
  m_fg m = InReadline st -> readline_iter 256 st (m_ring m) = (Return n o, r) ->
  fg_poll m = shell_echo m r o.
Proof.
  intros Hf Hi. unfold fg_poll, shell_echo. rewrite Hf, Hi. unfold m_write, set_fb.
  cbn [mbind option_bind m_fb m_trace m_ring m_idt].
  destruct (terminal_write msg_you_typed (m_fb m)) as [[f1 t1]|]; cbn [mbind option_bind m_fb m_trace m_ring m_idt]; [|done].
  destruct (terminal_write o f1) as [[f2 t2]|]; cbn [mbind option_bind m_fb m_trace m_ring m_idt]; [|done].
  destruct (terminal_write msg_next_prompt f2) as [[f3 t3]|]; cbn [mbind option_bind m_fb m_trace m_ring m_idt]; [|done].
  by rewrite !app_assoc.
Qed.

(** Polling with no interrupt runs [readline]'s loop: when the loop
    returns, some number of polls reaches the echo. *)
Lemma fg_run_loop fuel st m n o r :
  m_fg m = InReadline st -> readline_loop fuel 256 st (m_ring m) = (Return n o, r) ->
  exists k, fg_run (S k) m = shell_echo m r o.
Proof.
  revert st m. induction fuel as [|f IH]; intros st m Hf Hl; [done|].
  cbn [readline_loop] in Hl.
  destruct (readline_iter 256 st (m_ring m)) as [[st1|n1 o1|] s1] eqn:Ei; cbn beta iota in Hl.
  - destruct (IH st1 (mk_machine (m_fb m) s1 (m_idt m) (InReadline st1) (m_trace m)) eq_refl Hl)
      as [k Hk].
    exists (S k). change (fg_run (S (S k)) m) with (fg_poll m ≫= fg_run (S k)).
    rewrite (fg_poll_poll m st st1 s1 Hf Ei). cbn [mbind option_bind]. by rewrite Hk.
  - injection Hl as -> -> ->. exists 0%nat. cbn [fg_run].
    rewrite (fg_poll_return m st n o r Hf Ei). by destruct (shell_echo m r o).
  - done.
Qed.

Lemma shell_echo_ok m r o : fb_wf (m_fb m) -> 0 ∈ o ->
  exists m', shell_echo m r o = Some m' /\ fb_wf (m_fb m') /\ m_ring m' = r /\
    m_fg m' = InReadline (mk_rl 0 o) /\
    exists t, write_all (c_string msg_you_typed ++ c_string o ++ c_string msg_next_prompt) (m_fb m) =
      Some (m_fb m', t).
Proof.
  intros Hwf Ho. unfold shell_echo.
  destruct (write_all_wf (c_string msg_you_typed) (m_fb m) Hwf) as (f1 & t1 & E1 & W1).
  rewrite terminal_write_c_string, E1 by in_list. cbn [mbind option_bind].
  destruct (write_all_wf (c_string o) f1 W1) as (f2 & t2 & E2 & W2).
  rewrite terminal_write_c_string, E2 by done. cbn [mbind option_bind].
  destruct (write_all_wf (c_string msg_next_prompt) f2 W2) as (f3 & t3 & E3 & W3).
  rewrite terminal_write_c_string, E3 by in_list. cbn [mbind option_bind].
  eexists. split; [reflexivity|]. cbn [m_fb m_ring m_fg]. do 3 (split; [done|]).
  exists (t1 ++ t2 ++ t3). rewrite write_all_app, E1. cbn [mbind option_bind].
  rewrite write_all_app, E2. cbn [mbind option_bind]. rewrite E3. reflexivity.
Qed.

(** The boot establishes [kinv] on a screen of 2000 cells. *)
Lemma boot_kinv handler idt_addr buf0 vga m0 :
  length vga = 4000%nat -> kernel_boot handler idt_addr buf0 (power_on vga) = Some m0 ->
  kinv buf0 m0.
Proof.
  intros Hl Hb.
  destruct (kernel_boot_ok handler idt_addr buf0 (power_on vga) Hl ltac:(cbn; lia))
    as (m0' & Hb' & Hwf). rewrite Hb in Hb'. injection Hb' as <-.
  destruct (kernel_boot_frame _ _ _ _ _ Hb) as [Hr Hf]. by split.
Qed.

(** ** Properties *)

(** C1: the keyboard never feeds the line reader.  After [kernel_main]
    boots on a 80x25 screen, in every state the machine reaches by any
    interleaving of interrupts (any vector, any byte on port 0x60) and
    foreground polls, either undefined behaviour has happened or the input
    ring buffer is still as initialised (empty) and the foreground is still
    inside the first [readline] with nothing read: [readline] never
    returns and "You typed:" is never printed, because [keyboard_isr]
    calls [terminal_put] instead of [input_put]. *)
Theorem readline_never_returns handler idt_addr buf0 vga m0 s :
  length vga = 4000%nat ->
  kernel_boot handler idt_addr buf0 (power_on vga) = Some m0 ->
  rtc step (Running m0) s ->
  s = Faulted \/ exists m, s = Running m /\ m_ring m = Ring.ring_init /\
    Ring.contents (m_ring m) = [] /\ m_fg m = InReadline (mk_rl 0 buf0).
Proof.
  intros Hl Hb Hrun.
  destruct (reachable_kinv buf0 m0 s (boot_kinv _ _ _ _ _ Hl Hb) Hrun) as [->|(m & -> & [Hr' Hf' _])];
    [by left|right].
  exists m. rewrite Hr'. split; [done|]. split; [done|]. split; [apply Ring.contents_init|done].
Qed.

(** C1 witness: boot, press 'a' (make code 0x1E), then poll: the
    character went to the screen and the foreground still waits. *)
Lemma readline_never_returns_witness :
  exists m0 m1, kernel_boot 0x00100420 0x00105000 (replicate 256 0) (power_on (replicate 4000 0)) = Some m0 /\
    interrupt_handler 33 0x1E m0 = Some m1 /\
    (Running m1 = Faulted \/ exists m, Running m1 = Running m /\ m_ring m = Ring.ring_init /\
       Ring.contents (m_ring m) = [] /\ m_fg m = InReadline (mk_rl 0 (replicate 256 0))).
Proof.
  destruct (kernel_boot_ok 0x00100420 0x00105000 (replicate 256 0) (power_on (replicate 4000 0))
              eq_refl ltac:(cbn; lia)) as (m0 & E0 & Hwf).
  destruct (keyboard_isr_ok 0x1E (m_fb m0) Hwf ltac:(change (u8 0x1E) with 30; lia))
    as (f & t & Ek & _).
  exists m0, (set_fb m0 f (t ++ Pic.pic_acknowledge 33)).
  split; [done|]. split; [unfold interrupt_handler; rewrite Ek; reflexivity|].
  apply (readline_never_returns 0x00100420 0x00105000 (replicate 256 0) (replicate 4000 0) m0);
    [reflexivity|done|].
  apply rtc_once. apply (step_intr 33 0x1E). unfold interrupt_handler. rewrite Ek. reflexivity.
Defined.

(** C8: what can go wrong.  In every state reachable from the boot
    that has not faulted, the screen is well formed, a foreground poll
    changes nothing and cannot fault, and an interrupt faults exactly when
    it is vector 33 with a make code 58..127 on port 0x60 (a key with no
    entry in [sc_ascii]): every other vector and every other byte is
    handled without undefined behaviour. *)
Theorem fault_only_on_unmapped_key handler idt_addr buf0 vga m0 m :
  length vga = 4000%nat ->
  kernel_boot handler idt_addr buf0 (power_on vga) = Some m0 ->
  rtc step (Running m0) (Running m) ->
  fb_wf (m_fb m) /\ fg_poll m = Some m /\
  (forall n dev, interrupt_handler n dev m = None <-> n = 33 /\ 58 <= u8 dev < 128).
Proof.
  intros Hl Hb Hrun.
  destruct (reachable_kinv buf0 m0 _ (boot_kinv _ _ _ _ _ Hl Hb) Hrun) as [?|(m' & [= <-] & [Hr' Hf' Hwf'])];
    [done|].
  split; [done|]. split; [by apply (fg_poll_idle m _ Hr' Hf')|].
  intros n dev. by apply interrupt_handler_None.
Qed.

(** C8 witness: right after the boot; Caps Lock (0x3A) on vector 33 is
    one of the faulting interrupts. *)
Lemma fault_only_on_unmapped_key_witness :
  exists m0, kernel_boot 0x00100420 0x00105000 (replicate 256 0) (power_on (replicate 4000 0)) = Some m0 /\
    fb_wf (m_fb m0) /\ fg_poll m0 = Some m0 /\
    (forall n dev, interrupt_handler n dev m0 = None <-> n = 33 /\ 58 <= u8 dev < 128).
Proof.
  destruct (kernel_boot_ok 0x00100420 0x00105000 (replicate 256 0) (power_on (replicate 4000 0))
              eq_refl ltac:(cbn; lia)) as (m0 & E0 & _).
  exists m0. split; [done|].
  apply (fault_only_on_unmapped_key 0x00100420 0x00105000 (replicate 256 0) (replicate 4000 0) m0 m0);
    [reflexivity|done|apply rtc_refl].
Defined.

(** C25: the boot screen.  Whatever the screen held, after [kernel_main]
    the cursor is at row 3, column 4, and row 3 starts with "> > ": the
    prompt is printed twice, once at the end of "Ready.\n> " in
    [kernel_main] and once by [terminal_run]. *)
Theorem boot_double_prompt handler idt_addr buf0 vga :
  length vga = 4000%nat ->
  exists m0, kernel_boot handler idt_addr buf0 (power_on vga) = Some m0 /\
    cursor_row (m_fb m0) = 3 /\ cursor_col (m_fb m0) = 4 /\
    take 8 (drop (2 * 3 * 80) (fb (m_fb m0))) = [62; 7; 32; 7; 62; 7; 32; 7].
Proof.
  intros Hl.
  destruct (kernel_boot_ok handler idt_addr buf0 (power_on vga) Hl ltac:(cbn; lia))
    as (m0 & Hb & _).
  exists m0. split; [done|].
  pose proof (kernel_boot_screen _ _ _ _ _ Hb) as Hs. cbn [m_fb power_on] in Hs.
  rewrite boot_screen_run_canonical in Hs by done.
  pose proof boot_screen_blank as Hv. rewrite Hs in Hv. exact Hv.
Qed.

(** C25 witness: a screen full of 'A's before the boot. *)
Lemma boot_double_prompt_witness :
  exists m0, kernel_boot 0x00100420 0x00105000 [] (power_on (replicate 4000 65)) = Some m0 /\
    cursor_row (m_fb m0) = 3 /\ cursor_col (m_fb m0) = 4 /\
    take 8 (drop (2 * 3 * 80) (fb (m_fb m0))) = [62; 7; 32; 7; 62; 7; 32; 7].
Proof. apply boot_double_prompt. reflexivity. Defined.

(** C10: the shell loop, were the ring fed.  From a foreground waiting in
    [readline(buffer, 256)] with nothing read yet, if the ring buffer
    holds the characters [cs], a newline and [rest], then polling with no
    interrupt in between reaches, after finitely many iterations, the
    state where [terminal_run] has printed "\nYou typed: ", the returned
    line up to its NUL (the kept characters truncated to 255) and
    "\n> ", left [rest] in the ring and called [readline] again on the
    same buffer.  With the reachability theorem above this isolates the fault in
    [keyboard_isr]: everything after the ring works. *)
Theorem shell_echoes_line m buf cs rest :
  fb_wf (m_fb m) -> Ring.ring_wf (m_ring m) -> m_fg m = InReadline (mk_rl 0 buf) ->
  length buf = 256%nat -> Ring.contents (m_ring m) = cs ++ 10 :: rest -> 10 ∉ cs ->
  exists k m' n o, returned 256 cs buf = Return n o /\ fg_run k m = Some m' /\
    Ring.contents (m_ring m') = rest /\ m_fg m' = InReadline (mk_rl 0 o) /\ fb_wf (m_fb m') /\
    exists t, write_all (c_string msg_you_typed ++ c_string o ++ c_string msg_next_prompt) (m_fb m) =
      Some (m_fb m', t).
Proof.
  intros Hwf Hr Hf Hl Hc Hnl.
  pose proof (Ring.contents_chars _ Hr) as Hch. rewrite Hc, Forall_app in Hch.
  destruct (@readline_line _ Ring.ring_char_queue ring_char_queue_laws buf 256
              (m_ring m) cs rest Hr Hc Hnl (proj1 Hch) ltac:(rewrite Hl; lia))
    as (s' & _ & Hp' & Hrun). specialize (Hrun (S (length cs)) ltac:(lia)).
  assert (Eret : exists n o, returned 256 cs buf = Return n o /\ 0 ∈ o).
  { do 2 eexists. split; [reflexivity|]. apply list_elem_of_In, in_or_app. right. by left. }
  destruct Eret as (n & o & Eret & Ho). rewrite Eret in Hrun. unfold readline in Hrun.
  destruct (fg_run_loop _ _ m n o s' Hf Hrun) as [k Hk].
  destruct (shell_echo_ok m s' o Hwf Ho) as (m' & Em & Hwf' & Hr' & Hf' & Hw).
  exists (S k), m', n, o. rewrite Hk, Em. rewrite Hr'. done.
Qed.

(** C10 witness: "hi" and Enter in the ring, on a blank screen. *)
Lemma shell_echoes_line_witness :
  exists k m' n o,
    returned 256 [104; 105] (replicate 256 0) = Return n o /\
    fg_run k (mk_machine (mk_fb 0 0 (replicate 4000 0)) (Ring.put_all [104; 105; 10] Ring.ring_init)
               idt_state_init (InReadline (mk_rl 0 (replicate 256 0))) []) = Some m' /\
    Ring.contents (m_ring m') = [] /\ m_fg m' = InReadline (mk_rl 0 o) /\ fb_wf (m_fb m') /\
    exists t, write_all (c_string msg_you_typed ++ c_string o ++ c_string msg_next_prompt)
                (mk_fb 0 0 (replicate 4000 0)) = Some (m_fb m', t).
Proof.
  apply (shell_echoes_line
           (mk_machine (mk_fb 0 0 (replicate 4000 0)) (Ring.put_all [104; 105; 10] Ring.ring_init)
              idt_state_init (InReadline (mk_rl 0 (replicate 256 0))) [])
           (replicate 256 0) [104; 105] []).
  - split; cbn; unfold FB_MAX_ROWS, FB_MAX_COLS; [lia|lia|reflexivity].
  - apply Ring.put_all_wf; [apply Ring.ring_init_wf | forall_chars].
  - reflexivity.
  - reflexivity.
  - vm_compute. reflexivity.
  - not_in_list.
Defined.

End Kernel.
