(* ===== verification/System.v ===== *)
(** * The machine with its interrupt hardware

    [Kernel] lets any vector arrive at [interrupt_handler].  This file
    adds the path a hardware interrupt really takes: a device raises an
    IRQ line of the 8259s, the controllers turn it into a vector (or mask
    it), the CPU reads the gate of that vector from the table the IDTR
    points at, and enters the entry stub [interrupt_handler_33], which
    calls [interrupt_handler(33)].  The controller and CPU state are
    derived from the machine's trace: the controllers are [pic_run] over
    every port write since power-on (from any state the firmware left),
    the IDTR is the last [lidt].

    [boot_config] is what the boot leaves: the table with the kernel gate
    at 33 and zeros elsewhere, the IDTR on it, both controllers remapped
    to 32 and 40 with nothing masked.  It holds after [kernel_boot] and
    every later step keeps it, because every event those steps emit is
    [quiet]: screen-controller writes, the keyboard read and the EOI.
    Hence, in every reachable state, IRQ 1 enters the dispatcher with
    vector 33, and every other device line (the timer on IRQ 0 first of
    all) is delivered unmasked to an empty gate and shuts the processor
    down; and a keystroke, followed from the wire through the stub, the
    dispatcher, the keyboard handler and the EOI, has exactly the
    handler's effect and leads to a reachable state again; an arrow key,
    the byte 0xE0 and then a make code past the table, is ignored on its
    first interrupt and makes the second read past [sc_ascii]. *)

From stdpp Require Import relations.
From S2P Require Import Prelude PortIO RingBuffer LineReader Fb Terminal Keyboard Pic Idt Cpu Kernel.

Module System.
Import Fb Terminal Keyboard Pic Idt Cpu Readline Kernel.

(** [interrupt_handler_33]: the entry stub (assembly, not in the
    repository).  As the spec describes the trampoline, it saves the
    foreground's state, calls [interrupt_handler(33)] and returns to the
    foreground. *)
Definition interrupt_handler_33 (dev : Z) (m : machine) : option machine :=
  interrupt_handler 33 dev m.

(** What an IRQ does: nothing (masked), the stub runs, the processor
    resets (triple fault), or something this model does not follow (no
    table loaded yet, a table elsewhere, a gate to other code). *)
Inductive irq_outcome :=
| Masked
| Handled (r : option machine)
| Reset
| Unmodelled.

(** Line [irq] raised with the byte [dev] on the keyboard port; [d1],
    [d2] are the controllers' power-on states, [stub] and [idt_addr] the
    addresses of [interrupt_handler_33] and [idt]. *)
Definition irq_deliver (d1 d2 : I8259) (stub idt_addr irq dev : Z) (m : machine) : irq_outcome :=
  match pic_vector (pic_run PIC1_COMMAND d1 (m_trace m)) (pic_run PIC2_COMMAND d2 (m_trace m)) irq with
  | None => Masked
  | Some v =>
      match idtr_of (m_trace m) with
      | Some r =>
          if decide (base r = idt_addr) then
            match cpu_deliver (idt (m_idt m)) r v with
            | Enter h => if decide (h = stub) then Handled (interrupt_handler_33 dev m) else Unmodelled
            | TripleFault => Reset
            end
          else Unmodelled
      | None => Unmodelled
      end
  end.

(** Events that change neither the IDTR nor the controllers' vector
    bases and masks: no [lidt], no write to a data port, and only the EOI
    command on a command port. *)
Definition quiet (e : hw_event) : Prop :=
  match e with
  | Outb p v => p <> PIC1_DATA /\ p <> PIC2_DATA /\ (p = PIC1_COMMAND \/ p = PIC2_COMMAND -> v = 0x20)
  | Inb _ _ => True
  | Lidt _ _ => False
  end.

(** The configuration [kernel_main] leaves for the interrupt hardware. *)
Record boot_config (stub idt_addr : Z) (d1 d2 : I8259) (m : machine) : Prop := {
  bc_table : idt (m_idt m) = boot_table stub;
  bc_idtr : idtr_of (m_trace m) = Some (mk_idt 2047 idt_addr);
  bc_pic1 : vector_base (pic_run PIC1_COMMAND d1 (m_trace m)) = 32 /\
            imr (pic_run PIC1_COMMAND d1 (m_trace m)) = 0;
  bc_pic2 : vector_base (pic_run PIC2_COMMAND d2 (m_trace m)) = 40 /\
            imr (pic_run PIC2_COMMAND d2 (m_trace m)) = 0
}.

(** ** Lemmas *)

(** Closes [quiet] goals on concrete port writes. *)
Ltac quiet_tac :=
  repeat constructor;
  unfold u16, u8, PIC1_DATA, PIC2_DATA, PIC1_COMMAND, PIC2_COMMAND, PIC1, PIC2;
  repeat match goal with
  | |- context [Z.land (Zpos ?a) (Zpos ?b)] =>
      let v := eval vm_compute in (Z.land (Zpos a) (Zpos b)) in change (Z.land (Zpos a) (Zpos b)) with v
  end; lia.

Lemma pic_run_app cmd d t1 t2 : pic_run cmd d (t1 ++ t2) = pic_run cmd (pic_run cmd d t1) t2.
Proof. unfold pic_run. apply fold_left_app. Qed.

(** A quiet event keeps what [boot_config] records of a controller. *)
Lemma pic_run_quiet cmd d t : cmd = PIC1_COMMAND \/ cmd = PIC2_COMMAND -> Forall quiet t ->
  vector_base (pic_run cmd d t) = vector_base d /\ imr (pic_run cmd d t) = imr d.
Proof.
  intros Hcmd Ht. revert d. induction Ht as [|e t He Ht IH]; intros d; [done|].
  cbn [pic_run fold_left]. fold (pic_run cmd (pic_event cmd d e) t).
  destruct (IH (pic_event cmd d e)) as [-> ->]. destruct e as [p v|p v|b l]; cbn; [|done|done].
  destruct He as (H1 & H2 & H3). unfold PIC1_DATA, PIC2_DATA, PIC1_COMMAND, PIC2_COMMAND in *.
  case_decide as Ep.
  - rewrite (H3 ltac:(lia)). done.
  - rewrite decide_False by lia. done.
Qed.

Lemma quiet_no_lidt t : Forall quiet t -> Forall (fun e => match e with Lidt _ _ => False | _ => True end) t.
Proof. apply Forall_impl. by intros [] ?. Qed.

(** [boot_config] survives quiet events and an unchanged table. *)
Lemma boot_config_extend stub a d1 d2 m m' t :
  boot_config stub a d1 d2 m -> m_idt m' = m_idt m -> m_trace m' = m_trace m ++ t -> Forall quiet t ->
  boot_config stub a d1 d2 m'.
Proof.
  intros [Ht Hr Hp1 Hp2] Hi Htr Hq. split; rewrite ?Htr, ?Hi; [done| |..].
  - rewrite idtr_of_no_lidt; [done|by apply quiet_no_lidt].
  - rewrite pic_run_app. by destruct (pic_run_quiet PIC1_COMMAND (pic_run PIC1_COMMAND d1 (m_trace m)) t ltac:(auto) Hq) as [-> ->].
  - rewrite pic_run_app. by destruct (pic_run_quiet PIC2_COMMAND (pic_run PIC2_COMMAND d2 (m_trace m)) t ltac:(auto) Hq) as [-> ->].
Qed.

Lemma fb_move_cursor_quiet st : Forall quiet (fb_move_cursor st).
Proof. unfold fb_move_cursor, outb, FB_COMMAND_PORT, FB_DATA_PORT. quiet_tac. Qed.

Lemma fb_write_char_quiet c st st' t : fb_write_char c st = Some (st', t) -> Forall quiet t.
Proof.
  unfold fb_write_char. intros H. bind_inv H. injection H as _ <-. apply fb_move_cursor_quiet.
Qed.

Lemma terminal_write_quiet s st st' t : terminal_write s st = Some (st', t) -> Forall quiet t.
Proof.
  revert st st' t. induction s as [|c s IH]; intros st st' t H; [done|]. cbn in H.
  case_decide; [by injection H as _ <-|]. bind_inv H. injection H as _ <-.
  apply Forall_app. split; [by eapply fb_write_char_quiet | by eapply IH].
Qed.

Lemma m_write_quiet s m m' : m_write s m = Some m' ->
  m_idt m' = m_idt m /\ exists t, m_trace m' = m_trace m ++ t /\ Forall quiet t.
Proof.
  unfold m_write. intros H. bind_inv H. injection H as <-. split; [done|].
  eexists. split; [reflexivity|]. by eapply terminal_write_quiet.
Qed.

Lemma keyboard_isr_quiet dev f f' t : keyboard_isr dev f = Some (f', t) -> Forall quiet t.
Proof.
  unfold keyboard_isr, inb. cbn [fst snd]. intros H. bind_inv H.
  destruct x as [c|]; [|by injection H as _ <-; quiet_tac].
  bind_inv H. injection H as _ <-. constructor; [done|]. by eapply fb_write_char_quiet.
Qed.

Lemma pic_acknowledge_quiet n : Forall quiet (pic_acknowledge n).
Proof. unfold pic_acknowledge, outb. case_decide; quiet_tac. Qed.

(** Every step that does not fault keeps [boot_config]. *)
Lemma step_boot_config stub a d1 d2 m s : boot_config stub a d1 d2 m -> step (Running m) s ->
  s = Faulted \/ exists m', s = Running m' /\ boot_config stub a d1 d2 m'.
Proof.
  intros Hc Hs. inversion Hs as [n dev ? m' E| | ? m' E|]; subst; [| by left | | by left]; right;
    exists m'; split; try done.
  - destruct (interrupt_handler_frame _ _ _ _ E) as (_ & Hi & _).
    unfold interrupt_handler in E. case_decide; [|by injection E as <-].
    bind_inv E. injection E as <-.
    eapply (boot_config_extend _ _ _ _ m); [exact Hc | exact Hi | reflexivity |].
    apply Forall_app. split; [by eapply keyboard_isr_quiet | apply pic_acknowledge_quiet].
  - unfold fg_poll in E. destruct (m_fg m) as [st|]; [|done].
    destruct (readline_iter 256 st (m_ring m)) as [[st'|n o|] r].
    + injection E as <-. apply (boot_config_extend _ _ _ _ m _ [] Hc); [done| |done].
      cbn. by rewrite app_nil_r.
    + bind_inv E. injection E as <-.
      apply m_write_quiet in E0 as (I0 & t0 & T0 & Q0), E1 as (I1 & t1 & T1 & Q1),
        E2 as (I2 & t2 & T2 & Q2).
      apply (boot_config_extend _ _ _ _ m _ (t0 ++ t1 ++ t2) Hc); cbn [m_idt m_trace] in *.
      * congruence.
      * rewrite T2, T1, T0. by rewrite !app_assoc.
      * by repeat (apply Forall_app; split).
    + done.
Qed.

Lemma terminal_init_quiet st st' t : terminal_init st = Some (st', t) -> Forall quiet t.
Proof.
  unfold terminal_init, fb_clear. intros H. bind_inv H. injection H as _ <-.
  injection E as _ <-. apply Forall_app. split; [apply fb_move_cursor_quiet | by eapply terminal_write_quiet].
Qed.

(** After the remap sequence and quiet events, both controllers hold
    their new bases and an empty mask. *)
Lemma pic_remap_then_quiet d1 d2 t : Forall quiet t ->
  (vector_base (pic_run PIC1_COMMAND d1 (pic_remap 32 40 ++ t)) = 32 /\
   imr (pic_run PIC1_COMMAND d1 (pic_remap 32 40 ++ t)) = 0) /\
  (vector_base (pic_run PIC2_COMMAND d2 (pic_remap 32 40 ++ t)) = 40 /\
   imr (pic_run PIC2_COMMAND d2 (pic_remap 32 40 ++ t)) = 0).
Proof.
  intros Hq. rewrite !pic_run_app.
  destruct (pic_run_quiet PIC1_COMMAND (pic_run PIC1_COMMAND d1 (pic_remap 32 40)) t ltac:(auto) Hq)
    as [-> ->].
  destruct (pic_run_quiet PIC2_COMMAND (pic_run PIC2_COMMAND d2 (pic_remap 32 40)) t ltac:(auto) Hq)
    as [-> ->].
  rewrite (proj1 (pic_remap_run 32 40 d1 d2)), (proj2 (pic_remap_run 32 40 d1 d2)).
  split; split; reflexivity.
Qed.

(** [kernel_main] establishes [boot_config], whatever the firmware left
    in the controllers. *)
Lemma kernel_boot_config stub a buf0 vga d1 d2 m0 :
  0 <= stub < 2 ^ 32 -> 0 <= a < 2 ^ 32 ->
  kernel_boot stub a buf0 (power_on vga) = Some m0 -> boot_config stub a d1 d2 m0.
Proof.
  intros Hs Ha H. unfold kernel_boot, terminal_run_entry in H. bind_inv H. injection H as <-.
  destruct (m_write_quiet _ _ _ E0) as (I0 & t0 & T0 & Q0).
  destruct (m_write_quiet _ _ _ E2) as (I2 & t2 & T2 & Q2).
  destruct (m_write_quiet _ _ _ E3) as (I3 & t3 & T3 & Q3).
  cbn [m_idt m_trace set_fb power_on] in I0, I2, T0, T2.
  rewrite I0 in E1. unfold interrupts_install_idt in E1.
  rewrite (u32_id stub), set_idt_gate in E1 by (done || (cbn; lia)).
  cbn [mbind option_bind] in E1. injection E1 as <- <-.
  assert (Htr : m_trace x1 = (m_trace x ++ load_idt (mk_idt (u16 (sizeof_idt - 1)) (u32 a))) ++
                             (pic_remap 32 40 ++ t2 ++ t3)).
  { rewrite T3, T2. by rewrite <- !app_assoc. }
  split; cbn [m_idt m_trace].
  - rewrite I3, I2. reflexivity.
  - rewrite Htr, idtr_of_no_lidt.
    + rewrite idtr_of_app, (u32_id a) by done. reflexivity.
    + apply Forall_app. split; [repeat constructor | apply quiet_no_lidt, Forall_app; done].
  - rewrite Htr, pic_run_app. apply (pic_remap_then_quiet _ d2). apply Forall_app. by split.
  - rewrite Htr, pic_run_app. apply (pic_remap_then_quiet d1). apply Forall_app. by split.
Qed.

(** [boot_config] in every state reachable from the boot. *)
Lemma reachable_boot_config stub a buf0 vga d1 d2 m0 m :
  0 <= stub < 2 ^ 32 -> 0 <= a < 2 ^ 32 ->
  kernel_boot stub a buf0 (power_on vga) = Some m0 -> rtc step (Running m0) (Running m) ->
  boot_config stub a d1 d2 m.
Proof.
  intros Hs Ha Hb Hrun. apply (rtc_step_inv_running (boot_config stub a d1 d2) (step_boot_config stub a d1 d2) m0);
    [by eapply kernel_boot_config | done].
Qed.

(** The controllers' routing under [boot_config]: every device line is
    unmasked, lines 0-7 raise 32-39 and lines 8-15 raise 40-47. *)
Lemma pic_vector_boot stub a d1 d2 m irq : boot_config stub a d1 d2 m ->
  pic_vector (pic_run PIC1_COMMAND d1 (m_trace m)) (pic_run PIC2_COMMAND d2 (m_trace m)) irq =
    if decide (0 <= irq < 8 /\ irq <> 2) then Some (32 + irq)
    else if decide (8 <= irq < 16) then Some (40 + (irq - 8)) else None.
Proof.
  intros [_ _ [B1 M1] [B2 M2]]. unfold pic_vector, vector_of. rewrite B1, M1, B2, M2.
  by rewrite !Z.testbit_0_l.
Qed.

(** Delivery of every line under [boot_config]. *)
Lemma irq_deliver_boot stub a d1 d2 m irq dev : 0 <= stub < 2 ^ 32 -> boot_config stub a d1 d2 m ->
  irq_deliver d1 d2 stub a irq dev m =
    if decide (irq = 1) then Handled (interrupt_handler 33 dev m)
    else if decide (0 <= irq < 16 /\ irq <> 2) then Reset else Masked.
Proof.
  intros Hs Hc.
  unfold irq_deliver. rewrite (pic_vector_boot _ _ _ _ _ _ Hc), (bc_idtr _ _ _ _ _ Hc), (bc_table _ _ _ _ _ Hc).
  unfold interrupt_handler_33.
  destruct (decide (0 <= irq < 8 /\ irq <> 2)); [|destruct (decide (8 <= irq < 16))];
    cbn beta iota; cbn [base]; rewrite ?decide_True by done;
    rewrite ?cpu_deliver_boot by lia; repeat case_decide; done || lia.
Qed.

(** ** Properties *)

(** C2: hardware interrupts after the boot.  In every state reachable
    from [kernel_main] (any interleaving of interrupts and foreground
    polls), whatever state the firmware left the controllers in, raising
    IRQ line 1 (the keyboard) enters [interrupt_handler_33] and so the
    dispatcher with vector 33; raising any other device line (0, the
    timer, and 3-15) is not masked, reaches a gate that is not present,
    and the #NP, then the double fault, find no gate either: the
    processor shuts down.  Only line 2, the cascade, raises nothing. *)
Theorem irq_delivery_after_boot stub a buf0 vga d1 d2 m0 m irq dev :
  0 <= stub < 2 ^ 32 -> 0 <= a < 2 ^ 32 ->
  kernel_boot stub a buf0 (power_on vga) = Some m0 -> rtc step (Running m0) (Running m) ->
  irq_deliver d1 d2 stub a irq dev m =
    if decide (irq = 1) then Handled (interrupt_handler 33 dev m)
    else if decide (0 <= irq < 16 /\ irq <> 2) then Reset else Masked.
Proof.
  intros Hs Ha Hb Hrun. apply irq_deliver_boot; [done|].
  by apply (reachable_boot_config stub a buf0 vga d1 d2 m0 m).
Qed.

(** C2 witness: the kernel linked with the stub at 0x00100420 and the
    table at 0x00105000, the controllers as the BIOS leaves them (bases
    8 and 0x70, everything masked); right after the boot the timer's
    line 0 resets the machine and the keyboard's line 1 is handled. *)
Lemma irq_delivery_after_boot_witness :
  exists m0, kernel_boot 0x00100420 0x00105000 (replicate 256 0) (power_on (replicate 4000 0)) = Some m0 /\
    irq_deliver (mk_pic Ready true false 8 4 1 0xFF 0) (mk_pic Ready true false 0x70 2 1 0xFF 0)
      0x00100420 0x00105000 0 0 m0 =
    (if decide (0 = 1) then Handled (interrupt_handler 33 0 m0)
     else if decide (0 <= 0 < 16 /\ 0 <> 2) then Reset else Masked).
Proof.
  destruct (kernel_boot_ok 0x00100420 0x00105000 (replicate 256 0) (power_on (replicate 4000 0))
              eq_refl ltac:(cbn; lia)) as (m0 & E0 & _).
  exists m0. split; [done|].
  apply (irq_delivery_after_boot 0x00100420 0x00105000 (replicate 256 0) (replicate 4000 0) _ _ m0 m0);
    [lia | lia | done | apply rtc_refl].
Defined.

(** C9: a keystroke, from the wire to the screen.  In every state
    reachable after the boot (on a screen of 2000 cells), a key whose
    byte is a release code or a make code inside the table, raised on IRQ
    line 1, is delivered through the controllers and the table to the
    stub and the dispatcher, which does exactly what [keyboard_isr] does
    on the screen, sends the EOI to the primary controller after it, and
    leaves the ring buffer and the foreground untouched; the new state is
    again reachable, so all of the above applies to the next key. *)
Theorem keystroke_after_boot stub a buf0 vga d1 d2 m0 m sc :
  0 <= stub < 2 ^ 32 -> 0 <= a < 2 ^ 32 -> length vga = 4000%nat ->
  kernel_boot stub a buf0 (power_on vga) = Some m0 -> rtc step (Running m0) (Running m) ->
  0 <= sc < 256 -> ~ (58 <= sc < 128) ->
  exists m' t, irq_deliver d1 d2 stub a 1 sc m = Handled (Some m') /\
    rtc step (Running m0) (Running m') /\
    keyboard_isr sc (m_fb m) = Some (m_fb m', t) /\
    m_trace m' = m_trace m ++ t ++ [Outb PIC1_COMMAND 0x20] /\
    m_ring m' = m_ring m /\ m_fg m' = m_fg m.
Proof.
  intros Hs Ha Hl Hb Hrun Hsc Hmk.
  pose proof (reachable_boot_config stub a buf0 vga d1 d2 m0 m Hs Ha Hb Hrun) as Hc.
  pose proof (rtc_step_inv_running (kinv buf0) (step_kinv buf0) m0 m (boot_kinv _ _ _ _ _ Hl Hb) Hrun)
    as [_ _ Hwf].
  destruct (keyboard_isr_ok sc (m_fb m) Hwf ltac:(by rewrite u8_id)) as (f' & t & Ek & _).
  assert (Eh : interrupt_handler 33 sc m = Some (set_fb m f' (t ++ pic_acknowledge 33))).
  { unfold interrupt_handler. rewrite decide_True by done. rewrite Ek. reflexivity. }
  exists (set_fb m f' (t ++ pic_acknowledge 33)), t.
  rewrite irq_deliver_boot, decide_True, Eh by done.
  split; [done|]. split; [eapply rtc_r; [exact Hrun | by apply (step_intr 33 sc)]|].
  split; [done|]. split; [|done]. reflexivity.
Qed.

(** C9 witness: right after the boot, 'a' (make code 0x1E). *)
Lemma keystroke_after_boot_witness :
  exists m0, kernel_boot 0x00100420 0x00105000 (replicate 256 0) (power_on (replicate 4000 0)) = Some m0 /\
    exists m' t, irq_deliver (mk_pic Ready true false 8 4 1 0xFF 0) (mk_pic Ready true false 0x70 2 1 0xFF 0)
                   0x00100420 0x00105000 1 0x1E m0 = Handled (Some m') /\
    rtc step (Running m0) (Running m') /\
    keyboard_isr 0x1E (m_fb m0) = Some (m_fb m', t) /\
    m_trace m' = m_trace m0 ++ t ++ [Outb PIC1_COMMAND 0x20] /\
    m_ring m' = m_ring m0 /\ m_fg m' = m_fg m0.
Proof.
  destruct (kernel_boot_ok 0x00100420 0x00105000 (replicate 256 0) (power_on (replicate 4000 0))
              eq_refl ltac:(cbn; lia)) as (m0 & E0 & _).
  exists m0. split; [done|].
  apply (keystroke_after_boot 0x00100420 0x00105000 (replicate 256 0) (replicate 4000 0) _ _ m0 m0);
    [lia | lia | reflexivity | done | apply rtc_refl | lia | lia].
Defined.

(** C12: an arrow key crashes the kernel.  The keys of the extended set
    send two bytes: the prefix 0xE0, then the make code (0x48 up, 0x4B
    left, 0x4D right, 0x50 down, and the other navigation keys, all in
    58..127).  In every state reachable after the boot, the first
    interrupt on IRQ 1 takes 0xE0, whose bit 7 is set, for a release and
    ignores it: the screen is unchanged and the new state is reachable;
    the second interrupt then makes [keyboard_isr] read [sc_ascii] past
    its 58 entries: undefined behaviour. *)
Theorem extended_key_faults stub a buf0 vga d1 d2 m0 m sc :
  0 <= stub < 2 ^ 32 -> 0 <= a < 2 ^ 32 -> length vga = 4000%nat ->
  kernel_boot stub a buf0 (power_on vga) = Some m0 -> rtc step (Running m0) (Running m) ->
  58 <= sc < 128 ->
  exists m1, irq_deliver d1 d2 stub a 1 0xE0 m = Handled (Some m1) /\
    rtc step (Running m0) (Running m1) /\ m_fb m1 = m_fb m /\
    irq_deliver d1 d2 stub a 1 sc m1 = Handled None.
Proof.
  intros Hs Ha Hl Hb Hrun Hsc.
  assert (Ek : keyboard_isr 0xE0 (m_fb m) = Some (m_fb m, [Inb (u16 KBD_DATA_PORT) 0xE0])).
  { unfold keyboard_isr, inb. cbn [fst snd]. change (u8 0xE0) with 0xE0.
    rewrite kbd_decode_release by lia. reflexivity. }
  set (m1 := set_fb m (m_fb m) ([Inb (u16 KBD_DATA_PORT) 0xE0] ++ pic_acknowledge 33)).
  assert (Eh : interrupt_handler 33 0xE0 m = Some m1).
  { unfold interrupt_handler. rewrite decide_True, Ek by done. reflexivity. }
  assert (Hrun1 : rtc step (Running m0) (Running m1))
    by (eapply rtc_r; [exact Hrun | by apply (step_intr 33 0xE0)]).
  exists m1. rewrite (irq_deliver_boot stub a d1 d2 m), decide_True, Eh by
    (done || by apply (reachable_boot_config stub a buf0 vga d1 d2 m0 m)).
  do 3 (split; [done|]).
  rewrite (irq_deliver_boot stub a d1 d2 m1), decide_True by
    (done || by apply (reachable_boot_config stub a buf0 vga d1 d2 m0 m1)).
  unfold interrupt_handler. rewrite decide_True, keyboard_isr_bad by (rewrite ?u8_id; lia). done.
Qed.

(** C12 witness: right after the boot, the up arrow (0xE0 then 0x48). *)
Lemma extended_key_faults_witness :
  exists m0, kernel_boot 0x00100420 0x00105000 (replicate 256 0) (power_on (replicate 4000 0)) = Some m0 /\
    exists m1, irq_deliver (mk_pic Ready true false 8 4 1 0xFF 0) (mk_pic Ready true false 0x70 2 1 0xFF 0)
                 0x00100420 0x00105000 1 0xE0 m0 = Handled (Some m1) /\
    rtc step (Running m0) (Running m1) /\ m_fb m1 = m_fb m0 /\
    irq_deliver (mk_pic Ready true false 8 4 1 0xFF 0) (mk_pic Ready true false 0x70 2 1 0xFF 0)
      0x00100420 0x00105000 1 0x48 m1 = Handled None.
Proof.
  destruct (kernel_boot_ok 0x00100420 0x00105000 (replicate 256 0) (power_on (replicate 4000 0))
              eq_refl ltac:(cbn; lia)) as (m0 & E0 & _).
  exists m0. split; [done|].
  apply (extended_key_faults 0x00100420 0x00105000 (replicate 256 0) (replicate 4000 0) _ _ m0 m0);
    [lia | lia | reflexivity | done | apply rtc_refl | lia].
Defined.

End System.
