(* ===== verification/Cursor.v ===== *)
(** * The hardware cursor follows the software cursor

    [fb.c] keeps the cursor twice: in the globals [cursor_row] and
    [cursor_col], where the next character goes, and in the VGA
    controller's cursor-location registers, which [fb_move_cursor]
    programs after every change.  This file composes the controller model
    of [Fb] ([crtc_run] over the events of a trace) with the whole
    machine of [Kernel]: after [kernel_main], in every reachable state,
    the controller's cursor, run over every event since power-on from any
    initial register contents, is the position [cursor_row * 80 +
    cursor_col].  The events other components emit (the keyboard read,
    the EOI, [lidt], the 8259 initialisation) do not touch the
    controller's ports ([off_crtc]); every screen operation ends with
    [fb_move_cursor] of its final state ([tracks]). *)

From stdpp Require Import relations.
From S2P Require Import Prelude PortIO RingBuffer LineReader Fb Terminal Keyboard Pic Idt Kernel.

Module Cursor.
Import Fb Terminal Keyboard Pic Idt Readline Kernel.

(** An event that leaves the CRTC alone: not a write to its ports. *)
Definition off_crtc (e : hw_event) : Prop :=
  match e with
  | Outb p _ => p <> FB_COMMAND_PORT /\ p <> FB_DATA_PORT
  | _ => True
  end.

(** The controller, run over the trace [tr] from [d], shows the cursor
    of the screen state [f]. *)
Definition tracks (d : crtc) (tr : trace) (f : fb_state) : Prop :=
  crtc_cursor (crtc_run d tr) = fb_pos f.

(** ** Lemmas *)

(** Closes [off_crtc] goals on concrete port writes. *)
Ltac off_crtc_tac := repeat constructor; vm_compute; discriminate.

Lemma crtc_run_app d t1 t2 : crtc_run d (t1 ++ t2) = crtc_run (crtc_run d t1) t2.
Proof. unfold crtc_run. apply fold_left_app. Qed.

Lemma crtc_run_off d t : Forall off_crtc t -> crtc_run d t = d.
Proof.
  revert d. induction t as [|e t IH]; intros d Ht; [done|].
  inversion Ht as [|? ? He Ht']; subst. cbn. rewrite <- (IH d Ht') at 2. f_equal.
  destruct e as [p v| |]; [|done..]. destruct He as [H1 H2]. cbn.
  rewrite !decide_False by done. done.
Qed.

Lemma tracks_move d tr f : 0 <= fb_pos f < 65536 -> tracks d (tr ++ fb_move_cursor f) f.
Proof. intros Hp. unfold tracks. rewrite crtc_run_app. by apply fb_move_cursor_crtc. Qed.

Lemma tracks_off d tr t f : tracks d tr f -> Forall off_crtc t -> tracks d (tr ++ t) f.
Proof. unfold tracks. intros H Ht. by rewrite crtc_run_app, crtc_run_off. Qed.

Lemma tracks_write_char d tr c f f' t : fb_wf f -> fb_write_char c f = Some (f', t) ->
  fb_wf f' /\ tracks d (tr ++ t) f'.
Proof.
  intros Hwf E. destruct (fb_write_char_wf c f Hwf) as (f1 & E1 & Hwf1).
  rewrite E1 in E. injection E as <- <-. split; [done|].
  apply tracks_move. pose proof (fb_pos_bound f1 Hwf1). lia.
Qed.

(** [terminal_write] keeps the screen well formed and the controller in
    step. *)
Lemma tracks_terminal_write d tr s f f' t : fb_wf f -> tracks d tr f ->
  terminal_write s f = Some (f', t) -> fb_wf f' /\ tracks d (tr ++ t) f'.
Proof.
  revert tr f f' t. induction s as [|c s IH]; intros tr f f' t Hwf Htr E; [done|].
  cbn in E. case_decide.
  { injection E as <- <-. by rewrite app_nil_r. }
  destruct (fb_write_char c f) as [[f1 t1]|] eqn:E1; [|done]. cbn in E.
  destruct (terminal_write s f1) as [[f2 t2]|] eqn:E2; [|done]. cbn in E. injection E as <- <-.
  destruct (tracks_write_char d tr c f f1 t1 Hwf E1) as [Hwf1 Htr1].
  rewrite app_assoc. exact (IH (tr ++ t1) f1 f2 t2 Hwf1 Htr1 E2).
Qed.

Lemma m_write_tracks d s m m' : fb_wf (m_fb m) -> tracks d (m_trace m) (m_fb m) ->
  m_write s m = Some m' -> fb_wf (m_fb m') /\ tracks d (m_trace m') (m_fb m').
Proof.
  intros Hwf Htr E. unfold m_write in E. bind_inv E. injection E as <-.
  by apply (tracks_terminal_write d _ s (m_fb m)).
Qed.

Lemma keyboard_isr_tracks d tr dev f f' t : fb_wf f -> tracks d tr f ->
  keyboard_isr dev f = Some (f', t) -> tracks d (tr ++ t) f'.
Proof.
  intros Hwf Htr E. unfold keyboard_isr, inb in E. cbn [fst snd] in E.
  destruct (kbd_decode (u8 dev)) as [[c|]|]; cbn [mbind option_bind] in E; [|by injection E as <- <-; apply tracks_off; [|repeat constructor]|done].
  destruct (terminal_put c f) as [[f1 t1]|] eqn:E1; [|done]. cbn in E. injection E as <- <-.
  replace (tr ++ _ :: t1) with ((tr ++ [Inb (u16 KBD_DATA_PORT) (u8 dev)]) ++ t1)
    by by rewrite <- app_assoc.
  exact (proj2 (tracks_write_char d _ c f f1 t1 Hwf E1)).
Qed.

Lemma pic_acknowledge_off n : Forall off_crtc (pic_acknowledge n).
Proof. unfold pic_acknowledge. case_decide; off_crtc_tac. Qed.

Lemma install_idt_off h a st st' t : interrupts_install_idt h a st = Some (st', t) ->
  Forall off_crtc t.
Proof.
  unfold interrupts_install_idt. intros E. bind_inv E. injection E as _ <-.
  constructor; [done|]. unfold pic_remap. off_crtc_tac.
Qed.

(** Every step that does not fault keeps the screen well formed and the
    controller in step. *)
Lemma step_tracks d m s : fb_wf (m_fb m) /\ tracks d (m_trace m) (m_fb m) -> step (Running m) s ->
  s = Faulted \/ exists m', s = Running m' /\ fb_wf (m_fb m') /\ tracks d (m_trace m') (m_fb m').
Proof.
  intros [Hwf Htr] Hs.
  inversion Hs as [n dev ? m' E| | ? m' E|]; subst; [| by left | | by left]; right; exists m';
    split; try done.
  - split; [by apply (interrupt_handler_wf n dev m)|].
    unfold interrupt_handler in E. case_decide; [|by injection E as <-].
    bind_inv E. injection E as <-. cbn [set_fb m_trace m_fb].
    rewrite app_assoc. apply tracks_off; [|apply pic_acknowledge_off].
    by apply (keyboard_isr_tracks d _ dev (m_fb m)).
  - unfold fg_poll in E. destruct (m_fg m) as [st|]; [|done].
    destruct (readline_iter 256 st (m_ring m)) as [[st'|n o|] r].
    + by injection E as <-.
    + bind_inv E. injection E as <-.
      apply (m_write_tracks d) in E0 as [Hwf1 Htr1]; [|exact Hwf|exact Htr].
      destruct (m_write_tracks d _ _ _ Hwf1 Htr1 E1) as [Hwf2 Htr2].
      exact (m_write_tracks d _ _ _ Hwf2 Htr2 E2).
    + done.
Qed.

(** [terminal_init] on a screen of 2000 cells: [fb_clear] moves the
    cursor home, the banner keeps it in step. *)
Lemma terminal_init_tracks d tr f f' t : length (fb f) = 4000%nat ->
  terminal_init f = Some (f', t) -> fb_wf f' /\ tracks d (tr ++ t) f'.
Proof.
  intros Hl E. unfold terminal_init in E. destruct (fb_clear_ok f Hl) as (f0 & E0 & Hwf0).
  rewrite E0 in E. cbn [mbind option_bind] in E.
  destruct (terminal_write _ f0) as [[f1 t1]|] eqn:E1; [|done]. cbn [mbind option_bind] in E. injection E as <- <-.
  enough (fb_wf f1 /\ tracks d (tr ++ (fb_move_cursor f0 ++ t1)) f1) as Hg by exact Hg.
  rewrite app_assoc. refine (tracks_terminal_write d _ _ f0 _ _ Hwf0 _ E1).
  apply tracks_move. pose proof (fb_pos_bound f0 Hwf0). lia.
Qed.

(** After [kernel_main], whatever the controller held at power-on. *)
Lemma kernel_boot_tracks d stub a buf0 vga m0 : length vga = 4000%nat ->
  kernel_boot stub a buf0 (power_on vga) = Some m0 ->
  fb_wf (m_fb m0) /\ tracks d (m_trace m0) (m_fb m0).
Proof.
  intros Hl H. unfold kernel_boot, terminal_run_entry in H. bind_inv H. injection H as <-.
  destruct (terminal_init_tracks d [] (m_fb (power_on vga)) _ _ Hl E) as [Hwf1 Htr1].
  apply (m_write_tracks d) in E0 as [Hwf2 Htr2]; [|exact Hwf1|exact Htr1].
  pose proof (install_idt_off _ _ _ _ _ E1) as Hoff.
  apply (m_write_tracks d) in E2 as [Hwf3 Htr3]; [|exact Hwf2|exact (tracks_off d _ _ _ Htr2 Hoff)].
  exact (m_write_tracks d _ _ _ Hwf3 Htr3 E3).
Qed.

(** ** Properties *)

(** C17: the hardware cursor follows the software cursor.  After
    [kernel_main] boots on a 80x25 screen, in every state reachable by
    any interleaving of interrupts and foreground polls, the VGA
    controller's cursor-location registers, as programmed by every port
    write since power-on and whatever they held before, show
    [cursor_row * 80 + cursor_col]: the blinking cursor is where the next
    character will be written. *)
Theorem hw_cursor_tracks stub a buf0 vga m0 m d :
  length vga = 4000%nat -> kernel_boot stub a buf0 (power_on vga) = Some m0 ->
  rtc step (Running m0) (Running m) ->
  crtc_cursor (crtc_run d (m_trace m)) = cursor_row (m_fb m) * 80 + cursor_col (m_fb m).
Proof.
  intros Hl Hb Hrun.
  destruct (rtc_step_inv_running (fun m => fb_wf (m_fb m) /\ tracks d (m_trace m) (m_fb m))
              (step_tracks d) m0 m (kernel_boot_tracks d stub a buf0 vga m0 Hl Hb) Hrun)
    as [_ Htr].
  exact Htr.
Qed.

(** C17 witness: the boot itself (no step), from a screen of 'A's and
    controller registers holding garbage. *)
Lemma hw_cursor_tracks_witness :
  exists m0, kernel_boot 0x00100420 0x00105000 [] (power_on (replicate 4000 65)) = Some m0 /\
    crtc_cursor (crtc_run (mk_crtc 7 0xAB 0xCD) (m_trace m0)) =
      cursor_row (m_fb m0) * 80 + cursor_col (m_fb m0).
Proof.
  destruct (kernel_boot_ok 0x00100420 0x00105000 [] (power_on (replicate 4000 65)))
    as (m0 & Hb & _); [reflexivity | cbn; lia|].
  exists m0. split; [done|].
  apply (hw_cursor_tracks 0x00100420 0x00105000 [] (replicate 4000 65) m0 m0);
    [reflexivity | done | apply rtc_refl].
Defined.

End Cursor.
